(** * ISS tracker: a shallow embedding of [iss_tracker.py]

    The Python module fetches an XML ephemeris, turns it into a list of
    state-vector dictionaries and answers a few HTTP routes over that list.
    The embedding keeps the shape of the source:

    - Python objects are the inductive types [raw] (what [xmltodict.parse]
      builds: [None], strings, lists, dictionaries) and [pyval] (what the
      tracker itself builds: the same plus [int] and [float]);
    - dictionaries are association lists in insertion order;
    - [float] is IEEE binary64, i.e. Rocq's primitive [float];
    - exceptions, the [logging] output and the upstream HTTP answers are
      threaded through the monad [M];
    - the libraries the tracker calls out to ([xmltodict], [astropy],
      [geopy]) and the reading of the clock are parameters of the section
      [Tracker].

    Texts are byte strings; the feed and the URL paths are ASCII. *)

From Stdlib Require Import ZArith List String Ascii Bool Lia Floats DecimalString.
Import ListNotations.

Local Open Scope list_scope.
Local Open Scope string_scope.
Local Open Scope Z_scope.

(* ================================================================== *)
(** * Python objects *)
(* ================================================================== *)

(** The value [xmltodict.parse] returns, and every sub-tree of it. *)
#[warnings="-register-all"]
Inductive raw : Type :=
| RNone
| RStr (s : string)
| RList (items : list raw)
| RDict (entries : list (string * raw)).

(** The objects the tracker computes with after normalisation. *)
#[warnings="-register-all"]
Inductive pyval : Type :=
| PNone
| PInt (z : Z)
| PFloat (f : float)
| PStr (s : string)
| PList (items : list pyval)
| PDict (entries : list (string * pyval)).

(** The exceptions that occur.  The classes of [requests] form a hierarchy
    under [RequestException]; [UnboundLocalError] carries the variable. *)
Inductive exn : Type :=
| KeyError
| TypeError
| ValueError
| IndexError
| ZeroDivisionError
| OverflowError
| UnboundLocalError (var : string)
| RequestException (msg : string)
| ConnectionError (msg : string)
| Timeout (msg : string)
| ExpatError (msg : string)
| OtherError (cls : string).

(** [isinstance(e, requests.exceptions.RequestException)] *)
Definition is_RequestException (e : exn) : bool :=
  match e with
  | RequestException _ | ConnectionError _ | Timeout _ => true
  | _ => false
  end.

(** [isinstance(e, xmltodict.expat.ExpatError)] *)
Definition is_ExpatError (e : exn) : bool :=
  match e with ExpatError _ => true | _ => false end.

Definition is_KeyError (e : exn) : bool :=
  match e with KeyError => true | _ => false end.

(** [isinstance(e, (KeyError, TypeError))] *)
Definition is_KeyError_or_TypeError (e : exn) : bool :=
  match e with KeyError | TypeError => true | _ => false end.

(** [isinstance(e, (ValueError, TypeError))] *)
Definition is_ValueError_or_TypeError (e : exn) : bool :=
  match e with ValueError | TypeError => true | _ => false end.

Definition is_ZeroDivisionError (e : exn) : bool :=
  match e with ZeroDivisionError => true | _ => false end.

Definition is_IndexError (e : exn) : bool :=
  match e with IndexError => true | _ => false end.

(** [str(e)] as it is interpolated into a log line. *)
Definition str_of_exn (e : exn) : string :=
  match e with
  | RequestException m | ConnectionError m | Timeout m | ExpatError m => m
  | UnboundLocalError v => "local variable '" ++ v ++ "' referenced before assignment"
  | _ => ""
  end.

(* ================================================================== *)
(** * Effects: exceptions, the log, the upstream server *)
(* ================================================================== *)

(** What one [requests.get(url)] meets: an exception of the transport, or a
    response with its status code and body. *)
Inductive http_outcome : Type :=
| TransportFailure (e : exn)
| HttpResponse (status_code : Z) (text : string).

Record response : Type := mkResponse { status_code : Z; text : string }.

(** The part of the world the tracker touches: the lines [logging.error]
    has written, and what the upstream server will answer to the GETs still
    to come (one element is used up by each GET). *)
Record world : Type := mkWorld {
  log : list string;
  upstream : list http_outcome
}.

Inductive outcome (A : Type) : Type :=
| Return (a : A)
| Raise (e : exn).
Arguments Return {A} a.
Arguments Raise {A} e.

Definition M (A : Type) : Type := world -> outcome A * world.

Definition ret {A} (a : A) : M A := fun w => (Return a, w).

Definition raise {A} (e : exn) : M A := fun w => (Raise e, w).

Definition bind {A B} (m : M A) (k : A -> M B) : M B :=
  fun w =>
    match m w with
    | (Return a, w') => k a w'
    | (Raise e, w') => (Raise e, w')
    end.

Declare Scope py_scope.
Delimit Scope py_scope with py.
Notation "x <- m ;; k" := (bind m (fun x => k))
  (at level 61, m at next level, right associativity) : py_scope.
Notation "m ;;; k" := (bind m (fun _ => k))
  (at level 61, right associativity) : py_scope.
Local Open Scope py_scope.

(** [try: body  except <classes caught by handler>: handler].  A handler
    answers [None] for an exception its [except] clauses do not match, which
    then propagates. *)
Definition try_except {A} (body : M A) (handler : exn -> option (M A)) : M A :=
  fun w =>
    match body w with
    | (Return a, w') => (Return a, w')
    | (Raise e, w') =>
        match handler e with
        | Some h => h w'
        | None => (Raise e, w')
        end
    end.

(** Runs [m] and hands back how it ended, so that the caller can go on with
    the local variables as they stood at that point. *)
Definition attempt {A} (m : M A) : M (exn + A) :=
  fun w =>
    match m w with
    | (Return a, w') => (Return (inr a), w')
    | (Raise e, w') => (Return (inl e), w')
    end.

(** The world after one more line in the log. *)
Definition logged (w : world) (msg : string) : world :=
  {| log := (log w ++ [msg])%list; upstream := upstream w |}.

(** [logging.error(msg)] *)
Definition logging_error (msg : string) : M unit :=
  fun w => (Return tt, logged w msg).

(** Reading a local variable: a name that no assignment has reached raises
    [UnboundLocalError]. *)
Definition local {A} (name : string) (v : option A) : M A :=
  match v with
  | Some a => ret a
  | None => raise (UnboundLocalError name)
  end.

(** [requests.get(url)]: the next answer of the upstream server.  A server
    with no answer left refuses the connection. *)
Definition requests_get (url : string) : M response :=
  fun w =>
    match upstream w with
    | [] => (Raise (ConnectionError "connection refused"), w)
    | TransportFailure e :: rest =>
        (Raise e, {| log := log w; upstream := rest |})
    | HttpResponse st body :: rest =>
        (Return (mkResponse st body), {| log := log w; upstream := rest |})
    end.

(* ================================================================== *)
(** * Subscripting *)
(* ================================================================== *)

Fixpoint assoc {A} (k : string) (kvs : list (string * A)) : option A :=
  match kvs with
  | [] => None
  | (k', v) :: rest => if String.eqb k k' then Some v else assoc k rest
  end.

(** [d[key]] with a string key, on a tree of the parsed document: a
    dictionary looks the key up ([KeyError] when absent); [None], a string
    and a list cannot be subscripted with a string ([TypeError]). *)
Definition raw_getitem (d : raw) (key : string) : M raw :=
  match d with
  | RDict kvs =>
      match assoc key kvs with
      | Some v => ret v
      | None => raise KeyError
      end
  | RNone | RStr _ | RList _ => raise TypeError
  end.

(** [d[key]] with a string key on a computed value. *)
Definition getitem (d : pyval) (key : string) : M pyval :=
  match d with
  | PDict kvs =>
      match assoc key kvs with
      | Some v => ret v
      | None => raise KeyError
      end
  | PNone | PInt _ | PFloat _ | PStr _ | PList _ => raise TypeError
  end.

(* ================================================================== *)
(** * Strings *)
(* ================================================================== *)

Module Str.

Definition code (c : ascii) : nat := nat_of_ascii c.

(** [c in '0123456789'] *)
Definition is_digit (c : ascii) : bool :=
  (48 <=? code c)%nat && (code c <=? 57)%nat.

Definition digit_value (c : ascii) : Z := Z.of_nat (code c) - 48.

(** The character of a decimal digit [0..9]. *)
Definition digit_char (d : Z) : ascii :=
  match d with
  | 1 => "1" | 2 => "2" | 3 => "3" | 4 => "4" | 5 => "5"
  | 6 => "6" | 7 => "7" | 8 => "8" | 9 => "9" | _ => "0"
  end%char.

Fixpoint all_digits (s : string) : bool :=
  match s with
  | "" => true
  | String c rest => is_digit c && all_digits rest
  end.

(** [int(s)] for a string of decimal digits, most significant first. *)
Fixpoint int_of_digits_from (acc : Z) (s : string) : Z :=
  match s with
  | "" => acc
  | String c rest => int_of_digits_from (10 * acc + digit_value c) rest
  end.

Definition int_of_digits (s : string) : Z := int_of_digits_from 0 s.

(** The longest prefix of decimal digits, and what follows it. *)
Fixpoint span_digits (s : string) : string * string :=
  match s with
  | "" => ("", "")
  | String c rest =>
      if is_digit c
      then let (ds, tl) := span_digits rest in (String c ds, tl)
      else ("", s)
  end.

(** [n] written with exactly [width] decimal digits, zero-filled (the
    digits above the width are cut). *)
Fixpoint zero_padded (width : nat) (n : Z) : string :=
  match width with
  | O => ""
  | S w => zero_padded w (n / 10) ++ String (digit_char (n mod 10)) ""
  end.

(** Upper- and lower-case letters compare equal under [re.IGNORECASE]. *)
Definition lower (c : ascii) : ascii :=
  if (65 <=? code c)%nat && (code c <=? 90)%nat
  then ascii_of_nat (code c + 32) else c.

Definition eqb_nocase (a b : ascii) : bool := Ascii.eqb (lower a) (lower b).

(** [s.replace(old, new)] for a non-empty [old]: the occurrences of [old]
    are found from the left and do not overlap.  [skip] counts the
    characters of an occurrence that are still to be passed over. *)
Fixpoint replace_from (old new : string) (skip : nat) (s : string) : string :=
  match s with
  | "" => ""
  | String c rest =>
      match skip with
      | S k => replace_from old new k rest
      | O =>
          if String.prefix old s
          then new ++ replace_from old new (String.length old - 1) rest
          else String c (replace_from old new 0 rest)
      end
  end.

Definition replace (old new s : string) : string := replace_from old new 0 s.

End Str.

(* ================================================================== *)
(** * [datetime]: the conversions the tracker uses *)
(* ================================================================== *)

Module Datetime.

Record datetime : Type := mkDatetime {
  year : Z; month : Z; day : Z;
  hour : Z; minute : Z; second : Z; microsecond : Z
}.

Definition is_leap (y : Z) : bool :=
  (y mod 4 =? 0) && (negb (y mod 100 =? 0) || (y mod 400 =? 0)).

Definition days_in_year (y : Z) : Z := if is_leap y then 366 else 365.

Definition month_lengths (y : Z) : list Z :=
  [31; if is_leap y then 29 else 28; 31; 30; 31; 30; 31; 31; 30; 31; 30; 31].

(** Month and day of the [n]-th day counted from the first day of month
    [m], the remaining months having the lengths [lens]. *)
Fixpoint month_and_day (lens : list Z) (m n : Z) : Z * Z :=
  match lens with
  | [] => (m, n)
  | len :: rest =>
      if n <=? len then (m, n) else month_and_day rest (m + 1) (n - len)
  end.

(** [date.fromordinal((julian - 1) + date(year, 1, 1).toordinal())]:
    the calendar date of day [julian] of [y].  Day 366 of a common year
    is the first of January of the next year; year 0 and dates after year
    9999 raise [ValueError]. *)
Definition date_of_year_day (y julian : Z) : option (Z * Z * Z) :=
  if (y <? 1) || (9999 <? y) then None
  else if julian <=? days_in_year y
  then let (m, d) := month_and_day (month_lengths y) 1 julian in Some (y, m, d)
  else if 9999 <? y + 1 then None
  else let (m, d) := month_and_day (month_lengths (y + 1)) 1 (julian - days_in_year y) in
       Some (y + 1, m, d).

(** One numeric directive: the longest run of digits, accepted when its
    length is between [lo] and [hi] and [ok] holds of its value. *)
Definition directive (lo hi : nat) (ok : Z -> bool) (s : string)
  : option (string * string) :=
  let (ds, tl) := Str.span_digits s in
  let n := String.length ds in
  if (lo <=? n)%nat && (n <=? hi)%nat && ok (Str.int_of_digits ds)
  then Some (ds, tl) else None.

(** A literal character of the format, matched without regard to case. *)
Definition literal (c : ascii) (s : string) : option string :=
  match s with
  | String c' tl => if Str.eqb_nocase c c' then Some tl else None
  | "" => None
  end.

(** [%f]: one to six digits, read as if zero-filled on the right. *)
Definition fraction_value (ds : string) : Z :=
  Str.int_of_digits ds * 10 ^ Z.of_nat (6 - String.length ds).

(** [datetime.strptime(s, "%Y-%jT%H:%M:%S.%fZ")]; [None] is [ValueError].

    [_strptime] matches the text against the regular expression of the
    format, compiled with [re.IGNORECASE]:
    [%Y] is [\d\d\d\d]; [%j] is [36[0-6]|3[0-5]\d|[1-2]\d\d|0[1-9]\d|00[1-9]|[1-9]\d|0[1-9]|[1-9]];
    [%H] is [2[0-3]|[0-1]\d|\d]; [%M] is [[0-5]\d|\d]; [%S] is
    [6[0-1]|[0-5]\d|\d]; [%f] is [[0-9]{1,6}]; nothing may follow the match.
    Every directive is a run of digits followed by a literal that is not a
    digit, so a directive takes the whole run up to its literal.  The
    constructor of [datetime] then refuses seconds 60 and 61. *)
Definition strptime_epoch (s : string) : option datetime :=
  match directive 4 4 (fun _ => true) s with
  | None => None
  | Some (Y, s1) =>
  match literal "-" s1 with None => None | Some s2 =>
  match directive 1 3 (fun n => (1 <=? n) && (n <=? 366)) s2 with
  | None => None
  | Some (j, s3) =>
  match literal "T" s3 with None => None | Some s4 =>
  match directive 1 2 (fun n => n <=? 23) s4 with
  | None => None
  | Some (H, s5) =>
  match literal ":" s5 with None => None | Some s6 =>
  match directive 1 2 (fun n => n <=? 59) s6 with
  | None => None
  | Some (Mi, s7) =>
  match literal ":" s7 with None => None | Some s8 =>
  match directive 1 2 (fun n => n <=? 61) s8 with
  | None => None
  | Some (Se, s9) =>
  match literal "." s9 with None => None | Some s10 =>
  match directive 1 6 (fun _ => true) s10 with
  | None => None
  | Some (f, s11) =>
  match literal "Z" s11 with
  | Some "" =>
      match date_of_year_day (Str.int_of_digits Y) (Str.int_of_digits j) with
      | None => None
      | Some (y, m, d) =>
          if 59 <? Str.int_of_digits Se then None
          else Some (mkDatetime y m d (Str.int_of_digits H) (Str.int_of_digits Mi)
                                (Str.int_of_digits Se) (fraction_value f))
      end
  | _ => None
  end end end end end end end end end end end end.

(** How the C library's [strftime] writes [%Y], which [datetime.strftime]
    passes on to it: glibc writes the year as a plain decimal number
    ([datetime(999, 1, 1).strftime('%Y')] is ['999'] there); the C libraries
    of BSD, macOS and Windows zero-fill it to four digits. *)
Inductive year_style : Type := Plain | ZeroFilled.

(** The decimal digits of [n], most significant first, [fuel] bounding
    their number. *)
Fixpoint decimal_from (fuel : nat) (n : Z) (acc : string) : string :=
  match fuel with
  | O => acc
  | S k =>
      let acc := String (Str.digit_char (n mod 10)) acc in
      if n / 10 =? 0 then acc else decimal_from k (n / 10) acc
  end.

(** [%Y] of a year in [1..9999]. *)
Definition year_text (style : year_style) (y : Z) : string :=
  match style with
  | ZeroFilled => Str.zero_padded 4 y
  | Plain => decimal_from 4 y ""
  end.

(** [datetime.strftime(t, '%Y-%m-%d %H:%M:%S.%f')]: the month, the day and
    the time of day are zero-filled to two digits, the microseconds to
    six. *)
Definition strftime_canonical (style : year_style) (t : datetime) : string :=
  year_text style (year t) ++ "-" ++ Str.zero_padded 2 (month t) ++ "-"
  ++ Str.zero_padded 2 (day t) ++ " " ++ Str.zero_padded 2 (hour t) ++ ":"
  ++ Str.zero_padded 2 (minute t) ++ ":" ++ Str.zero_padded 2 (second t) ++ "."
  ++ Str.zero_padded 6 (microsecond t).

(** [\s] of [re] on ASCII text: the white space of C and the four
    separators 28 to 31. *)
Definition is_whitespace (c : ascii) : bool :=
  ((9 <=? Str.code c)%nat && (Str.code c <=? 13)%nat)
  || ((28 <=? Str.code c)%nat && (Str.code c <=? 32)%nat).

Fixpoint skip_whitespace (s : string) : string :=
  match s with
  | "" => ""
  | String c rest => if is_whitespace c then skip_whitespace rest else s
  end.

(** [\s+], which [_strptime] puts in the place of the white space of a
    format. *)
Definition whitespace (s : string) : option string :=
  match s with
  | String c rest => if is_whitespace c then Some (skip_whitespace rest) else None
  | "" => None
  end.

(** [%d], that is [3[0-1]|[1-2]\d|0[1-9]|[1-9]| [1-9]]: a run of one or two
    digits worth 1 to 31, or a space and one digit that is not zero. *)
Definition day_directive (s : string) : option (string * string) :=
  match s with
  | String " " rest => directive 1 1 (fun n => 1 <=? n) rest
  | _ => directive 1 2 (fun n => (1 <=? n) && (n <=? 31)) s
  end.

Definition days_in_month (y m : Z) : Z :=
  nth (Z.to_nat (m - 1)) (month_lengths y) 0.

(** [datetime.strptime(s, '%Y-%m-%d %H:%M:%S.%f')]; [None] is [ValueError].

    [%m] is [1[0-2]|0[1-9]|[1-9]]; the other directives are as above.  What
    follows a directive is never a digit, so a directive again takes the
    whole run of digits.  The year 0, a day the month does not have and the
    seconds 60 and 61 are refused when the date is built. *)
Definition strptime_timestamp (s : string) : option datetime :=
  match directive 4 4 (fun _ => true) s with
  | None => None
  | Some (Y, s1) =>
  match literal "-" s1 with None => None | Some s2 =>
  match directive 1 2 (fun n => (1 <=? n) && (n <=? 12)) s2 with
  | None => None
  | Some (m, s3) =>
  match literal "-" s3 with None => None | Some s4 =>
  match day_directive s4 with
  | None => None
  | Some (d, s5) =>
  match whitespace s5 with None => None | Some s6 =>
  match directive 1 2 (fun n => n <=? 23) s6 with
  | None => None
  | Some (H, s7) =>
  match literal ":" s7 with None => None | Some s8 =>
  match directive 1 2 (fun n => n <=? 59) s8 with
  | None => None
  | Some (Mi, s9) =>
  match literal ":" s9 with None => None | Some s10 =>
  match directive 1 2 (fun n => n <=? 61) s10 with
  | None => None
  | Some (Se, s11) =>
  match literal "." s11 with None => None | Some s12 =>
  match directive 1 6 (fun _ => true) s12 with
  | Some (f, "") =>
      let y := Str.int_of_digits Y in
      let m := Str.int_of_digits m in
      let d := Str.int_of_digits d in
      if (y <? 1) || (days_in_month y m <? d) || (59 <? Str.int_of_digits Se) then None
      else Some (mkDatetime y m d (Str.int_of_digits H) (Str.int_of_digits Mi)
                            (Str.int_of_digits Se) (fraction_value f))
  | _ => None
  end end end end end end end end end end end end end.

(** [_days_before_year]: the days before the first of January of [y]. *)
Definition days_before_year (y : Z) : Z :=
  let y := y - 1 in y * 365 + y / 4 - y / 100 + y / 400.

(** [_days_before_month]: the days of the year [y] before the first of
    month [m]. *)
Definition days_before_month (y m : Z) : Z :=
  nth (Z.to_nat m) [0; 0; 31; 59; 90; 120; 151; 181; 212; 243; 273; 304; 334] 0
  + (if (2 <? m) && is_leap y then 1 else 0).

(** [t.toordinal()]: the first of January of the year 1 is day 1. *)
Definition toordinal (t : datetime) : Z :=
  days_before_year (year t) + days_before_month (year t) (month t) + day t.

(** The instant [t] in microseconds.  The difference of two datetimes is
    a [timedelta], which counts whole microseconds; [abs] and [<] on
    [timedelta]s are those of the counts. *)
Definition microseconds (t : datetime) : Z :=
  (((toordinal t * 24 + hour t) * 60 + minute t) * 60 + second t) * 1000000
  + microsecond t.

End Datetime.

(* ================================================================== *)
(** * [float]: parsing and arithmetic *)
(* ================================================================== *)

Module PyFloat.

(** [Py_ISSPACE]: space, and the control characters [\t \n \v \f \r]. *)
Definition is_space (c : ascii) : bool :=
  (Str.code c =? 32)%nat || ((9 <=? Str.code c)%nat && (Str.code c <=? 13)%nat).

Fixpoint lstrip (s : string) : string :=
  match s with
  | String c rest => if is_space c then lstrip rest else s
  | "" => ""
  end.

Fixpoint rstrip (s : string) : string :=
  match s with
  | "" => ""
  | String c rest =>
      match rstrip rest with
      | "" => if is_space c then "" else String c ""
      | rest' => String c rest'
      end
  end.

Definition strip (s : string) : string := rstrip (lstrip s).

(** The underscores of a numeric literal: each must stand between two
    digits, and is then dropped ([_Py_string_to_number_with_underscores]). *)
Fixpoint drop_underscores (prev : ascii) (s : string) : option string :=
  match s with
  | "" => if Ascii.eqb prev "_" then None else Some ""
  | String c rest =>
      if Ascii.eqb c "_"
      then if Str.is_digit prev then drop_underscores c rest else None
      else if Ascii.eqb prev "_" && negb (Str.is_digit c) then None
      else option_map (String c) (drop_underscores c rest)
  end.

(** An optional sign; [true] is minus. *)
Definition sign_of (s : string) : bool * string :=
  match s with
  | String "-" rest => (true, rest)
  | String "+" rest => (false, rest)
  | _ => (false, s)
  end.

Fixpoint eqb_nocase (a b : string) : bool :=
  match a, b with
  | "", "" => true
  | String x a', String y b' => Str.eqb_nocase x y && eqb_nocase a' b'
  | _, _ => false
  end.

Fixpoint strip_leading_zeros (s : string) : string :=
  match s with
  | String "0" rest => strip_leading_zeros rest
  | _ => s
  end.

(** [a / b] for [0 <= a], [0 < b], rounded once to the nearest binary64,
    ties to even, with the sign [neg].  The quotient is taken with at
    least 64 significant bits and a sticky bit for the remainder, which
    [binary_normalize] then rounds. *)
Definition round_quotient (neg : bool) (a b : Z) : float :=
  if a =? 0 then (if neg then neg_zero else zero)
  else
    let shift := Z.max 0 (Z.log2 b + 66 - Z.log2 a) in
    let n := a * 2 ^ shift in
    let sticky := if n mod b =? 0 then 0 else 1 in
    SF2Prim (binary_normalize prec emax (cond_Zopp neg (2 * (n / b) + sticky))
                              (- shift - 1) neg).

(** The binary64 nearest to [mant * 10 ^ e10] ([mant >= 0]), as
    [_Py_dg_strtod] computes it: out-of-range magnitudes become an
    infinity or a zero without any exception. *)
Definition of_decimal (neg : bool) (mant e10 : Z) (ndigits : Z) : float :=
  if mant =? 0 then (if neg then neg_zero else zero)
  else if 310 <? ndigits + e10 then (if neg then neg_infinity else infinity)
  else if ndigits + e10 <? -330 then (if neg then neg_zero else zero)
  else if 0 <=? e10 then round_quotient neg (mant * 10 ^ e10) 1
  else round_quotient neg mant (10 ^ (- e10)).

(** The exponent part, when present: [e] or [E], an optional sign and at
    least one digit, up to the end of the text. *)
Definition exponent_of (s : string) : option Z :=
  match s with
  | "" => Some 0
  | String c rest =>
      if Str.eqb_nocase c "e"
      then let (neg, ds) := sign_of rest in
           match ds with
           | "" => None
           | _ => if Str.all_digits ds
                  then Some (if neg then - Str.int_of_digits ds else Str.int_of_digits ds)
                  else None
           end
      else None
  end.

(** [digits [. digits] [exponent]] or [. digits [exponent]] *)
Definition decimal_of (neg : bool) (s : string) : option float :=
  let (ip, s1) := Str.span_digits s in
  let '(fp, s2) :=
    match s1 with
    | String "." rest => Str.span_digits rest
    | _ => ("", s1)
    end in
  match (ip ++ fp)%string with
  | "" => None
  | ds =>
      match exponent_of s2 with
      | None => None
      | Some e =>
          Some (of_decimal neg (Str.int_of_digits ds)
                  (e - Z.of_nat (String.length fp))
                  (Z.of_nat (String.length (strip_leading_zeros ds))))
      end
  end.

(** [float(s)] for a string; [None] is [ValueError]. *)
Definition of_string (s : string) : option float :=
  match drop_underscores Ascii.zero (strip s) with
  | None => None
  | Some t =>
      let (neg, body) := sign_of t in
      if eqb_nocase body "inf" || eqb_nocase body "infinity"
      then Some (if neg then neg_infinity else infinity)
      else if eqb_nocase body "nan" then Some nan
      else decimal_of neg body
  end.

(** [PyLong_AsDouble]: the nearest binary64, ties to even, and
    [OverflowError] when that is beyond the largest finite one, that is from
    [2^1024 - 2^970] on (half-way between the largest double and
    [2^1024]). *)
Definition of_int (z : Z) : M float :=
  if 2 ^ 1024 - 2 ^ 970 <=? Z.abs z then raise OverflowError
  else ret (SF2Prim (binary_normalize prec emax z 0 false)).

(** The C library's [pow(x, 2.0)], which [float_pow] calls for a finite
    [x] above zero other than one.  The C standard does not ask it to be
    correctly rounded (glibc's differs from [x * x] in the last bit for
    some [x]); all that is used of it is that it is never below zero. *)
Record math_library : Type := mkMathLibrary {
  pow2 : float -> float;
  pow2_not_below_zero : forall x, PrimFloat.ltb (pow2 x) 0 = false
}.

(** The value of [x ** 2] ([float_pow]): NaN, the infinities, zero and
    plus or minus one are answered directly, anything else by [pow] on
    the absolute value. *)
Definition power2 (libm : math_library) (x : float) : float :=
  if is_nan x then x
  else if is_infinity x then abs x
  else if PrimFloat.eqb x 0 then 0%float
  else if PrimFloat.eqb (abs x) 1 then 1%float
  else pow2 libm (abs x).

(** [x ** 2] on a float: [OverflowError] when [pow] reports a range
    error.  [_Py_ADJUST_ERANGE1] raises the error for an infinite result
    and clears it for a zero one; the C library is taken to report none
    for any other result, as glibc does. *)
Definition square (libm : math_library) (x : float) : M float :=
  let r := power2 libm x in
  if is_finite x && is_infinity r then raise OverflowError else ret r.

End PyFloat.

(* ================================================================== *)
(** * Built-in operations on objects *)
(* ================================================================== *)

Definition lift {A} (o : outcome A) : M A := fun w => (o, w).

(** [float(v)] on a tree of the parsed document: a string is parsed
    ([ValueError] when it is no number); [None], a list and a dictionary
    are not accepted ([TypeError]). *)
Definition raw_float (v : raw) : M float :=
  match v with
  | RStr s =>
      match PyFloat.of_string s with
      | Some f => ret f
      | None => raise ValueError
      end
  | RNone | RList _ | RDict _ => raise TypeError
  end.

Fixpoint chars (s : string) : list string :=
  match s with
  | "" => []
  | String c rest => String c "" :: chars rest
  end.

(** [iter(v)]: the elements of a list, the keys of a dictionary, the
    characters of a string; [None] is not iterable. *)
Definition raw_iter (v : raw) : M (list raw) :=
  match v with
  | RList items => ret items
  | RDict kvs => ret (map (fun kv => RStr (fst kv)) kvs)
  | RStr s => ret (map RStr (chars s))
  | RNone => raise TypeError
  end.

Definition py_iter (v : pyval) : M (list pyval) :=
  match v with
  | PList items => ret items
  | PDict kvs => ret (map (fun kv => PStr (fst kv)) kvs)
  | PStr s => ret (map PStr (chars s))
  | PNone | PInt _ | PFloat _ => raise TypeError
  end.

(** [len(v)] *)
Definition py_len (v : pyval) : M pyval :=
  match v with
  | PList items => ret (PInt (Z.of_nat (List.length items)))
  | PDict kvs => ret (PInt (Z.of_nat (List.length kvs)))
  | PStr s => ret (PInt (Z.of_nat (String.length s)))
  | PNone | PInt _ | PFloat _ => raise TypeError
  end.

(** The C double of a number, as the float operations take their operands. *)
Definition as_double (v : pyval) : M float :=
  match v with
  | PFloat f => ret f
  | PInt z => PyFloat.of_int z
  | _ => raise TypeError
  end.

(** [v ** 2] *)
Definition py_square (libm : PyFloat.math_library) (v : pyval) : M pyval :=
  match v with
  | PInt z => ret (PInt (z * z))
  | PFloat f => r <- PyFloat.square libm f ;; ret (PFloat r)
  | _ => raise TypeError
  end.

(** [a + b] *)
Definition py_add (a b : pyval) : M pyval :=
  match a, b with
  | PInt x, PInt y => ret (PInt (x + y))
  | PInt _, PFloat _ | PFloat _, PInt _ | PFloat _, PFloat _ =>
      x <- as_double a ;; y <- as_double b ;; ret (PFloat (PrimFloat.add x y))
  | PStr s, PStr t => ret (PStr (s ++ t))
  | PList s, PList t => ret (PList (s ++ t)%list)
  | _, _ => raise TypeError
  end.

(** [math.sqrt(v)] *)
Definition math_sqrt (v : pyval) : M pyval :=
  x <- as_double v ;;
  if PrimFloat.ltb x 0 then raise ValueError else ret (PFloat (PrimFloat.sqrt x)).

(** [a / b].  Two ints are divided exactly and rounded once; otherwise
    both operands are taken as doubles and a divisor equal to zero raises
    [ZeroDivisionError] (an int divisor is zero as a double exactly when
    it is the int 0). *)
Definition py_truediv (a b : pyval) : M pyval :=
  match a, b with
  | PInt x, PInt y =>
      if y =? 0 then raise ZeroDivisionError
      else
        let q := PyFloat.round_quotient (xorb (x <? 0) (y <? 0)) (Z.abs x) (Z.abs y) in
        if is_infinity q then raise OverflowError else ret (PFloat q)
  | PFloat x, PInt y =>
      y' <- PyFloat.of_int y ;;
      if y =? 0 then raise ZeroDivisionError
      else ret (PFloat (PrimFloat.div x y'))
  | PInt _, PFloat y | PFloat _, PFloat y =>
      x <- as_double a ;;
      if PrimFloat.eqb y 0 then raise ZeroDivisionError
      else ret (PFloat (PrimFloat.div x y))
  | _, _ => raise TypeError
  end.

(** [v[i]] with an integer index: a negative index counts from the end;
    an index outside a list or a string raises [IndexError]; a dictionary
    of string keys has no integer key. *)
Definition py_index (v : pyval) (i : Z) : M pyval :=
  let at_index {A} (items : list A) (wrap : A -> pyval) : M pyval :=
    let len := Z.of_nat (List.length items) in
    let j := if i <? 0 then i + len else i in
    if j <? 0 then raise IndexError
    else match nth_error items (Z.to_nat j) with
         | Some x => ret (wrap x)
         | None => raise IndexError
         end in
  match v with
  | PList items => at_index items (fun x => x)
  | PStr s => at_index (chars s) PStr
  | PDict _ => raise KeyError
  | PNone | PInt _ | PFloat _ => raise TypeError
  end.

(** The loop of [min(..., key=key)] once a first item has been seen: a
    later item replaces the best one only when its key is smaller. *)
Fixpoint min_loop (key : pyval -> M Z) (items : list pyval) (minitem : pyval) (minval : Z)
  : M pyval :=
  match items with
  | [] => ret minitem
  | item :: rest =>
      val <- key item ;;
      if val <? minval then min_loop key rest item val
      else min_loop key rest minitem minval
  end.

(** [min(v, key=key)], the keys being [timedelta]s. *)
Definition py_min (key : pyval -> M Z) (v : pyval) : M pyval :=
  items <- py_iter v ;;
  match items with
  | [] => raise ValueError
  | item :: rest => val <- key item ;; min_loop key rest item val
  end.

(** [a == b] where [b] is a string. *)
Definition py_eq_str (a : pyval) (b : string) : bool :=
  match a with
  | PStr s => String.eqb s b
  | _ => false
  end.

(** The bounds of [l[start:stop]] ([PySlice_AdjustIndices], step 1): a
    negative index counts from the end, and both are cut to [0..len]. *)
Definition slice_index (len i : Z) : Z :=
  if i <? 0 then Z.max 0 (i + len) else Z.min i len.

Definition slice {A} (l : list A) (start : Z) (stop : option Z) : list A :=
  let len := Z.of_nat (List.length l) in
  let a := slice_index len start in
  let b := match stop with Some s => slice_index len s | None => len end in
  firstn (Z.to_nat (b - a)) (skipn (Z.to_nat a) l).

(** [v[start:stop]] *)
Definition py_slice (v : pyval) (start : Z) (stop : option Z) : M pyval :=
  match v with
  | PList items => ret (PList (slice items start stop))
  | PStr s => ret (PStr (string_of_list_ascii (slice (list_ascii_of_string s) start stop)))
  | _ => raise TypeError
  end.

(* ================================================================== *)
(** * The tracker *)
(* ================================================================== *)

(** What [astropy]'s [EarthLocation] exposes of a position: [lat.deg],
    [lon.deg], [height.value]. *)
Record earth_location : Type := mkEarthLocation {
  lat_deg : float;
  lon_deg : float;
  height_value : float
}.

(** What a view function hands to Flask: a body (status 200), or a body
    with a status code. *)
Inductive view : Type :=
| Body (v : pyval)
| BodyStatus (v : pyval) (status : Z).

Definition view_body (r : view) : pyval :=
  match r with Body v | BodyStatus v _ => v end.

Definition view_status (r : view) : Z :=
  match r with Body _ => 200 | BodyStatus _ st => st end.

(** [request.args.get(name, default=..., type=int)] of the two parameters of
    [/epochs]: the integer, or [None] when the parameter is absent or is
    not the text of an integer (the default is then used). *)
Record query : Type := mkQuery {
  arg_limit : option Z;
  arg_offset : option Z
}.

Definition args_get {A} (arg : option Z) (default : A) (some : Z -> A) : A :=
  match arg with
  | Some z => some z
  | None => default
  end.

Definition url : string :=
  "https://nasa-public-data.s3.amazonaws.com/iss-coords/current/ISS_OEM/ISS.OEM_J2K_EPH.xml".

(** [repr(response)] *)
Definition repr_response (r : response) : string :=
  "<Response [" ++ NilZero.string_of_int (Z.to_int (status_code r)) ++ "]>".

Section Tracker.

(** The C library the interpreter is linked with, for [%Y]. *)
Variable libc : Datetime.year_style.

(** Its mathematical part, for [**]. *)
Variable libm : PyFloat.math_library.

(** What the clock reads, in UTC, when [datetime.now(pytz.utc)] is called. *)
Variable utcnow : Datetime.datetime.

(** [xmltodict.parse(text)]: the tree of the document, or the exception it
    raises: an [ExpatError] on text that is not well-formed XML, or another
    one (a [ValueError] on a declaration of an entity, entities being
    disabled). *)
Variable xmltodict_parse : string -> outcome raw.

(** [Time(datetime.strptime(ts, '%Y-%m-%d %H:%M:%S.%f').timestamp(),
    format='unix', scale='utc')] on the object under ['timestamp']. *)
Variable obstime : pyval -> outcome float.

(** The four [astropy] calls from [CartesianRepresentation] to
    [EarthLocation], on the objects under ['x'], ['y'], ['z']. *)
Variable to_earth_location : float -> pyval -> pyval -> pyval -> outcome earth_location.

(** [geocoder.reverse((lat, lon), zoom=15, language='en')]: the address of
    the place found, or [None]. *)
Variable geocoder_reverse : float -> float -> outcome (option string).

Definition fetch_data : M raw :=
  let handlers (response : option response) (e : exn) : M raw :=
    if is_RequestException e then
      r <- local "response" response ;;
      logging_error ("Error fetching data: " ++ str_of_exn e ++ " " ++ repr_response r) ;;;
      ret RNone
    else if is_ExpatError e then
      r <- local "response" response ;;
      logging_error ("Error parsing XML data: " ++ str_of_exn e ++ " " ++ repr_response r) ;;;
      ret RNone
    else raise e in
  got <- attempt (requests_get url) ;;
  match got with
  | inl e => handlers None e
  | inr response =>
      try_except
        (if negb (status_code response =? 200) then raise (RequestException "")
         else lift (xmltodict_parse (text response)))
        (fun e => Some (handlers (Some response) e))
  end.

(** [d[k1][k2]...] *)
Fixpoint subscripts (d : raw) (keys : list string) : M raw :=
  match keys with
  | [] => ret d
  | k :: ks => v <- raw_getitem d k ;; subscripts v ks
  end.

Definition missing_key {A} (empty : A) (e : exn) : option (M A) :=
  if is_KeyError e
  then Some (logging_error "Error: Missing or incorrect key in data dictionary" ;;; ret empty)
  else None.

Definition format_header (data_dict : raw) : M raw :=
  try_except (subscripts data_dict ["ndm"; "oem"; "header"])
             (missing_key (RDict [])).

Definition format_comment (data_dict : raw) : M raw :=
  try_except (subscripts data_dict ["ndm"; "oem"; "body"; "segment"; "data"; "COMMENT"])
             (missing_key (RList [])).

Definition format_metadata (data_dict : raw) : M raw :=
  try_except (subscripts data_dict ["ndm"; "oem"; "body"; "segment"; "metadata"])
             (missing_key (RDict [])).

(** [datetime.strptime(v, "%Y-%jT%H:%M:%S.%fZ")] *)
Definition strptime (v : raw) : M Datetime.datetime :=
  match v with
  | RStr s =>
      match Datetime.strptime_epoch s with
      | Some t => ret t
      | None => raise ValueError
      end
  | RNone | RList _ | RDict _ => raise TypeError
  end.

(** [float(stateVector[key]['#text'])] *)
Definition component (stateVector : raw) (key : string) : M pyval :=
  v <- raw_getitem stateVector key ;;
  t <- raw_getitem v "#text" ;;
  f <- raw_float t ;;
  ret (PFloat f).

(** The body of the [try] inside the loop of [format_data]: the dictionary
    that is appended. *)
Definition formatted_entry (stateVector : raw) : M pyval :=
  e <- raw_getitem stateVector "EPOCH" ;;
  timestamp <- strptime e ;;
  let timestamp := Datetime.strftime_canonical libc timestamp in
  x <- component stateVector "X" ;;
  y <- component stateVector "Y" ;;
  z <- component stateVector "Z" ;;
  dx <- component stateVector "X_DOT" ;;
  dy <- component stateVector "Y_DOT" ;;
  dz <- component stateVector "Z_DOT" ;;
  ret (PDict [("timestamp", PStr timestamp); ("x", x); ("y", y); ("z", z);
              ("dx", dx); ("dy", dy); ("dz", dz)]).

(** The [for] loop of [format_data], [formatted_data] being the list built
    so far. *)
Fixpoint format_data_loop (data_list : list raw) (formatted_data : list pyval)
  : M (list pyval) :=
  match data_list with
  | [] => ret formatted_data
  | stateVector :: rest =>
      formatted_data <-
        try_except
          (entry <- formatted_entry stateVector ;;
           ret (formatted_data ++ [entry])%list)
          (fun e =>
             if is_KeyError e then
               Some (logging_error "Error: Missing or incorrect key in state vector" ;;;
                     ret formatted_data)
             else if is_ValueError_or_TypeError e then
               Some (logging_error "Error: Unable to parse data to the correct format" ;;;
                     ret formatted_data)
             else None) ;;
      format_data_loop rest formatted_data
  end.

Definition state_vector_path : list string :=
  ["ndm"; "oem"; "body"; "segment"; "data"; "stateVector"].

Definition format_data (data_dict : raw) : M pyval :=
  got <- try_except
           (data_list <- subscripts data_dict state_vector_path ;; ret (inr data_list))
           (missing_key (inl (PList []))) ;;
  match got with
  | inl formatted_data => ret formatted_data
  | inr data_list =>
      items <- raw_iter data_list ;;
      formatted_data <- format_data_loop items [] ;;
      ret (PList formatted_data)
  end.

(** Returns the pair [(first_epoch, last_epoch)], or [None]. *)
Definition calculate_data_range (formatted_data : pyval) : M (option (pyval * pyval)) :=
  try_except
    (first <- py_index formatted_data 0 ;;
     first_epoch <- getitem first "timestamp" ;;
     last <- py_index formatted_data (-1) ;;
     last_epoch <- getitem last "timestamp" ;;
     ret (Some (first_epoch, last_epoch)))
    (fun e =>
       if is_IndexError e then
         Some (logging_error "Error: Empty formatted_data list" ;;; ret None)
       else None).

(** [datetime.strptime(v, '%Y-%m-%d %H:%M:%S.%f')] *)
Definition strptime_canonical (v : pyval) : M Datetime.datetime :=
  match v with
  | PStr s =>
      match Datetime.strptime_timestamp s with
      | Some t => ret t
      | None => raise ValueError
      end
  | PNone | PInt _ | PFloat _ | PList _ | PDict _ => raise TypeError
  end.

Definition find_closest_epoch (formatted_data : pyval) : M pyval :=
  try_except
    (let current_time := Datetime.strftime_canonical libc utcnow in
     current_time <- strptime_canonical (PStr current_time) ;;
     py_min (fun x =>
               ts <- getitem x "timestamp" ;;
               t <- strptime_canonical ts ;;
               ret (Z.abs (Datetime.microseconds current_time - Datetime.microseconds t)))
            formatted_data)
    (fun e =>
       if is_ValueError_or_TypeError e then
         Some (logging_error "Error: Unable to calculate closest epoch" ;;; ret PNone)
       else None).

(** [math.sqrt(data['dx'] ** 2 + data['dy'] ** 2 + data['dz'] ** 2)] *)
Definition speed_of (data : pyval) : M pyval :=
  dx <- getitem data "dx" ;; dx2 <- py_square libm dx ;;
  dy <- getitem data "dy" ;; dy2 <- py_square libm dy ;;
  s <- py_add dx2 dy2 ;;
  dz <- getitem data "dz" ;; dz2 <- py_square libm dz ;;
  s <- py_add s dz2 ;;
  math_sqrt s.

Fixpoint total_speed_loop (items : list pyval) (total_speed : pyval) : M pyval :=
  match items with
  | [] => ret total_speed
  | data :: rest =>
      v <- speed_of data ;;
      total_speed <- py_add total_speed v ;;
      total_speed_loop rest total_speed
  end.

Definition calculate_average_speed (formatted_data : pyval) : M pyval :=
  try_except
    (items <- py_iter formatted_data ;;
     total_speed <- total_speed_loop items (PInt 0) ;;
     n <- py_len formatted_data ;;
     py_truediv total_speed n)
    (fun e =>
       if is_KeyError_or_TypeError e then
         Some (logging_error "Error: Missing or incorrect keys in closest_epoch" ;;;
               ret PNone)
       else if is_ZeroDivisionError e then
         Some (logging_error "Error: Empty formatted_data list (division by zero)" ;;;
               ret PNone)
       else None).

Definition calculate_instantaneous_speed (closest_epoch : pyval) : M pyval :=
  try_except
    (speed_of closest_epoch)
    (fun e =>
       if is_KeyError_or_TypeError e then
         Some (logging_error "Error: Missing or incorrect keys in closest_epoch" ;;;
               ret PNone)
       else None).

(** [lon = lon + 90 - 15], then [if lon > 180: lon -= 180*2]. *)
Definition corrected_longitude (lon : float) : float :=
  let lon := PrimFloat.sub (PrimFloat.add lon 90) 15 in
  if PrimFloat.ltb 180 lon then PrimFloat.sub lon 360 else lon.

Definition cartesian_to_geo (epoch : pyval) : M pyval :=
  (* first try: the observation time; [inl] is a return from the function *)
  got <- try_except
           (ts <- getitem epoch "timestamp" ;;
            unix_timestamp <- lift (obstime ts) ;;
            ret (inr unix_timestamp))
           (fun e =>
              if is_KeyError_or_TypeError e then
                Some (logging_error "Error: Missing or incorrect timestamp key in epoch" ;;;
                      ret (inl PNone))
              else None) ;;
  match got with
  | inl v => ret v
  | inr unix_timestamp =>
  (* second try: the frame change; [inr None] is [ears] left unbound *)
  got <- try_except
           (x <- getitem epoch "x" ;;
            y <- getitem epoch "y" ;;
            z <- getitem epoch "z" ;;
            ears <- lift (to_earth_location unix_timestamp x y z) ;;
            ret (inr (Some ears)))
           (fun e =>
              if is_KeyError_or_TypeError e then
                Some (logging_error "Error: Missing or incorrect positional keys in epoch" ;;;
                      ret (inl PNone))
              else
                Some (logging_error "Error: Something went wrong with coordinate transformations" ;;;
                      ret (inr None))) ;;
  match got with
  | inl v => ret v
  | inr ears =>
      (* [ears.lon.deg] is the first use of [ears] *)
      ears <- local "ears" ears ;;
      let lon := corrected_longitude (lon_deg ears) in
      geoloc <- lift (geocoder_reverse (lat_deg ears) lon) ;;
      let geo := [PDict [("lat", PFloat (lat_deg ears));
                         ("lon", PFloat lon);
                         ("alt", PFloat (height_value ears));
                         ("geoloc", PStr match geoloc with
                                         | Some address => address
                                         | None => "Over Ocean or Unknown"
                                         end)]] in
      ret (PList geo)
  end
  end.

Definition get_header : M raw :=
  data_dict <- fetch_data ;;
  format_header data_dict.

Definition get_comment : M raw :=
  data_dict <- fetch_data ;;
  format_comment data_dict.

Definition get_metadata : M raw :=
  data_dict <- fetch_data ;;
  format_metadata data_dict.

Definition get_epochs (args : query) : M view :=
  data_dict <- fetch_data ;;
  formatted_data <- format_data data_dict ;;
  let limit := args_get (arg_limit args) None Some in
  let offset := args_get (arg_offset args) 0 (fun z => z) in
  formatted_data <-
    match limit with
    | Some limit => py_slice formatted_data offset (Some (offset + limit))
    | None => py_slice formatted_data offset None
    end ;;
  ret (Body formatted_data).

(** The loop of [get_epoch] with its fall-through [return]. *)
Fixpoint get_epoch_loop (items : list pyval) (epoch : string) : M view :=
  match items with
  | [] => ret (BodyStatus (PDict [("error", PStr "Epoch not found")]) 404)
  | data :: rest =>
      ts <- getitem data "timestamp" ;;
      if py_eq_str ts epoch then ret (Body data) else get_epoch_loop rest epoch
  end.

Definition decode_epoch (epoch : string) : string :=
  Str.replace "_" ":" (Str.replace "__" " " epoch).

Definition get_epoch (epoch : string) : M view :=
  let epoch := decode_epoch epoch in
  data_dict <- fetch_data ;;
  formatted_data <- format_data data_dict ;;
  items <- py_iter formatted_data ;;
  get_epoch_loop items epoch.

(** The loop of [get_epoch_speed] with its fall-through [return]. *)
Fixpoint get_epoch_speed_loop (items : list pyval) (epoch : string) : M view :=
  match items with
  | [] => ret (BodyStatus (PDict [("error", PStr "Epoch not found")]) 404)
  | data :: rest =>
      ts <- getitem data "timestamp" ;;
      if py_eq_str ts epoch then
        speed <- calculate_instantaneous_speed data ;;
        ret (Body (PDict [("speed", speed)]))
      else get_epoch_speed_loop rest epoch
  end.

Definition get_epoch_speed (epoch : string) : M view :=
  let epoch := decode_epoch epoch in
  data_dict <- fetch_data ;;
  formatted_data <- format_data data_dict ;;
  items <- py_iter formatted_data ;;
  get_epoch_speed_loop items epoch.

(** The loop of [get_epoch_location] with its fall-through [return]. *)
Fixpoint get_epoch_location_loop (items : list pyval) (epoch : string) : M view :=
  match items with
  | [] => ret (BodyStatus (PDict [("error", PStr "Epoch not found")]) 404)
  | data :: rest =>
      ts <- getitem data "timestamp" ;;
      if py_eq_str ts epoch then
        geo <- cartesian_to_geo data ;;
        ret (Body geo)
      else get_epoch_location_loop rest epoch
  end.

Definition get_epoch_location (epoch : string) : M view :=
  let epoch := decode_epoch epoch in
  data_dict <- fetch_data ;;
  formatted_data <- format_data data_dict ;;
  items <- py_iter formatted_data ;;
  get_epoch_location_loop items epoch.

Definition get_now : M view :=
  data_dict <- fetch_data ;;
  formatted_data <- format_data data_dict ;;
  closest_epoch <- find_closest_epoch formatted_data ;;
  speed <- calculate_instantaneous_speed closest_epoch ;;
  geo <- cartesian_to_geo closest_epoch ;;
  ret (Body (PDict [("closest_epoch", closest_epoch); ("speed", speed); ("geo", geo)])).

End Tracker.

(* ================================================================== *)
(** * The client side of the test suite *)
(* ================================================================== *)

(** How the test suite writes a timestamp into the path
    ([timestamp.replace(" ", "__").replace(":", "_")]). *)
Definition encode_epoch (timestamp : string) : string :=
  Str.replace ":" "_" (Str.replace " " "__" timestamp).

(* ================================================================== *)
(** * The fixture of the test suite *)
(* ================================================================== *)

Definition attributed (s : string) : raw := RDict [("#text", RStr s)].

Definition raw_state_vector (epoch x y z dx dy dz : string) : raw :=
  RDict [("EPOCH", RStr epoch); ("X", attributed x); ("Y", attributed y);
         ("Z", attributed z); ("X_DOT", attributed dx); ("Y_DOT", attributed dy);
         ("Z_DOT", attributed dz)].

Definition test_state_vectors : list raw :=
  [raw_state_vector "1000-001T00:00:00.000Z" "1" "-2" "3" "4" "-5" "6";
   raw_state_vector "1000-002T00:00:00.000Z" "-7" "8" "-9" "10" "-11" "12";
   raw_state_vector "1000-003T00:00:00.000Z" "13" "-14" "15" "16" "-17" "18";
   raw_state_vector "1000-004T00:00:00.000Z" "-19" "20" "-21" "22" "-23" "24"].

Definition test_data_dict : raw :=
  RDict [("ndm", RDict [("oem", RDict [
    ("header", RDict [("TEST1", RStr "TEST1 VALUE"); ("TEST2", RStr "TEST2 VALUE")]);
    ("body", RDict [("segment", RDict [
       ("metadata", RDict [("TEST1", RStr "TEST1 VALUE"); ("TEST2", RStr "TEST2 VALUE")]);
       ("data", RDict [
          ("COMMENT", RList [RStr "COMMENT LINE 1"; RStr "COMMENT LINE 2"]);
          ("stateVector", RList test_state_vectors)])])])])])].

(** The dictionary [format_data] builds for one state vector. *)
Definition record (timestamp : string) (x y z dx dy dz : float) : pyval :=
  PDict [("timestamp", PStr timestamp); ("x", PFloat x); ("y", PFloat y); ("z", PFloat z);
         ("dx", PFloat dx); ("dy", PFloat dy); ("dz", PFloat dz)].

Definition test_formatted_data : list pyval :=
  [record "1000-01-01 00:00:00.000000" 1 (-2) 3 4 (-5) 6;
   record "1000-01-02 00:00:00.000000" (-7) 8 (-9) 10 (-11) 12;
   record "1000-01-03 00:00:00.000000" 13 (-14) 15 16 (-17) 18;
   record "1000-01-04 00:00:00.000000" (-19) 20 (-21) 22 (-23) 24]%float.

Definition quiet : world := {| log := []; upstream := [] |}.

(** The epoch of [test_cartesian_to_geo]. *)
Definition test_epoch : pyval :=
  PDict [("timestamp", PStr "2024-03-17 12:00:00.000000");
         ("x", PInt 5000); ("y", PInt 2000); ("z", PInt 3000)].

(** The fixture with a fifth entry that lacks [Z_DOT] and a sixth whose
    [X] is not a number: four records come out. *)
Definition test_data_dict_with_gaps : raw :=
  RDict [("ndm", RDict [("oem", RDict [("body", RDict [("segment", RDict [("data", RDict [
    ("stateVector",
     RList (test_state_vectors ++
            [RDict [("EPOCH", RStr "1000-005T00:00:00.000Z"); ("X", attributed "1");
                    ("Y", attributed "2"); ("Z", attributed "3");
                    ("X_DOT", attributed "4"); ("Y_DOT", attributed "5")];
             raw_state_vector "1000-006T00:00:00.000Z" "one" "2" "3" "4" "5" "6"])%list)])])])])])].

(** A state vector of the year 999. *)
Definition data_dict_year_999 : raw :=
  RDict [("ndm", RDict [("oem", RDict [("body", RDict [("segment", RDict [("data", RDict [
    ("stateVector",
     RList [raw_state_vector "0999-001T00:00:00.000Z" "1" "-2" "3" "4" "-5" "6"])])])])])])].

(** A feed whose only state vector moves at [1e200] km/s along [x]. *)
Definition data_dict_fast : raw :=
  RDict [("ndm", RDict [("oem", RDict [("body", RDict [("segment", RDict [("data", RDict [
    ("stateVector",
     RList [raw_state_vector "2024-077T12:00:00.000Z" "1" "2" "3" "1e200" "0" "0"])])])])])])].

Definition test_velocities : list (float * float * float) :=
  [(4, -5, 6); (10, -11, 12); (16, -17, 18); (22, -23, 24)]%float.

(** One answer of the upstream server, whose body parses to the fixture. *)
Definition fixture_upstream : world :=
  {| log := []; upstream := [HttpResponse 200 "<ndm/>"] |}.

Definition fixture_parse (body : string) : outcome raw := Return test_data_dict.

(** A feed with a single state vector, which [xmltodict] hands over as a
    dictionary and not as a list of one. *)
Definition data_dict_single : raw :=
  RDict [("ndm", RDict [("oem", RDict [("body", RDict [("segment", RDict [("data", RDict [
    ("stateVector",
     raw_state_vector "2024-077T12:00:00.000Z" "1" "2" "3" "4" "5" "6")])])])])])].

(** A reading of the clock. *)
Definition noon : Datetime.datetime := Datetime.mkDatetime 2024 3 17 12 0 0 0.

(** The state vectors of [test_data_dict_with_gaps]. *)
Definition state_vectors_with_gaps : list raw :=
  (test_state_vectors ++
   [RDict [("EPOCH", RStr "1000-005T00:00:00.000Z"); ("X", attributed "1");
           ("Y", attributed "2"); ("Z", attributed "3");
           ("X_DOT", attributed "4"); ("Y_DOT", attributed "5")];
    raw_state_vector "1000-006T00:00:00.000Z" "one" "2" "3" "4" "5" "6"])%list.

(* ================================================================== *)
(** * The vocabulary of the properties *)
(* ================================================================== *)

(** ** State vectors *)

(** The calendar time of an entry: its [EPOCH] is present, is a string and
    parses. *)
Definition parsed_epoch (sv : raw) : option Datetime.datetime :=
  match sv with
  | RDict kvs =>
      match assoc "EPOCH" kvs with
      | Some (RStr s) => Datetime.strptime_epoch s
      | _ => None
      end
  | _ => None
  end.

(** A numeric field of an entry: the key is present, holds a dictionary
    with a ['#text'] that is a string, and the string is a number. *)
Definition parsed_field (sv : raw) (key : string) : option float :=
  match sv with
  | RDict kvs =>
      match assoc key kvs with
      | Some (RDict attrs) =>
          match assoc "#text" attrs with
          | Some (RStr t) => PyFloat.of_string t
          | _ => None
          end
      | _ => None
      end
  | _ => None
  end.

Definition is_some {A} (o : option A) : bool :=
  match o with Some _ => true | None => false end.

Definition numeric_fields : list string := ["X"; "Y"; "Z"; "X_DOT"; "Y_DOT"; "Z_DOT"].

(** All six numeric fields and the timestamp parse. *)
Definition well_formed (sv : raw) : bool :=
  is_some (parsed_epoch sv) && forallb (fun key => is_some (parsed_field sv key)) numeric_fields.

(** The record of a well-formed entry. *)
Definition normalized (libc : Datetime.year_style) (sv : raw) : option pyval :=
  match parsed_epoch sv,
        parsed_field sv "X", parsed_field sv "Y", parsed_field sv "Z",
        parsed_field sv "X_DOT", parsed_field sv "Y_DOT", parsed_field sv "Z_DOT" with
  | Some t, Some x, Some y, Some z, Some dx, Some dy, Some dz =>
      Some (record (Datetime.strftime_canonical libc t) x y z dx dy dz)
  | _, _, _, _, _, _, _ => None
  end.

(** One record per well-formed entry, in the order of the entries. *)
Fixpoint normalized_list (libc : Datetime.year_style) (entries : list raw) : list pyval :=
  match entries with
  | [] => []
  | sv :: rest =>
      match normalized libc sv with
      | Some r => r :: normalized_list libc rest
      | None => normalized_list libc rest
      end
  end.

(** The form [YYYY-MM-DD hh:mm:ss.ffffff]: [d] in the pattern stands for a
    decimal digit, every other character for itself. *)
Fixpoint has_form (pattern s : string) : bool :=
  match pattern, s with
  | "", "" => true
  | String p pattern', String c s' =>
      (if Ascii.eqb p "d" then Str.is_digit c else Ascii.eqb p c) && has_form pattern' s'
  | _, _ => false
  end.

Definition is_canonical (ts : string) : bool := has_form "dddd-dd-dd dd:dd:dd.dddddd" ts.

Definition caught_in_loop (e : exn) : bool :=
  is_KeyError e || is_ValueError_or_TypeError e.

Definition is_record (r : pyval) : Prop :=
  exists ts x y z dx dy dz, r = record ts x y z dx dy dz.

(** ** Epochs in the path *)

(** [data['timestamp'] == epoch] for a dictionary that has the key. *)
Definition has_timestamp (epoch : string) (data : pyval) : bool :=
  match data with
  | PDict kvs =>
      match assoc "timestamp" kvs with
      | Some ts => py_eq_str ts epoch
      | None => false
      end
  | _ => false
  end.

Definition not_found : view :=
  BodyStatus (PDict [("error", PStr "Epoch not found")]) 404.

(** Replacing a single character is a character-wise substitution. *)
Fixpoint subst_char (c : ascii) (new : string) (s : string) : string :=
  match s with
  | "" => ""
  | String a rest =>
      if Ascii.eqb c a then new ++ subst_char c new rest
      else String a (subst_char c new rest)
  end.

(** The timestamps for which the encoding can be undone: no underscore,
    and no colon directly before a space or a colon. *)
Fixpoint round_trips (s : string) : bool :=
  match s with
  | "" => true
  | String a rest =>
      negb (Ascii.eqb a "_")
      && (if Ascii.eqb a ":"
          then match rest with
               | String b _ => negb (Ascii.eqb b " ") && negb (Ascii.eqb b ":")
               | "" => true
               end
          else true)
      && round_trips rest
  end.

(** ** Speeds *)

(** The velocity of a record whose [dx], [dy], [dz] are floats. *)
Definition velocity (data : pyval) : option (float * float * float) :=
  match data with
  | PDict kvs =>
      match assoc "dx" kvs, assoc "dy" kvs, assoc "dz" kvs with
      | Some (PFloat dx), Some (PFloat dy), Some (PFloat dz) => Some (dx, dy, dz)
      | _, _, _ => None
      end
  | _ => None
  end.

(** [sqrt(dx² + dy² + dz²)], the squares being those of [**]. *)
Definition speed (libm : PyFloat.math_library) (v : float * float * float) : float :=
  let '(dx, dy, dz) := v in
  PrimFloat.sqrt (PyFloat.power2 libm dx + PyFloat.power2 libm dy
                  + PyFloat.power2 libm dz)%float.

(** The component is finite and so is its square. *)
Definition squares_finitely (libm : PyFloat.math_library) (x : float) : bool :=
  is_finite x && negb (is_infinity (PyFloat.power2 libm x)).

Definition velocity_in_range (libm : PyFloat.math_library)
  (v : float * float * float) : bool :=
  let '(dx, dy, dz) := v in
  squares_finitely libm dx && squares_finitely libm dy && squares_finitely libm dz.

(** The number of records as a double. *)
Definition count (n : nat) : float :=
  SF2Prim (binary_normalize prec emax (Z.of_nat n) 0 false).

(** The arithmetic mean: the sum, taken from the left, over the count. *)
Definition mean (xs : list float) : float :=
  (fold_left PrimFloat.add xs 0 / count (List.length xs))%float.

(** ** Places *)

(** The [geoloc] entry: the address, or the fixed text when the geocoder
    found nothing. *)
Definition place_text (geoloc : option string) : string :=
  match geoloc with
  | Some address => address
  | None => "Over Ocean or Unknown"
  end.

(** ** Dates that exist *)

(** A date of the calendar and a time of day, as [datetime] accepts them. *)
Definition valid (t : Datetime.datetime) : bool :=
  (1 <=? Datetime.year t) && (Datetime.year t <=? 9999)
  && (1 <=? Datetime.month t) && (Datetime.month t <=? 12)
  && (1 <=? Datetime.day t)
  && (Datetime.day t <=? Datetime.days_in_month (Datetime.year t) (Datetime.month t))
  && (0 <=? Datetime.hour t) && (Datetime.hour t <=? 23)
  && (0 <=? Datetime.minute t) && (Datetime.minute t <=? 59)
  && (0 <=? Datetime.second t) && (Datetime.second t <=? 59)
  && (0 <=? Datetime.microsecond t) && (Datetime.microsecond t <=? 999999).

Definition valid_date (y m d : Z) : Prop :=
  1 <= y <= 9999 /\ 1 <= m <= 12 /\ 1 <= d <= Datetime.days_in_month y m.

(** Nothing, or something that is no digit, comes next. *)
Definition no_digit_ahead (s : string) : bool :=
  match s with
  | "" => true
  | String c _ => negb (Str.is_digit c)
  end.

(** ** Epochs and the clock *)

(** The instant the timestamp of a record denotes, when the record has a
    timestamp that is a text in the canonical format. *)
Definition epoch_time (r : pyval) : option Datetime.datetime :=
  match r with
  | PDict kvs =>
      match assoc "timestamp" kvs with
      | Some (PStr ts) => Datetime.strptime_timestamp ts
      | _ => None
      end
  | _ => None
  end.

(** [abs(a - b)], in microseconds. *)
Definition distance (a b : Datetime.datetime) : Z :=
  Z.abs (Datetime.microseconds a - Datetime.microseconds b).

Definition epoch_distance (current_time : Datetime.datetime) (r : pyval) : option Z :=
  option_map (distance current_time) (epoch_time r).

(** The key of [min] in [find_closest_epoch]. *)
Definition closeness (current_time : Datetime.datetime) (x : pyval) : M Z :=
  ts <- getitem x "timestamp" ;;
  t <- strptime_canonical ts ;;
  ret (Z.abs (Datetime.microseconds current_time - Datetime.microseconds t)).

Definition distance_or_zero (current_time : Datetime.datetime) (r : pyval) : Z :=
  match epoch_distance current_time r with
  | Some d => d
  | None => 0
  end.

(** [r[key]] raises: [r] is no dictionary ([TypeError]) or lacks the key
    ([KeyError]). *)
Definition unsubscriptable_at (key : string) (r : pyval) : bool :=
  match r with
  | PDict kvs => negb (is_some (assoc key kvs))
  | _ => true
  end.

(** The object under ['timestamp'], [None] standing for its absence. *)
Definition timestamp_of (r : pyval) : pyval :=
  match r with
  | PDict kvs => match assoc "timestamp" kvs with Some v => v | None => PNone end
  | _ => PNone
  end.

(** ** Totals and log lines *)

(** The running total of [calculate_average_speed] is the int [0] it starts
    as, or a float. *)
Definition is_total (total_speed : pyval) : Prop :=
  total_speed = PInt 0 \/ exists a, total_speed = PFloat a.

(** The two lines the loop of [format_data] writes. *)
Definition dropped_entry_line (line : string) : Prop :=
  line = "Error: Missing or incorrect key in state vector"
  \/ line = "Error: Unable to parse data to the correct format".

(** ** Speeds of numbers *)

(** An int or a float. *)
Definition is_number (v : pyval) : bool :=
  match v with
  | PInt _ | PFloat _ => true
  | _ => false
  end.

(** The [dx], [dy], [dz] of a record in which all three are numbers. *)
Definition numeric_velocity (data : pyval) : option (pyval * pyval * pyval) :=
  match data with
  | PDict kvs =>
      match assoc "dx" kvs, assoc "dy" kvs, assoc "dz" kvs with
      | Some dx, Some dy, Some dz =>
          if is_number dx && is_number dy && is_number dz then Some (dx, dy, dz) else None
      | _, _, _ => None
      end
  | _ => None
  end.

(** The double nearest to an int, ties to even. *)
Definition nearest (z : Z) : float := SF2Prim (binary_normalize prec emax z 0 false).

(** The double of a number; an int from [2^1024 - 2^970] on, in absolute
    value, has none. *)
Definition double_of (v : pyval) : option float :=
  match v with
  | PFloat f => Some f
  | PInt z => if Z.abs z <? 2 ^ 1024 - 2 ^ 970 then Some (nearest z) else None
  | _ => None
  end.

(** The square of a number: exact on an int; on a float that of [**],
    which has none when it is infinite for a finite operand. *)
Definition squared (libm : PyFloat.math_library) (v : pyval) : option pyval :=
  match v with
  | PInt z => Some (PInt (z * z))
  | PFloat f =>
      if is_finite f && is_infinity (PyFloat.power2 libm f) then None
      else Some (PFloat (PyFloat.power2 libm f))
  | _ => None
  end.

(** The sum of two numbers: exact on two ints, that of their doubles
    otherwise. *)
Definition added (a b : pyval) : option pyval :=
  match a, b with
  | PInt x, PInt y => Some (PInt (x + y))
  | _, _ =>
      match double_of a, double_of b with
      | Some x, Some y => Some (PFloat (x + y))
      | _, _ => None
      end
  end.

(** [sqrt(dx² + dy² + dz²)] on numbers, the sum taken from the left; no
    value when a square or the double of an int is out of range. *)
Definition numeric_speed (libm : PyFloat.math_library)
  (v : pyval * pyval * pyval) : option float :=
  let '(dx, dy, dz) := v in
  match squared libm dx, squared libm dy, squared libm dz with
  | Some dx2, Some dy2, Some dz2 =>
      match added dx2 dy2 with
      | Some s =>
          match added s dz2 with
          | Some s => option_map PrimFloat.sqrt (double_of s)
          | None => None
          end
      | None => None
      end
  | _, _, _ => None
  end.

(** A number that is not below zero (a NaN is not). *)
Definition not_below_zero (v : pyval) : Prop :=
  match v with
  | PInt z => 0 <= z
  | PFloat f => PrimFloat.ltb f 0 = false
  | _ => True
  end.

(** The outcome of an operation that can only overflow. *)
Definition or_overflow (r : option pyval) : outcome pyval :=
  match r with
  | Some v => Return v
  | None => Raise OverflowError
  end.

(** Records whose velocities are ints, or ints and floats. *)
Definition numeric_records : list pyval :=
  [PDict [("dx", PInt 3); ("dy", PInt 4); ("dz", PInt 0)];
   PDict [("dx", PInt 3); ("dy", PFloat 4); ("dz", PInt 12)]].

(** ** Positions *)







(** ** Binary64 numbers as [SpecFloat] describes them *)

Module Binary64.

(** Not below zero: a zero, a NaN, or anything with the sign bit clear. *)
Definition not_negative (f : spec_float) : bool :=
  match f with
  | S754_zero _ | S754_nan => true
  | S754_infinity s | S754_finite s _ _ => negb s
  end.





(** One unit: [2^1074] times [2^-1074]. *)
Definition unit : Z := 2 ^ 1074.

End Binary64.


(* ################################################################## *)
(** * Properties *)
(* ################################################################## *)

(* ================================================================== *)
(** * The models of the library functions, run *)
(* ================================================================== *)

Example strptime_fixture style :
  option_map (Datetime.strftime_canonical style)
             (Datetime.strptime_epoch "1000-004T00:00:00.000Z")
  = Some "1000-01-04 00:00:00.000000".
Proof. destruct style; reflexivity. Qed.

Example strftime_year_999 :
  map (fun style => option_map (Datetime.strftime_canonical style)
                               (Datetime.strptime_epoch "0999-001T00:00:00.000Z"))
      [Datetime.Plain; Datetime.ZeroFilled]
  = [Some "999-01-01 00:00:00.000000"; Some "0999-01-01 00:00:00.000000"].
Proof. reflexivity. Qed.

Example strptime_leap :
  option_map (Datetime.strftime_canonical Datetime.Plain) (Datetime.strptime_epoch "2024-077t12:05:09.5z")
  = Some "2024-03-17 12:05:09.500000".
Proof. reflexivity. Qed.

Example strptime_day_366_common_year :
  option_map (Datetime.strftime_canonical Datetime.Plain) (Datetime.strptime_epoch "2023-366T23:59:59.999999Z")
  = Some "2024-01-01 23:59:59.999999".
Proof. reflexivity. Qed.

Example strptime_rejects :
  map Datetime.strptime_epoch
      ["1000-000T00:00:00.000Z"; "1000-001T24:00:00.000Z"; "1000-001T00:00:60.000Z";
       "1000-001T00:00:00.0000000Z"; "1000-001T00:00:00.000Z "; "0000-001T00:00:00.000Z";
       "9999-366T00:00:00.000Z"; "1000-0010T00:00:00.000Z"; "1000-001 00:00:00.000Z"]
  = [None; None; None; None; None; None; None; None; None].
Proof. reflexivity. Qed.

Example float_of_string_samples :
  map PyFloat.of_string
      ["1"; "-2"; " 3.5 "; "1e3"; ".5"; "1_000.25"; "-0"; "0.1"; "1e400"; "4.9e-324";
       "Infinity"; "-inf"; "2.5e-324"; "6378.137"; "179769313486231580793e288"]
  = map Some [1; -2; 3.5; 1000; 0.5; 1000.25; neg_zero; 0x1.999999999999ap-4; infinity; 0x1p-1074;
              infinity; neg_infinity; 0x1p-1074; 0x1.8ea23126e978dp+12; 0x1.fffffffffffffp+1023]%float.
Proof. vm_compute. reflexivity. Qed.

Example float_of_string_rejects :
  map PyFloat.of_string ["";  "abc"; "1e"; "."; "1 2"; "_1"; "1__0"; "1_"; "0x10"; "infin"; "--1"; "1e+"; "12a"]
  = [None; None; None; None; None; None; None; None; None; None; None; None; None].
Proof. vm_compute. reflexivity. Qed.

Example slice_samples :
  (slice [1; 2; 3; 4; 5] 2 (Some 4), slice [1; 2; 3; 4; 5] (-2) None,
   slice [1; 2; 3; 4; 5] 1 (Some (-1)), slice [1; 2; 3; 4; 5] 4 (Some 2),
   slice [1; 2; 3; 4; 5] 7 (Some 9), slice [1; 2; 3; 4; 5] (-9) (Some 2))
  = ([3; 4], [4; 5], [2; 3; 4], [], [], [1; 2]).
Proof. reflexivity. Qed.

Example test_format_data libc :
  format_data libc test_data_dict quiet = (Return (PList test_formatted_data), quiet).
Proof. destruct libc; vm_compute; reflexivity. Qed.

Example test_format_header :
  format_header test_data_dict quiet
  = (Return (RDict [("TEST1", RStr "TEST1 VALUE"); ("TEST2", RStr "TEST2 VALUE")]), quiet).
Proof. reflexivity. Qed.

Example test_format_comment :
  format_comment test_data_dict quiet
  = (Return (RList [RStr "COMMENT LINE 1"; RStr "COMMENT LINE 2"]), quiet).
Proof. reflexivity. Qed.


(** ** Steps in the monad *)

Lemma bind_return {A B} (m : M A) (k : A -> M B) a w w' :
  m w = (Return a, w') -> bind m k w = k a w'.
Proof. intros H. unfold bind. rewrite H. reflexivity. Qed.

Lemma bind_raise {A B} (m : M A) (k : A -> M B) e w w' :
  m w = (Raise e, w') -> bind m k w = (Raise e, w').
Proof. intros H. unfold bind. rewrite H. reflexivity. Qed.

(* ================================================================== *)
(** * The fetcher *)
(* ================================================================== *)

Section Fetcher.

Variable xmltodict_parse : string -> outcome raw.

(** A 200 answer with a well-formed body is parsed and returned; one GET
    is issued. *)
Lemma fetch_data_ok body doc lg rest :
  xmltodict_parse body = Return doc ->
  fetch_data xmltodict_parse {| log := lg; upstream := HttpResponse 200 body :: rest |}
  = (Return doc, {| log := lg; upstream := rest |}).
Proof.
  intros Hparse. unfold fetch_data, bind, attempt, requests_get, try_except, lift. simpl.
  rewrite Hparse. reflexivity.
Qed.

(** A status other than 200 is logged and answered with [None]; the GET
    is not repeated. *)
Lemma fetch_data_bad_status st body lg rest :
  st <> 200 ->
  fetch_data xmltodict_parse {| log := lg; upstream := HttpResponse st body :: rest |}
  = (Return RNone,
     logged {| log := lg; upstream := rest |}
            ("Error fetching data:  " ++ repr_response (mkResponse st body))).
Proof.
  intros Hst. unfold fetch_data, bind, attempt, requests_get, try_except. simpl.
  destruct (Z.eqb_spec st 200) as [->|_]; [contradiction|]. reflexivity.
Qed.

(** A 200 answer whose body is not well-formed XML is logged and answered
    with [None]; the GET is not repeated. *)
Lemma fetch_data_malformed_xml body msg lg rest :
  xmltodict_parse body = Raise (ExpatError msg) ->
  fetch_data xmltodict_parse {| log := lg; upstream := HttpResponse 200 body :: rest |}
  = (Return RNone,
     logged {| log := lg; upstream := rest |}
            ("Error parsing XML data: " ++ msg ++ " " ++ repr_response (mkResponse 200 body))).
Proof.
  intros Hparse. unfold fetch_data, bind, attempt, requests_get, try_except, lift. simpl.
  rewrite Hparse. reflexivity.
Qed.

(** Whatever happens, [fetch_data] uses up exactly one answer of the
    upstream server: there is no second GET. *)
Lemma fetch_data_one_get o lg rest :
  upstream (snd (fetch_data xmltodict_parse {| log := lg; upstream := o :: rest |})) = rest.
Proof.
  unfold fetch_data, bind, attempt, requests_get, try_except, lift. simpl.
  destruct o as [e|st body]; simpl.
  - destruct (is_RequestException e); [reflexivity|].
    destruct (is_ExpatError e); reflexivity.
  - destruct (st =? 200); simpl; [|reflexivity].
    destruct (xmltodict_parse body) as [doc|e]; [reflexivity|].
    destruct (is_RequestException e); [reflexivity|].
    destruct (is_ExpatError e); reflexivity.
Qed.

End Fetcher.

(** C3 (the code departs from the claim).  When the GET itself raises an
    exception of [requests] (here a [ConnectionError]), the handler of
    [RequestException] formats its log line with [response], which no
    assignment has reached: [fetch_data] raises [UnboundLocalError] to its
    caller and nothing is logged, instead of logging and returning [None]. *)
Theorem fetch_data_transport_failure_raises :
  forall (xmltodict_parse : string -> outcome raw) msg lg rest,
    fetch_data xmltodict_parse
      {| log := lg; upstream := TransportFailure (ConnectionError msg) :: rest |}
    = (Raise (UnboundLocalError "response"), {| log := lg; upstream := rest |}).
Proof. reflexivity. Qed.

(* ================================================================== *)
(** * The extractors *)
(* ================================================================== *)

(** A key missing from a dictionary on the path makes an extractor log and
    return its empty value. *)
Lemma extractor_missing_key {A} (empty : A) (body : M A) w w' :
  body w = (Raise KeyError, w') ->
  try_except body (missing_key empty) w
  = (Return empty, logged w' "Error: Missing or incorrect key in data dictionary").
Proof.
  intros H. unfold try_except. rewrite H. reflexivity.
Qed.

Example format_header_missing_key :
  format_header (RDict [("ndm", RDict [])]) quiet
  = (Return (RDict []), logged quiet "Error: Missing or incorrect key in data dictionary").
Proof. reflexivity. Qed.

(** C2 (the code departs from the claim).  On the absent document that a
    failed fetch produces, each of the four extractors evaluates
    [None['ndm']], a [TypeError], which [except KeyError] does not catch:
    the exception reaches the caller, nothing is logged and no empty value
    is returned. *)
Theorem extractors_raise_on_absent_document :
  forall libc w,
    format_header RNone w = (Raise TypeError, w) /\
    format_comment RNone w = (Raise TypeError, w) /\
    format_metadata RNone w = (Raise TypeError, w) /\
    format_data libc RNone w = (Raise TypeError, w).
Proof. intros libc w. repeat split; reflexivity. Qed.

(* ================================================================== *)
(** * The state-vector normaliser *)
(* ================================================================== *)

(** ** The loop body *)

Lemma component_spec sv key w :
  match parsed_field sv key with
  | Some f => component sv key w = (Return (PFloat f), w)
  | None => exists e, component sv key w = (Raise e, w) /\ caught_in_loop e = true
  end.
Proof.
  unfold component, parsed_field, bind.
  destruct sv as [|s|l|kvs]; cbn; try (eexists; split; [reflexivity|reflexivity]).
  destruct (assoc key kvs) as [v|]; cbn; [|eexists; split; reflexivity].
  destruct v as [|s|l|attrs]; cbn; try (eexists; split; reflexivity).
  destruct (assoc "#text" attrs) as [t|]; cbn; [|eexists; split; reflexivity].
  destruct t as [|s|l|d]; cbn; try (eexists; split; reflexivity).
  destruct (PyFloat.of_string s); cbn; [reflexivity|eexists; split; reflexivity].
Qed.

Lemma epoch_spec {B} sv (k : Datetime.datetime -> M B) w :
  match parsed_epoch sv with
  | Some t => (e <- raw_getitem sv "EPOCH" ;; ts <- strptime e ;; k ts) w = k t w
  | None => exists e, (e <- raw_getitem sv "EPOCH" ;; ts <- strptime e ;; k ts) w = (Raise e, w)
                      /\ caught_in_loop e = true
  end.
Proof.
  unfold parsed_epoch, bind.
  destruct sv as [|s|l|kvs]; cbn; try (eexists; split; reflexivity).
  destruct (assoc "EPOCH" kvs) as [v|]; cbn; [|eexists; split; reflexivity].
  destruct v as [|s|l|d]; cbn; try (eexists; split; reflexivity).
  destruct (Datetime.strptime_epoch s); cbn; [reflexivity|eexists; split; reflexivity].
Qed.

(** One step of the proof below: the next component either parses, and the
    body goes on, or raises an exception that the loop catches. *)
Ltac component_step key :=
  match goal with
  | |- context [parsed_field ?sv key] =>
      let H := fresh "H" in
      match goal with
      | |- context [bind (component sv key) ?k ?w] =>
          pose proof (component_spec sv key w) as H;
          destruct (parsed_field sv key);
          [ rewrite (bind_return _ k _ _ _ H); clear H
          | let e := fresh "e" in
            let Hr := fresh "Hr" in
            let Hc := fresh "Hc" in
            destruct H as (e & Hr & Hc);
            rewrite (bind_raise _ k _ _ _ Hr);
            exists e; split; [reflexivity|exact Hc] ]
      end
  end.

(** The body of the [try] returns the record of a well-formed entry, and
    raises one of the exceptions the loop catches on any other entry,
    without touching the world. *)
Lemma formatted_entry_spec libc sv w :
  match normalized libc sv with
  | Some r => formatted_entry libc sv w = (Return r, w)
  | None => exists e, formatted_entry libc sv w = (Raise e, w) /\ caught_in_loop e = true
  end.
Proof.
  unfold normalized, formatted_entry.
  match goal with
  | |- context [bind (raw_getitem sv "EPOCH") (fun e => bind (strptime e) ?k)] =>
      pose proof (epoch_spec sv k w) as He
  end.
  destruct (parsed_epoch sv) as [t|]; [rewrite He; clear He|exact He].
  component_step "X". component_step "Y". component_step "Z".
  component_step "X_DOT". component_step "Y_DOT". component_step "Z_DOT".
  reflexivity.
Qed.

(** ** The loop *)

(** The loop appends the records of the well-formed entries to the list
    built so far, never raises, and leaves the upstream untouched. *)
Lemma format_data_loop_spec libc entries :
  forall acc w, exists w',
    format_data_loop libc entries acc w
    = (Return (acc ++ normalized_list libc entries)%list, w')
    /\ upstream w' = upstream w.
Proof.
  induction entries as [|sv rest IH]; intros acc w; cbn [format_data_loop normalized_list].
  - exists w. rewrite app_nil_r. split; reflexivity.
  - pose proof (formatted_entry_spec libc sv w) as Hsv.
    unfold bind at 1. unfold try_except. unfold bind at 1.
    destruct (normalized libc sv) as [r|].
    + rewrite Hsv. cbn.
      destruct (IH (acc ++ [r])%list w) as (w' & -> & Hup).
      exists w'. rewrite <- app_assoc. split; [reflexivity|exact Hup].
    + destruct Hsv as (e & -> & Hc).
      unfold caught_in_loop in Hc.
      destruct (is_KeyError e) eqn:Hk; cbn.
      * destruct (IH acc (logged w "Error: Missing or incorrect key in state vector"))
          as (w' & -> & Hup).
        exists w'. split; [reflexivity|exact Hup].
      * cbn in Hc. rewrite Hc. cbn.
        destruct (IH acc (logged w "Error: Unable to parse data to the correct format"))
          as (w' & -> & Hup).
        exists w'. split; [reflexivity|exact Hup].
Qed.

Lemma normalized_some_iff libc sv :
  is_some (normalized libc sv) = well_formed sv.
Proof.
  unfold normalized, well_formed, numeric_fields. cbn [forallb].
  destruct (parsed_epoch sv); [|reflexivity].
  destruct (parsed_field sv "X"); [|reflexivity].
  destruct (parsed_field sv "Y"); [|reflexivity].
  destruct (parsed_field sv "Z"); [|reflexivity].
  destruct (parsed_field sv "X_DOT"); [|reflexivity].
  destruct (parsed_field sv "Y_DOT"); [|reflexivity].
  destruct (parsed_field sv "Z_DOT"); reflexivity.
Qed.

Lemma normalized_list_length libc entries :
  List.length (normalized_list libc entries) = List.length (filter well_formed entries).
Proof.
  induction entries as [|sv rest IH]; cbn; [reflexivity|].
  rewrite <- (normalized_some_iff libc sv).
  destruct (normalized libc sv); cbn; [f_equal|]; exact IH.
Qed.

(** ** The canonical form of the timestamps *)

Lemma digit_char_is_digit d : Str.is_digit (Str.digit_char d) = true.
Proof.
  destruct d as [|p|p]; try reflexivity.
  do 4 (try destruct p as [p|p|]; try reflexivity).
Qed.

Lemma strftime_zero_filled_canonical t :
  is_canonical (Datetime.strftime_canonical Datetime.ZeroFilled t) = true.
Proof.
  unfold is_canonical, Datetime.strftime_canonical, Datetime.year_text.
  cbn. rewrite !digit_char_is_digit. reflexivity.
Qed.

(** From year 1000 on, the plain decimal year has its four digits. *)
Lemma year_text_plain y :
  1000 <= y -> Datetime.year_text Datetime.Plain y = Datetime.year_text Datetime.ZeroFilled y.
Proof.
  intros Hy. unfold Datetime.year_text. cbn.
  assert (H1 : y / 10 <> 0) by (intros H; apply Z.div_small_iff in H; lia).
  assert (H2 : y / 10 / 10 <> 0)
    by (rewrite Z.div_div by lia; intros H; apply Z.div_small_iff in H; lia).
  assert (H3 : y / 10 / 10 / 10 <> 0)
    by (rewrite !Z.div_div by lia; intros H; apply Z.div_small_iff in H; lia).
  apply Z.eqb_neq in H1, H2, H3. rewrite H1, H2, H3.
  destruct (y / 10 / 10 / 10 / 10 =? 0); reflexivity.
Qed.

Lemma strftime_canonical_form libc t :
  libc = Datetime.ZeroFilled \/ 1000 <= Datetime.year t ->
  is_canonical (Datetime.strftime_canonical libc t) = true.
Proof.
  intros [->|Hy]; [apply strftime_zero_filled_canonical|].
  destruct libc; [|apply strftime_zero_filled_canonical].
  rewrite <- (strftime_zero_filled_canonical t).
  unfold Datetime.strftime_canonical. rewrite (year_text_plain _ Hy). reflexivity.
Qed.

(** ** [format_data] *)

(** C1, amended.  When the path to the state vectors leads to a list,
    [format_data] returns exactly one record per well-formed entry (all six
    numeric fields and [EPOCH] parse), in the order of the entries; every
    other entry (a missing key, a field that does not parse) contributes
    nothing, and the entries after it are still processed.  Each record
    carries the seven keys, and its timestamp is [strftime('%Y-%m-%d
    %H:%M:%S.%f')] of the parsed epoch, which has the form [YYYY-MM-DD
    hh:mm:ss.ffffff] when the year is at least 1000 or the C library
    zero-fills [%Y]. *)
Theorem format_data_one_record_per_well_formed_entry :
  forall libc doc entries w,
    subscripts doc state_vector_path w = (Return (RList entries), w) ->
    (exists w', format_data libc doc w = (Return (PList (normalized_list libc entries)), w')
                /\ upstream w' = upstream w)
    /\ List.length (normalized_list libc entries) = List.length (filter well_formed entries)
    /\ (forall sv, well_formed sv = true ->
          exists t x y z dx dy dz,
            parsed_epoch sv = Some t
            /\ normalized libc sv
               = Some (record (Datetime.strftime_canonical libc t) x y z dx dy dz)
            /\ (libc = Datetime.ZeroFilled \/ 1000 <= Datetime.year t ->
                is_canonical (Datetime.strftime_canonical libc t) = true))
    /\ (forall sv, well_formed sv = false -> normalized libc sv = None).
Proof.
  intros libc doc entries w Hpath. repeat split.
  - unfold format_data.
    destruct (format_data_loop_spec libc entries [] w) as (w' & Hloop & Hup).
    exists w'. split; [|exact Hup].
    unfold bind at 1. unfold try_except. unfold bind at 1.
    rewrite Hpath. cbn. unfold bind. rewrite Hloop. reflexivity.
  - apply normalized_list_length.
  - intros sv Hwf. rewrite <- (normalized_some_iff libc) in Hwf.
    unfold normalized in *.
    destruct (parsed_epoch sv) as [t|]; [|discriminate].
    destruct (parsed_field sv "X") as [x|]; [|discriminate].
    destruct (parsed_field sv "Y") as [y|]; [|discriminate].
    destruct (parsed_field sv "Z") as [z|]; [|discriminate].
    destruct (parsed_field sv "X_DOT") as [dx|]; [|discriminate].
    destruct (parsed_field sv "Y_DOT") as [dy|]; [|discriminate].
    destruct (parsed_field sv "Z_DOT") as [dz|]; [|discriminate].
    exists t, x, y, z, dx, dy, dz.
    repeat split. apply strftime_canonical_form.
  - intros sv Hwf. rewrite <- (normalized_some_iff libc) in Hwf.
    destruct (normalized libc sv); [discriminate|reflexivity].
Qed.

Example test_format_data_with_gaps libc :
  format_data libc test_data_dict_with_gaps quiet
  = (Return (PList test_formatted_data),
     logged (logged quiet "Error: Missing or incorrect key in state vector")
            "Error: Unable to parse data to the correct format").
Proof. destruct libc; vm_compute; reflexivity. Qed.

Lemma format_data_one_record_per_well_formed_entry_witness :
  exists w', format_data Datetime.Plain test_data_dict quiet
             = (Return (PList (normalized_list Datetime.Plain test_state_vectors)), w')
             /\ upstream w' = upstream quiet.
Proof.
  apply (format_data_one_record_per_well_formed_entry
           Datetime.Plain test_data_dict test_state_vectors quiet).
  reflexivity.
Defined.

(** The claim C1 as it is worded promises the form [YYYY-MM-DD ...] for
    every well-formed entry: with glibc, the entry of the year 999 is
    well formed and its timestamp has a three-digit year. *)
Lemma format_data_year_999_not_canonical :
  format_data Datetime.Plain data_dict_year_999 quiet
  = (Return (PList [record "999-01-01 00:00:00.000000" 1 (-2) 3 4 (-5) 6]), quiet)
  /\ is_canonical "999-01-01 00:00:00.000000" = false.
Proof. split; vm_compute; reflexivity. Qed.

(** ** What [format_data] can return *)

Lemma normalized_is_record libc sv r : normalized libc sv = Some r -> is_record r.
Proof.
  unfold normalized.
  destruct (parsed_epoch sv) as [t|]; [|discriminate].
  destruct (parsed_field sv "X") as [x|]; [|discriminate].
  destruct (parsed_field sv "Y") as [y|]; [|discriminate].
  destruct (parsed_field sv "Z") as [z|]; [|discriminate].
  destruct (parsed_field sv "X_DOT") as [dx|]; [|discriminate].
  destruct (parsed_field sv "Y_DOT") as [dy|]; [|discriminate].
  destruct (parsed_field sv "Z_DOT") as [dz|]; [|discriminate].
  intros [= <-]. red. eauto 8.
Qed.

Lemma normalized_list_records libc entries :
  Forall is_record (normalized_list libc entries).
Proof.
  induction entries as [|sv rest IH]; cbn; [constructor|].
  destruct (normalized libc sv) as [r|] eqn:Hr; [|exact IH].
  constructor; [exact (normalized_is_record _ _ _ Hr)|exact IH].
Qed.

(** Subscripting reads the document only. *)
Lemma subscripts_pure keys : forall d w, snd (subscripts d keys w) = w.
Proof.
  induction keys as [|k ks IH]; intros d w; cbn; [reflexivity|].
  unfold bind. destruct d as [|s|l|kvs]; cbn; try reflexivity.
  destruct (assoc k kvs); cbn; [apply IH|reflexivity].
Qed.

(** Whenever [format_data] returns, it returns a list, and the list holds
    records of well-formed entries of some list of entries. *)
Lemma format_data_returns_records libc doc w v w' :
  format_data libc doc w = (Return v, w') ->
  exists entries, v = PList (normalized_list libc entries).
Proof.
  unfold format_data. unfold bind at 1. unfold try_except. unfold bind at 1.
  pose proof (subscripts_pure state_vector_path doc w) as Hpure.
  destruct (subscripts doc state_vector_path w) as [[d|e] w0]; cbn in Hpure; subst w0; cbn.
  - destruct d as [|s|l|kvs]; cbn.
    + discriminate.
    + unfold bind.
      destruct (format_data_loop_spec libc (map RStr (chars s)) [] w) as (w1 & -> & _).
      intros [= <- <-]. eauto.
    + unfold bind.
      destruct (format_data_loop_spec libc l [] w) as (w1 & -> & _).
      intros [= <- <-]. eauto.
    + unfold bind.
      destruct (format_data_loop_spec libc (map (fun kv => RStr (fst kv)) kvs) [] w)
        as (w1 & -> & _).
      intros [= <- <-]. eauto.
  - unfold missing_key. destruct (is_KeyError e); cbn.
    + intros [= <- <-]. exists []. reflexivity.
    + discriminate.
Qed.

(* ================================================================== *)
(** * The routes *)
(* ================================================================== *)

(** ** Slices *)

Lemma nth_error_slice {A} (l : list A) (start count : Z) (i : nat) :
  0 <= start -> 0 <= count ->
  nth_error (slice l start (Some (start + count))) i
  = if (i <? Z.to_nat count)%nat then nth_error l (Z.to_nat start + i) else None.
Proof.
  intros Hs Hc. unfold slice, slice_index.
  destruct (Z.ltb_spec start 0); [lia|].
  destruct (Z.ltb_spec (start + count) 0); [lia|].
  rewrite nth_error_firstn, nth_error_skipn.
  set (len := Z.of_nat (List.length l)).
  destruct (Nat.ltb_spec i (Z.to_nat count)) as [Hi|Hi];
    destruct (Nat.ltb_spec i (Z.to_nat (Z.min (start + count) len - Z.min start len)))
      as [Hj|Hj].
  - f_equal. lia.
  - symmetry. apply nth_error_None. subst len. lia.
  - lia.
  - reflexivity.
Qed.

Lemma slice_rest {A} (l : list A) (start : Z) :
  0 <= start -> slice l start None = skipn (Z.to_nat start) l.
Proof.
  intros Hs. unfold slice, slice_index.
  destruct (Z.ltb_spec start 0); [lia|].
  set (len := Z.of_nat (List.length l)).
  destruct (Z.le_gt_cases start len) as [Hle|Hgt].
  - rewrite Z.min_l by lia. apply firstn_all2. rewrite length_skipn. subst len. lia.
  - rewrite Z.min_r by lia. rewrite Z.sub_diag. cbn.
    symmetry. apply skipn_all2. subst len. lia.
Qed.

Section Routes.

Variable libc : Datetime.year_style.
Variable xmltodict_parse : string -> outcome raw.

(** The list [/epochs] answers with, once the fetch and the normalisation
    have produced [formatted_data]. *)
Lemma get_epochs_page w doc w1 formatted_data w2 args :
  fetch_data xmltodict_parse w = (Return doc, w1) ->
  format_data libc doc w1 = (Return (PList formatted_data), w2) ->
  get_epochs libc xmltodict_parse args w
  = (Return (Body (PList
       (slice formatted_data
              (match arg_offset args with Some o => o | None => 0 end)
              (match arg_limit args with
               | Some l => Some (match arg_offset args with Some o => o | None => 0 end + l)
               | None => None
               end)))), w2).
Proof.
  intros Hfetch Hformat. unfold get_epochs.
  rewrite (bind_return _ _ _ _ _ Hfetch), (bind_return _ _ _ _ _ Hformat).
  destruct args as [[l|] [o|]]; reflexivity.
Qed.

(** C8.  [offset] defaults to 0 and [limit] to the rest of the list, and
    the slices agree: for non-negative [limit] and [offset] and a list of
    more than [offset] records, element [i] of the answer to [(limit,
    offset)] is element [i + offset] of the answer to [(limit + offset, no
    offset)]; element 0 of the first exists when [limit] is positive; and
    element 0 of [limit=5, offset=2] is element 2 of [limit=5]. *)
Theorem get_epochs_slices_agree :
  forall w doc w1 formatted_data w2 limit offset,
    fetch_data xmltodict_parse w = (Return doc, w1) ->
    format_data libc doc w1 = (Return (PList formatted_data), w2) ->
    0 <= limit -> 0 <= offset ->
    (Z.to_nat offset + 1 <= List.length formatted_data)%nat ->
    exists page page0 rest page52 page5,
      get_epochs libc xmltodict_parse (mkQuery (Some limit) (Some offset)) w
      = (Return (Body (PList page)), w2)
      /\ get_epochs libc xmltodict_parse (mkQuery (Some (limit + offset)) None) w
         = (Return (Body (PList page0)), w2)
      /\ (forall i, nth_error page i = nth_error page0 (i + Z.to_nat offset))
      /\ (0 < limit -> nth_error page 0 = nth_error formatted_data (Z.to_nat offset)
                       /\ nth_error page 0 <> None)
      (* the defaults *)
      /\ get_epochs libc xmltodict_parse (mkQuery (Some (limit + offset)) None) w
         = get_epochs libc xmltodict_parse (mkQuery (Some (limit + offset)) (Some 0)) w
      /\ get_epochs libc xmltodict_parse (mkQuery None (Some offset)) w
         = (Return (Body (PList rest)), w2)
      /\ rest = skipn (Z.to_nat offset) formatted_data
      /\ get_epochs libc xmltodict_parse (mkQuery None None) w
         = (Return (Body (PList formatted_data)), w2)
      (* the pair of requests of the test suite *)
      /\ get_epochs libc xmltodict_parse (mkQuery (Some 5) (Some 2)) w
         = (Return (Body (PList page52)), w2)
      /\ get_epochs libc xmltodict_parse (mkQuery (Some 5) None) w
         = (Return (Body (PList page5)), w2)
      /\ nth_error page52 0 = nth_error page5 2.
Proof.
  intros w doc w1 fd w2 limit offset Hfetch Hformat Hl Ho Hlen.
  pose proof (fun args => get_epochs_page w doc w1 fd w2 args Hfetch Hformat) as Hpage.
  do 5 eexists.
  repeat match goal with |- _ /\ _ => split end;
    try (rewrite Hpage; cbn [arg_limit arg_offset]; reflexivity).
  - intros i. rewrite (nth_error_slice fd offset limit i Ho Hl).
    rewrite (nth_error_slice fd 0 (limit + offset) (i + Z.to_nat offset)) by lia.
    destruct (Nat.ltb_spec i (Z.to_nat limit));
      destruct (Nat.ltb_spec (i + Z.to_nat offset) (Z.to_nat (limit + offset)));
      try lia; [f_equal; lia | reflexivity].
  - intros Hpos. rewrite (nth_error_slice fd offset limit 0%nat Ho Hl).
    destruct (Nat.ltb_spec 0 (Z.to_nat limit)); [|lia].
    rewrite Nat.add_0_r. split; [reflexivity|].
    apply nth_error_Some. lia.
  - rewrite !Hpage. reflexivity.
  - apply slice_rest. exact Ho.
  - rewrite Hpage. cbn [arg_limit arg_offset]. rewrite slice_rest by lia. reflexivity.
  - rewrite (nth_error_slice fd 2 5 0%nat) by lia.
    rewrite (nth_error_slice fd 0 5 2%nat) by lia. reflexivity.
Qed.

End Routes.

(** ** [/epochs/<epoch>] *)

Lemma get_epoch_loop_spec items epoch w :
  Forall is_record items ->
  get_epoch_loop items epoch w
  = (Return match find (has_timestamp epoch) items with
            | Some data => Body data
            | None => not_found
            end, w).
Proof.
  induction 1 as [|r rest Hr _ IH]; [reflexivity|].
  destruct Hr as (ts & x & y & z & dx & dy & dz & ->).
  cbn. unfold bind. cbn.
  destruct (String.eqb ts epoch); [reflexivity|exact IH].
Qed.

Section EpochRoute.

Variable libc : Datetime.year_style.
Variable xmltodict_parse : string -> outcome raw.

(** C9.  [/epochs/<ts>] replaces ["__"] by a space and then ["_"] by a
    colon in the path segment, returns (with status 200) the first record
    whose timestamp is equal to the decoded text, and returns status 404
    with the body [{'error': 'Epoch not found'}] when no record matches. *)
Theorem get_epoch_first_match_or_404 :
  forall path w doc w1 formatted_data w2,
    fetch_data xmltodict_parse w = (Return doc, w1) ->
    format_data libc doc w1 = (Return (PList formatted_data), w2) ->
    let epoch := Str.replace "_" ":" (Str.replace "__" " " path) in
    get_epoch libc xmltodict_parse path w
    = (Return match find (has_timestamp epoch) formatted_data with
              | Some data => Body data
              | None => BodyStatus (PDict [("error", PStr "Epoch not found")]) 404
              end, w2)
    /\ (forall data, find (has_timestamp epoch) formatted_data = Some data ->
          getitem data "timestamp" = ret (PStr epoch)
          /\ view_status (Body data) = 200)
    /\ (find (has_timestamp epoch) formatted_data = None ->
          forall data, In data formatted_data ->
            getitem data "timestamp" <> ret (PStr epoch)).
Proof.
  intros path w doc w1 fd w2 Hfetch Hformat epoch.
  destruct (format_data_returns_records _ _ _ _ _ Hformat) as (entries & [= ->]).
  pose proof (normalized_list_records libc entries) as Hrec.
  repeat split.
  - unfold get_epoch.
    rewrite (bind_return _ _ _ _ _ Hfetch), (bind_return _ _ _ _ _ Hformat).
    unfold bind, py_iter, ret. fold epoch.
    apply (get_epoch_loop_spec _ _ _ Hrec).
  - apply find_some in H as [Hin Hts].
    rewrite Forall_forall in Hrec.
    destruct (Hrec _ Hin) as (ts & x & y & z & dx & dy & dz & ->).
    cbn in Hts. apply String.eqb_eq in Hts. subst ts. reflexivity.
  - intros Hnone data Hin Hget.
    pose proof (find_none _ _ Hnone _ Hin) as Hts.
    rewrite Forall_forall in Hrec.
    destruct (Hrec _ Hin) as (ts & x & y & z & dx & dy & dz & ->).
    cbn in Hts, Hget.
    assert (Heq : Return (PStr ts) = Return (PStr epoch)).
    { apply (f_equal (fun m => fst (m quiet))) in Hget. exact Hget. }
    injection Heq as ->. rewrite String.eqb_refl in Hts. discriminate.
Qed.

End EpochRoute.

Example decode_epoch_sample :
  decode_epoch "1000-01-02__00_00_00.000000" = "1000-01-02 00:00:00.000000".
Proof. reflexivity. Qed.

Example test_get_epoch :
  get_epoch Datetime.Plain fixture_parse "1000-01-02__00_00_00.000000" fixture_upstream
  = (Return (Body (record "1000-01-02 00:00:00.000000" (-7) 8 (-9) 10 (-11) 12)), quiet).
Proof. vm_compute. reflexivity. Qed.

Example test_get_epoch_unknown :
  get_epoch Datetime.Plain fixture_parse "1000-01-09__00_00_00.000000" fixture_upstream
  = (Return (BodyStatus (PDict [("error", PStr "Epoch not found")]) 404), quiet).
Proof. vm_compute. reflexivity. Qed.

Lemma get_epoch_first_match_or_404_witness :
  get_epoch Datetime.Plain fixture_parse "1000-01-02__00_00_00.000000" fixture_upstream
  = (Return match find (has_timestamp "1000-01-02 00:00:00.000000") test_formatted_data with
            | Some data => Body data
            | None => BodyStatus (PDict [("error", PStr "Epoch not found")]) 404
            end, quiet).
Proof.
  apply (get_epoch_first_match_or_404 Datetime.Plain fixture_parse
           "1000-01-02__00_00_00.000000" fixture_upstream test_data_dict quiet
           test_formatted_data quiet).
  - reflexivity.
  - vm_compute. reflexivity.
Defined.

Lemma get_epochs_slices_agree_witness :
  exists page page0 rest page52 page5,
    get_epochs Datetime.Plain fixture_parse (mkQuery (Some 2) (Some 1)) fixture_upstream
    = (Return (Body (PList page)), quiet)
    /\ get_epochs Datetime.Plain fixture_parse (mkQuery (Some (2 + 1)) None) fixture_upstream
       = (Return (Body (PList page0)), quiet)
    /\ (forall i, nth_error page i = nth_error page0 (i + Z.to_nat 1))
    /\ (0 < 2 -> nth_error page 0 = nth_error test_formatted_data (Z.to_nat 1)
                 /\ nth_error page 0 <> None)
    /\ get_epochs Datetime.Plain fixture_parse (mkQuery (Some (2 + 1)) None) fixture_upstream
       = get_epochs Datetime.Plain fixture_parse (mkQuery (Some (2 + 1)) (Some 0)) fixture_upstream
    /\ get_epochs Datetime.Plain fixture_parse (mkQuery None (Some 1)) fixture_upstream
       = (Return (Body (PList rest)), quiet)
    /\ rest = skipn (Z.to_nat 1) test_formatted_data
    /\ get_epochs Datetime.Plain fixture_parse (mkQuery None None) fixture_upstream
       = (Return (Body (PList test_formatted_data)), quiet)
    /\ get_epochs Datetime.Plain fixture_parse (mkQuery (Some 5) (Some 2)) fixture_upstream
       = (Return (Body (PList page52)), quiet)
    /\ get_epochs Datetime.Plain fixture_parse (mkQuery (Some 5) None) fixture_upstream
       = (Return (Body (PList page5)), quiet)
    /\ nth_error page52 0 = nth_error page5 2.
Proof.
  apply (get_epochs_slices_agree Datetime.Plain fixture_parse fixture_upstream
           test_data_dict quiet test_formatted_data quiet 2 1).
  - reflexivity.
  - vm_compute. reflexivity.
  - lia.
  - lia.
  - cbn. lia.
Defined.

(* ================================================================== *)
(** * The timestamp as a path segment *)
(* ================================================================== *)

Lemma replace_single c new s :
  Str.replace (String c "") new s = subst_char c new s.
Proof.
  unfold Str.replace.
  induction s as [|a rest IH]; [reflexivity|].
  cbn [Str.replace_from prefix subst_char String.length Nat.sub].
  destruct (ascii_dec c a) as [->|Hne].
  - rewrite Ascii.eqb_refl.
    replace (prefix "" rest) with true by (destruct rest; reflexivity).
    rewrite IH. reflexivity.
  - apply Ascii.eqb_neq in Hne. rewrite Hne, IH. reflexivity.
Qed.

Lemma replace_double_underscore_cons a rest :
  a <> "_"%char ->
  Str.replace "__" " " (String a rest) = String a (Str.replace "__" " " rest).
Proof.
  intros Ha. unfold Str.replace. cbn [Str.replace_from prefix].
  destruct (ascii_dec "_" a) as [<-|_]; [contradiction|reflexivity].
Qed.

Lemma replace_double_underscore_pair rest :
  Str.replace "__" " " (String "_" (String "_" rest))
  = String " " (Str.replace "__" " " rest).
Proof.
  unfold Str.replace. cbn [Str.replace_from prefix].
  destruct (ascii_dec "_" "_") as [_|Hne]; [|contradiction].
  replace (prefix "" rest) with true by (destruct rest; reflexivity).
  reflexivity.
Qed.

Lemma replace_double_underscore_single rest :
  match rest with String b _ => b <> "_"%char | "" => True end ->
  Str.replace "__" " " (String "_" rest) = String "_" (Str.replace "__" " " rest).
Proof.
  intros Hb. unfold Str.replace. destruct rest as [|b rest']; [reflexivity|].
  cbn [Str.replace_from prefix].
  destruct (ascii_dec "_" "_") as [_|Hne]; [|contradiction].
  destruct (ascii_dec "_" b) as [<-|_]; [contradiction|reflexivity].
Qed.

(** After the first step of the decoding, the spaces are back and the
    colons are still underscores. *)
Lemma decode_first_step s :
  round_trips s = true ->
  Str.replace "__" " " (subst_char ":" "_" (subst_char " " "__" s)) = subst_char ":" "_" s.
Proof.
  induction s as [|a rest IH]; [reflexivity|].
  cbn [round_trips]. intros H.
  apply andb_prop in H as [H Hrest]. apply andb_prop in H as [Hu Hc].
  apply negb_true_iff, Ascii.eqb_neq in Hu.
  specialize (IH Hrest).
  cbn [subst_char].
  destruct (Ascii.eqb_spec " " a) as [<-|Hsp].
  - cbn -[Str.replace]. rewrite replace_double_underscore_pair, IH. reflexivity.
  - cbn [subst_char]. destruct (Ascii.eqb_spec ":" a) as [<-|Hco].
    + cbn [append]. rewrite replace_double_underscore_single, IH; [reflexivity|].
      destruct rest as [|b rest']; [exact I|].
      cbn in Hc. apply andb_prop in Hc as [Hb1 Hb2].
      apply negb_true_iff, Ascii.eqb_neq in Hb1, Hb2.
      cbn [round_trips] in Hrest.
      apply andb_prop in Hrest as [Hrest _]. apply andb_prop in Hrest as [Hbu _].
      apply negb_true_iff, Ascii.eqb_neq in Hbu.
      cbn [subst_char].
      destruct (Ascii.eqb_spec " " b) as [<-|_]; [contradiction|].
      cbn [subst_char].
      destruct (Ascii.eqb_spec ":" b) as [<-|_]; [contradiction|].
      exact Hbu.
    + rewrite replace_double_underscore_cons by exact Hu. rewrite IH. reflexivity.
Qed.

Lemma decode_second_step s :
  round_trips s = true -> subst_char "_" ":" (subst_char ":" "_" s) = s.
Proof.
  induction s as [|a rest IH]; [reflexivity|].
  cbn [round_trips]. intros H.
  apply andb_prop in H as [H Hrest]. apply andb_prop in H as [Hu _].
  apply negb_true_iff, Ascii.eqb_neq in Hu.
  specialize (IH Hrest). cbn [subst_char].
  destruct (Ascii.eqb_spec ":" a) as [<-|Hco].
  - cbn. rewrite IH. reflexivity.
  - cbn [subst_char]. destruct (Ascii.eqb_spec "_" a) as [<-|_]; [contradiction|].
    rewrite IH. reflexivity.
Qed.

Lemma round_trip s : round_trips s = true -> decode_epoch (encode_epoch s) = s.
Proof.
  intros H. unfold decode_epoch, encode_epoch.
  rewrite (replace_single " " "__"), (replace_single ":" "_"), (replace_single "_" ":").
  rewrite decode_first_step by exact H. apply decode_second_step. exact H.
Qed.

Lemma digit_char_plain d :
  Ascii.eqb (Str.digit_char d) "_" = false
  /\ Ascii.eqb (Str.digit_char d) ":" = false
  /\ Ascii.eqb (Str.digit_char d) " " = false.
Proof.
  destruct d as [|p|p]; try (repeat split; reflexivity);
    do 4 (try destruct p as [p|p|]; try (repeat split; reflexivity)).
Qed.

Lemma round_trips_digit d rest :
  round_trips (String (Str.digit_char d) rest) = round_trips rest.
Proof.
  cbn [round_trips]. destruct (digit_char_plain d) as (-> & -> & _). reflexivity.
Qed.

Lemma round_trips_colon_digit d rest :
  round_trips (String ":" (String (Str.digit_char d) rest)) = round_trips rest.
Proof.
  rewrite <- (round_trips_digit d rest).
  change (round_trips (String ":" (String (Str.digit_char d) rest)))
    with (negb (Ascii.eqb (Str.digit_char d) " ") && negb (Ascii.eqb (Str.digit_char d) ":")
          && round_trips (String (Str.digit_char d) rest)).
  destruct (digit_char_plain d) as (_ & -> & ->). reflexivity.
Qed.

Lemma round_trips_other c rest :
  Ascii.eqb c "_" = false -> Ascii.eqb c ":" = false ->
  round_trips (String c rest) = round_trips rest.
Proof. intros H1 H2. cbn [round_trips]. rewrite H1, H2. reflexivity. Qed.

Ltac round_trips_scan :=
  repeat first
    [ rewrite round_trips_digit
    | rewrite round_trips_colon_digit
    | rewrite round_trips_other by reflexivity ];
  reflexivity.

Lemma strftime_round_trips libc t :
  round_trips (Datetime.strftime_canonical libc t) = true.
Proof.
  unfold Datetime.strftime_canonical, Datetime.year_text.
  destruct libc; cbn [Datetime.decimal_from Str.zero_padded append].
  - destruct (Datetime.year t / 10 =? 0);
      [|destruct (Datetime.year t / 10 / 10 =? 0);
        [|destruct (Datetime.year t / 10 / 10 / 10 =? 0);
          [|destruct (Datetime.year t / 10 / 10 / 10 / 10 =? 0)]]];
      cbn [append]; round_trips_scan.
  - round_trips_scan.
Qed.

Lemma normalized_list_timestamps libc entries r :
  In r (normalized_list libc entries) ->
  exists t x y z dx dy dz, r = record (Datetime.strftime_canonical libc t) x y z dx dy dz.
Proof.
  induction entries as [|sv rest IH]; cbn; [contradiction|].
  destruct (normalized libc sv) as [r'|] eqn:Hr; [|exact IH].
  intros [<-|Hin]; [|exact (IH Hin)].
  unfold normalized in Hr.
  destruct (parsed_epoch sv) as [t|]; [|discriminate].
  destruct (parsed_field sv "X") as [x|]; [|discriminate].
  destruct (parsed_field sv "Y") as [y|]; [|discriminate].
  destruct (parsed_field sv "Z") as [z|]; [|discriminate].
  destruct (parsed_field sv "X_DOT") as [dx|]; [|discriminate].
  destruct (parsed_field sv "Y_DOT") as [dy|]; [|discriminate].
  destruct (parsed_field sv "Z_DOT") as [dz|]; [|discriminate].
  injection Hr as <-. eauto 8.
Qed.

(** C10.  Every timestamp that [format_data] puts into a record survives
    the path encoding: replacing each space by ["__"] and each colon by
    ["_"], and then decoding as the route does (["__"] to a space, then
    ["_"] to a colon), gives the timestamp back. *)
Theorem epoch_path_round_trip :
  forall libc doc w formatted_data w' data,
    format_data libc doc w = (Return (PList formatted_data), w') ->
    In data formatted_data ->
    exists ts,
      getitem data "timestamp" = ret (PStr ts)
      /\ decode_epoch (Str.replace ":" "_" (Str.replace " " "__" ts)) = ts.
Proof.
  intros libc doc w fd w' data Hformat Hin.
  destruct (format_data_returns_records _ _ _ _ _ Hformat) as (entries & [= ->]).
  destruct (normalized_list_timestamps _ _ _ Hin) as (t & x & y & z & dx & dy & dz & ->).
  exists (Datetime.strftime_canonical libc t). split; [reflexivity|].
  apply round_trip, strftime_round_trips.
Qed.

Lemma epoch_path_round_trip_witness :
  exists ts,
    getitem (record "1000-01-03 00:00:00.000000" 13 (-14) 15 16 (-17) 18) "timestamp"
    = ret (PStr ts)
    /\ decode_epoch (Str.replace ":" "_" (Str.replace " " "__" ts)) = ts.
Proof.
  apply (epoch_path_round_trip Datetime.Plain test_data_dict quiet test_formatted_data quiet
           (record "1000-01-03 00:00:00.000000" 13 (-14) 15 16 (-17) 18)).
  - vm_compute. reflexivity.
  - cbn. tauto.
Defined.

Example encode_epoch_sample :
  encode_epoch "1000-01-03 00:00:00.000000" = "1000-01-03__00_00_00.000000"
  /\ decode_epoch "1000-01-03__00_00_00.000000" = "1000-01-03 00:00:00.000000".
Proof. split; reflexivity. Qed.

(** Without the shape of the timestamps the encoding cannot be undone: a
    colon directly before a space comes back as a space before a colon. *)
Example encoding_needs_the_shape : decode_epoch (encode_epoch ": ") = " :".
Proof. reflexivity. Qed.

(* ================================================================== *)
(** * The average speed *)
(* ================================================================== *)

(** ** Signs of binary64 results *)

Module FloatSign.
Import Binary64.

Lemma round_aux_not_negative mx ex lx :
  not_negative (binary_round_aux prec emax false mx ex lx) = true.
Proof.
  unfold binary_round_aux.
  destruct (shr_fexp prec emax mx ex lx) as [mrs' e'].
  destruct (shr_fexp prec emax _ e' loc_Exact) as [mrs'' e''].
  destruct (shr_m mrs''); [reflexivity| |reflexivity].
  destruct (e'' <=? emax - prec); reflexivity.
Qed.

Lemma mul_self_not_negative x : not_negative (SF64mul x x) = true.
Proof.
  destruct x as [s|s| |s m e]; cbn; try reflexivity.
  - destruct s; reflexivity.
  - replace (xorb s s) with false by (destruct s; reflexivity).
    apply round_aux_not_negative.
Qed.

Lemma add_not_negative x y :
  not_negative x = true -> not_negative y = true -> not_negative (SF64add x y) = true.
Proof.
  destruct x as [sx|sx| |sx mx ex], y as [sy|sy| |sy my ey]; cbn;
    intros Hx Hy; try reflexivity; try assumption.
  - destruct sx, sy; reflexivity.
  - destruct sx, sy; try discriminate; reflexivity.
  - apply negb_true_iff in Hx, Hy. subst sx sy.
    unfold binary_normalize. cbn [cond_Zopp Z.add]. unfold binary_round.
    destruct (shl_align _ _ _) as [mz ez]. apply round_aux_not_negative.
Qed.

Lemma not_negative_iff x :
  not_negative x = true <-> SFltb x (S754_zero false) = false.
Proof.
  destruct x as [s|s| |s m e]; cbn; split; intros H; try reflexivity;
    destruct s; try reflexivity; discriminate.
Qed.

Lemma not_below_zero_iff (x : float) :
  PrimFloat.ltb x 0 = false <-> not_negative (Prim2SF x) = true.
Proof. rewrite ltb_spec. symmetry. apply not_negative_iff. Qed.

(** A product of a number with itself is never below zero. *)
Lemma mul_self_not_below_zero (x : float) : PrimFloat.ltb (x * x)%float 0 = false.
Proof. apply not_below_zero_iff. rewrite mul_spec. apply mul_self_not_negative. Qed.

(** A sum of three numbers that are not below zero is not below zero, so
    that [math.sqrt] does not raise on it. *)
Lemma sum_not_below_zero (a b c : float) :
  PrimFloat.ltb a 0 = false -> PrimFloat.ltb b 0 = false -> PrimFloat.ltb c 0 = false ->
  PrimFloat.ltb (a + b + c)%float 0 = false.
Proof.
  rewrite !not_below_zero_iff. intros Ha Hb Hc. rewrite !add_spec.
  apply add_not_negative; [apply add_not_negative|]; assumption.
Qed.

Lemma normalize_not_negative z e :
  0 <= z -> not_negative (binary_normalize prec emax z e false) = true.
Proof.
  intros Hz. unfold binary_normalize. destruct z as [|p|p]; [reflexivity| |lia].
  unfold binary_round. destruct (shl_align _ _ _) as [mz ez].
  apply round_aux_not_negative.
Qed.

Lemma ldexp_not_negative x e :
  not_negative x = true -> not_negative (SFldexp prec emax x e) = true.
Proof.
  destruct x as [s|s| |s m ex]; cbn; intros H; try assumption.
  apply negb_true_iff in H. subst s.
  unfold binary_round. destruct (shl_align _ _ _) as [mz ez].
  apply round_aux_not_negative.
Qed.

(** The double built from a specification that is not negative is not
    negative, whether or not the specification is in normal form. *)
Lemma SF2Prim_not_negative x :
  not_negative x = true -> not_negative (Prim2SF (SF2Prim x)) = true.
Proof.
  destruct x as [s|s| |s m e]; cbn [not_negative]; intros H;
    try (apply negb_true_iff in H; subst s); try reflexivity.
  - destruct s; reflexivity.
  - unfold SF2Prim, Z.ldexp. rewrite ldshiftexp_spec.
    apply ldexp_not_negative. rewrite of_uint63_spec.
    apply normalize_not_negative.
    apply Uint63.to_Z_bounded.
Qed.

(** The double of an int that is not below zero is not below zero. *)
Lemma nearest_not_below_zero z : 0 <= z -> PrimFloat.ltb (nearest z) 0 = false.
Proof.
  intros Hz. apply not_below_zero_iff. unfold nearest.
  apply SF2Prim_not_negative, normalize_not_negative, Hz.
Qed.

Lemma nan_not_below_zero x : is_nan x = true -> PrimFloat.ltb x 0 = false.
Proof.
  unfold is_nan. rewrite eqb_spec, ltb_spec.
  destruct (Prim2SF x) as [s|s| |s m e]; try reflexivity.
  - destruct s; cbn; discriminate.
  - unfold SFeqb, SFcompare. rewrite Z.compare_refl, Pos.compare_cont_refl.
    destruct s; cbn; discriminate.
Qed.

Lemma abs_not_below_zero x : PrimFloat.ltb (abs x) 0 = false.
Proof.
  apply not_below_zero_iff. rewrite abs_spec.
  destruct (Prim2SF x); reflexivity.
Qed.

Lemma add_not_below_zero a b :
  PrimFloat.ltb a 0 = false -> PrimFloat.ltb b 0 = false ->
  PrimFloat.ltb (a + b)%float 0 = false.
Proof.
  rewrite !not_below_zero_iff. intros Ha Hb. rewrite add_spec.
  apply add_not_negative; assumption.
Qed.

End FloatSign.

(** A C library whose [pow(x, 2.0)] is the correctly rounded square; it is
    defined here, where its law is proved. *)
Definition correctly_rounded : PyFloat.math_library :=
  {| PyFloat.pow2 := fun x => (x * x)%float;
     PyFloat.pow2_not_below_zero := FloatSign.mul_self_not_below_zero |}.

Example test_calculate_average_speed :
  calculate_average_speed correctly_rounded (PList test_formatted_data) quiet
  = (Return (PFloat 0x1.84e24f7e047e0p+4), quiet).
Proof. vm_compute. reflexivity. Qed.

(** ** The mean *)

Section AverageSpeed.

Variable libm : PyFloat.math_library.

Lemma power2_not_below_zero x :
  is_finite x = true -> PrimFloat.ltb (PyFloat.power2 libm x) 0 = false.
Proof.
  unfold is_finite, PyFloat.power2. intros H.
  apply negb_true_iff, orb_false_iff in H as [-> ->].
  destruct (PrimFloat.eqb x 0); [reflexivity|].
  destruct (PrimFloat.eqb (abs x) 1); [reflexivity|].
  apply PyFloat.pow2_not_below_zero.
Qed.

Lemma square_in_range x w :
  squares_finitely libm x = true ->
  PyFloat.square libm x w = (Return (PyFloat.power2 libm x), w).
Proof.
  unfold squares_finitely, PyFloat.square. intros H.
  apply andb_prop in H as [_ Hsq]. apply negb_true_iff in Hsq.
  rewrite Hsq, andb_false_r. reflexivity.
Qed.

Lemma getitem_present kvs key v w :
  assoc key kvs = Some v -> getitem (PDict kvs) key w = (Return v, w).
Proof. intros H. unfold getitem. rewrite H. reflexivity. Qed.

Lemma py_square_in_range x w :
  squares_finitely libm x = true ->
  py_square libm (PFloat x) w = (Return (PFloat (PyFloat.power2 libm x)), w).
Proof.
  intros H. unfold py_square. rewrite (bind_return _ _ _ _ _ (square_in_range x w H)).
  reflexivity.
Qed.

Lemma speed_of_spec data v w :
  velocity data = Some v -> velocity_in_range libm v = true ->
  speed_of libm data w = (Return (PFloat (speed libm v)), w).
Proof.
  unfold velocity. destruct data as [| | | | |kvs]; try discriminate.
  destruct (assoc "dx" kvs) as [[| |dx| | |]|] eqn:Hdx; try discriminate.
  destruct (assoc "dy" kvs) as [[| |dy| | |]|] eqn:Hdy; try discriminate.
  destruct (assoc "dz" kvs) as [[| |dz| | |]|] eqn:Hdz; try discriminate.
  intros [= <-] Hr. cbn [velocity_in_range] in Hr.
  apply andb_prop in Hr as [Hr Hz]. apply andb_prop in Hr as [Hx Hy].
  unfold speed_of.
  rewrite (bind_return _ _ _ _ _ (getitem_present _ _ _ w Hdx)).
  rewrite (bind_return _ _ _ _ _ (py_square_in_range _ w Hx)).
  rewrite (bind_return _ _ _ _ _ (getitem_present _ _ _ w Hdy)).
  rewrite (bind_return _ _ _ _ _ (py_square_in_range _ w Hy)).
  rewrite (bind_return _ _
             (PFloat (PyFloat.power2 libm dx + PyFloat.power2 libm dy)%float) w w)
    by reflexivity.
  rewrite (bind_return _ _ _ _ _ (getitem_present _ _ _ w Hdz)).
  rewrite (bind_return _ _ _ _ _ (py_square_in_range _ w Hz)).
  rewrite (bind_return _ _
             (PFloat (PyFloat.power2 libm dx + PyFloat.power2 libm dy
                      + PyFloat.power2 libm dz)%float) w w)
    by reflexivity.
  unfold math_sqrt, bind, as_double, ret.
  unfold squares_finitely in Hx, Hy, Hz.
  apply andb_prop in Hx as [Hx _], Hy as [Hy _], Hz as [Hz _].
  rewrite FloatSign.sum_not_below_zero by (apply power2_not_below_zero; assumption).
  reflexivity.
Qed.

Lemma total_speed_loop_spec items :
  forall velocities acc w,
    map velocity items = map Some velocities ->
    forallb (velocity_in_range libm) velocities = true ->
    total_speed_loop libm items (PFloat acc) w
    = (Return (PFloat (fold_left PrimFloat.add (map (speed libm) velocities) acc)), w).
Proof.
  induction items as [|data rest IH]; intros [|v vs] acc w Hv Hr; try discriminate.
  - reflexivity.
  - cbn in Hv, Hr. injection Hv as Hv Hvs. apply andb_prop in Hr as [Hr Hrs].
    cbn [total_speed_loop]. unfold bind at 1.
    rewrite (speed_of_spec _ _ _ Hv Hr). cbn.
    apply (IH vs _ w Hvs Hrs).
Qed.

Lemma power2_never_below_zero x : PrimFloat.ltb (PyFloat.power2 libm x) 0 = false.
Proof.
  unfold PyFloat.power2.
  destruct (is_nan x) eqn:Hnan; [apply FloatSign.nan_not_below_zero, Hnan|].
  destruct (is_infinity x); [apply FloatSign.abs_not_below_zero|].
  destruct (PrimFloat.eqb x 0); [reflexivity|].
  destruct (PrimFloat.eqb (abs x) 1); [reflexivity|].
  apply PyFloat.pow2_not_below_zero.
Qed.

Lemma as_double_number v w :
  is_number v = true ->
  as_double v w = (match double_of v with
                   | Some x => Return x
                   | None => Raise OverflowError
                   end, w).
Proof.
  destruct v as [|z|f| | |]; try discriminate; intros _; [|reflexivity].
  unfold as_double, PyFloat.of_int, double_of.
  destruct (Z.leb_spec (2 ^ 1024 - 2 ^ 970) (Z.abs z)) as [H|H].
  - apply Z.ltb_ge in H. rewrite H. reflexivity.
  - apply Z.ltb_lt in H. rewrite H. reflexivity.
Qed.

Lemma double_of_not_below_zero v x :
  not_below_zero v -> double_of v = Some x -> PrimFloat.ltb x 0 = false.
Proof.
  destruct v as [|z|f| | |]; try discriminate; cbn [double_of not_below_zero].
  - intros Hz. destruct (Z.abs z <? _); [|discriminate].
    intros [= <-]. apply FloatSign.nearest_not_below_zero, Hz.
  - intros Hf [= <-]. exact Hf.
Qed.

Lemma py_square_number v w :
  is_number v = true -> py_square libm v w = (or_overflow (squared libm v), w).
Proof.
  destruct v as [|z|f| | |]; try discriminate; intros _; [reflexivity|].
  unfold py_square, squared, bind, PyFloat.square.
  destruct (is_finite f && is_infinity (PyFloat.power2 libm f)); reflexivity.
Qed.

Lemma squared_number v r :
  squared libm v = Some r -> is_number r = true /\ not_below_zero r.
Proof.
  destruct v as [|z|f| | |]; try discriminate; cbn [squared].
  - intros [= <-]. split; [reflexivity|]. cbn. nia.
  - destruct (is_finite f && _); [discriminate|]. intros [= <-].
    split; [reflexivity|]. apply power2_never_below_zero.
Qed.

Lemma py_add_number a b w :
  is_number a = true -> is_number b = true ->
  py_add a b w = (or_overflow (added a b), w).
Proof.
  destruct a as [|x|x| | |]; try discriminate;
    destruct b as [|y|y| | |]; try discriminate; intros _ _; try reflexivity.
  - unfold py_add, added, bind.
    rewrite (as_double_number (PInt x) w eq_refl).
    destruct (double_of (PInt x)); reflexivity.
  - unfold py_add, added, bind.
    rewrite (as_double_number (PFloat x) w eq_refl).
    rewrite (as_double_number (PInt y) w eq_refl).
    destruct (double_of (PInt y)); reflexivity.
Qed.

Lemma added_number a b r :
  not_below_zero a -> not_below_zero b -> added a b = Some r ->
  is_number r = true /\ not_below_zero r.
Proof.
  intros Ha Hb. unfold added.
  destruct (double_of a) as [x|] eqn:Hx, (double_of b) as [y|] eqn:Hy;
    destruct a as [|za|fa| | |]; try discriminate;
    destruct b as [|zb|fb| | |]; try discriminate;
    intros [= <-]; (split; [reflexivity|]); cbn [not_below_zero] in *; try lia;
    apply FloatSign.add_not_below_zero;
    first [ eapply double_of_not_below_zero; [|eassumption]; assumption ].
Qed.

Lemma math_sqrt_number v w :
  is_number v = true -> not_below_zero v ->
  math_sqrt v w = (or_overflow (option_map (fun x => PFloat (PrimFloat.sqrt x)) (double_of v)), w).
Proof.
  intros Hn Hv. unfold math_sqrt, bind. rewrite (as_double_number v w Hn).
  destruct (double_of v) as [x|] eqn:Hx; [|reflexivity].
  rewrite (double_of_not_below_zero v x Hv Hx). reflexivity.
Qed.

(** On a record with numeric [dx], [dy], [dz] the speed is computed, or
    [OverflowError] is raised; nothing else. *)
Lemma speed_of_numeric data v w :
  numeric_velocity data = Some v ->
  speed_of libm data w
  = (or_overflow (option_map PFloat (numeric_speed libm v)), w).
Proof.
  unfold numeric_velocity. destruct data as [| | | | |kvs]; try discriminate.
  destruct (assoc "dx" kvs) as [dx|] eqn:Hdx; [|discriminate].
  destruct (assoc "dy" kvs) as [dy|] eqn:Hdy; [|discriminate].
  destruct (assoc "dz" kvs) as [dz|] eqn:Hdz; [|discriminate].
  destruct (is_number dx) eqn:Nx; [|discriminate].
  destruct (is_number dy) eqn:Ny; [|discriminate].
  destruct (is_number dz) eqn:Nz; [|discriminate].
  intros [= <-]. unfold speed_of, numeric_speed.
  rewrite (bind_return _ _ _ _ _ (getitem_present _ _ _ w Hdx)).
  unfold bind at 1. rewrite (py_square_number dx w Nx).
  destruct (squared libm dx) as [dx2|] eqn:Sx; [|reflexivity].
  cbn [or_overflow]. destruct (squared_number _ _ Sx) as [Nx2 Px2].
  rewrite (bind_return _ _ _ _ _ (getitem_present _ _ _ w Hdy)).
  unfold bind at 1. rewrite (py_square_number dy w Ny).
  destruct (squared libm dy) as [dy2|] eqn:Sy; [|reflexivity].
  cbn [or_overflow]. destruct (squared_number _ _ Sy) as [Ny2 Py2].
  unfold bind at 1. rewrite (py_add_number dx2 dy2 w Nx2 Ny2).
  destruct (added dx2 dy2) as [s|] eqn:Hs.
  2:{ cbn [or_overflow]. destruct (squared libm dz); reflexivity. }
  cbn [or_overflow]. destruct (added_number _ _ _ Px2 Py2 Hs) as [Ns Ps].
  rewrite (bind_return _ _ _ _ _ (getitem_present _ _ _ w Hdz)).
  unfold bind at 1. rewrite (py_square_number dz w Nz).
  destruct (squared libm dz) as [dz2|] eqn:Sz; [|reflexivity].
  cbn [or_overflow]. destruct (squared_number _ _ Sz) as [Nz2 Pz2].
  unfold bind at 1. rewrite (py_add_number s dz2 w Ns Nz2).
  destruct (added s dz2) as [t|] eqn:Ht; [|reflexivity].
  cbn [or_overflow]. destruct (added_number _ _ _ Ps Pz2 Ht) as [Nt Pt].
  rewrite (math_sqrt_number t w Nt Pt).
  destruct (double_of t); reflexivity.
Qed.

Lemma total_speed_loop_numeric items :
  forall velocities speeds acc w,
    map numeric_velocity items = map Some velocities ->
    map (numeric_speed libm) velocities = map Some speeds ->
    total_speed_loop libm items (PFloat acc) w
    = (Return (PFloat (fold_left PrimFloat.add speeds acc)), w).
Proof.
  induction items as [|data rest IH]; intros [|v vs] [|s ss] acc w Hv Hs;
    try discriminate.
  - reflexivity.
  - cbn [map] in Hv, Hs. injection Hv as Hv Hvs. injection Hs as Hs Hss.
    cbn [total_speed_loop]. unfold bind at 1.
    rewrite (speed_of_numeric _ _ w Hv), Hs. cbn.
    apply (IH vs ss _ w Hvs Hss).
Qed.

Lemma total_speed_loop_overflow before :
  forall velocities speeds data v after acc w,
    map numeric_velocity before = map Some velocities ->
    map (numeric_speed libm) velocities = map Some speeds ->
    numeric_velocity data = Some v -> numeric_speed libm v = None ->
    total_speed_loop libm (before ++ data :: after)%list (PFloat acc) w
    = (Raise OverflowError, w).
Proof.
  induction before as [|r rest IH]; intros [|u vs] [|s ss] data v after acc w Hv Hs Hd Hn;
    try discriminate.
  - cbn [app total_speed_loop]. unfold bind at 1.
    rewrite (speed_of_numeric _ _ w Hd), Hn. reflexivity.
  - cbn [map] in Hv, Hs. injection Hv as Hv Hvs. injection Hs as Hs Hss.
    cbn [app total_speed_loop]. unfold bind at 1.
    rewrite (speed_of_numeric _ _ w Hv), Hs. cbn.
    apply (IH vs ss data v after _ w Hvs Hss Hd Hn).
Qed.

(** The first turn of the loop adds the speed to the int [0]. *)
Lemma total_speed_loop_start data rest w :
  total_speed_loop libm (data :: rest) (PInt 0) w
  = match speed_of libm data w with
    | (Return (PFloat s), w') => total_speed_loop libm rest (PFloat (0 + s)) w'
    | (Return PNone, w') => (Raise TypeError, w')
    | (Return (PInt z), w') => total_speed_loop libm rest (PInt (0 + z)) w'
    | (Return (PStr _), w') | (Return (PList _), w') | (Return (PDict _), w') =>
        (Raise TypeError, w')
    | (Raise e, w') => (Raise e, w')
    end.
Proof.
  cbn [total_speed_loop]. unfold bind at 1.
  destruct (speed_of libm data w) as [[[|z|s| | |]|e] w']; reflexivity.
Qed.

(** C7, amended.  For a non-empty list (shorter than [2^63], as every
    list of the interpreter is) of records whose [dx], [dy], [dz] are
    numbers, ints or floats, infinities and NaN included, and on none of
    which the speed is out of range, [calculate_average_speed] returns the
    arithmetic mean of [sqrt(dx² + dy² + dz²)] over the records.  Out of
    range are exactly the records on which [**] or the conversion of an int
    to a double overflows: at the first of them [OverflowError] leaves the
    function, whatever follows it.  For the four velocities of the fixture,
    with correctly rounded squares, the mean is 24.305251590972944; on the
    empty list the division by zero is caught and logged, and [None] is
    returned. *)
Theorem calculate_average_speed_is_the_mean :
  forall formatted_data velocities speeds w,
    formatted_data <> [] ->
    map numeric_velocity formatted_data = map Some velocities ->
    map (numeric_speed libm) velocities = map Some speeds ->
    Z.of_nat (List.length formatted_data) < 2 ^ 63 ->
    calculate_average_speed libm (PList formatted_data) w
    = (Return (PFloat (mean speeds)), w)
    /\ (forall before data after vs ss v,
          map numeric_velocity before = map Some vs ->
          map (numeric_speed libm) vs = map Some ss ->
          numeric_velocity data = Some v -> numeric_speed libm v = None ->
          calculate_average_speed libm (PList (before ++ data :: after)%list) w
          = (Raise OverflowError, w))
    /\ calculate_average_speed correctly_rounded (PList test_formatted_data) w
       = (Return (PFloat 0x1.84e24f7e047e0p+4), w)
    /\ PrimFloat.ltb 24.25 0x1.84e24f7e047e0p+4 = true
    /\ PrimFloat.ltb 0x1.84e24f7e047e0p+4 24.375 = true
    /\ calculate_average_speed libm (PList []) w
       = (Return PNone, logged w "Error: Empty formatted_data list (division by zero)").
Proof.
  intros items velocities speeds w Hne Hv Hs Hlen.
  split; [|split; [|split; [|split; [|split]]]].
  3:{ vm_compute. reflexivity. }
  3:{ reflexivity. }
  3:{ reflexivity. }
  3:{ reflexivity. }
  - destruct items as [|data rest]; [contradiction|].
    destruct velocities as [|v vs]; [discriminate|].
    destruct speeds as [|s ss]; [discriminate|].
    cbn [map] in Hv, Hs. injection Hv as Hv Hvs. injection Hs as Hs Hss.
    assert (Hbig : 2 ^ 63 < 2 ^ 1024 - 2 ^ 970) by (vm_compute; reflexivity).
    unfold calculate_average_speed, try_except.
    rewrite (bind_return _ _ (data :: rest) w w) by reflexivity.
    erewrite (bind_return (total_speed_loop libm (data :: rest) (PInt 0)) _ _ w w).
    2:{ rewrite total_speed_loop_start, (speed_of_numeric _ _ w Hv), Hs.
        cbn [or_overflow option_map].
        apply (total_speed_loop_numeric rest vs ss _ w Hvs Hss). }
    rewrite (bind_return _ _ (PInt (Z.of_nat (List.length (data :: rest)))) w w)
      by reflexivity.
    unfold py_truediv, PyFloat.of_int, bind.
    destruct (Z.leb_spec (2 ^ 1024 - 2 ^ 970) (Z.abs (Z.of_nat (List.length (data :: rest)))));
      [lia|].
    unfold ret.
    destruct (Z.eqb_spec (Z.of_nat (List.length (data :: rest))) 0) as [H0|_];
      [cbn in H0; lia|].
    unfold mean, count. cbn [fold_left].
    replace (List.length (s :: ss)) with (List.length (data :: rest)).
    + reflexivity.
    + cbn. apply (f_equal (@List.length _)) in Hvs, Hss. rewrite !length_map in Hvs, Hss.
      congruence.
  - intros before data after vs ss v Hb Hbs Hd Hn.
    unfold calculate_average_speed, try_except.
    rewrite (bind_return _ _ (before ++ data :: after)%list w w) by reflexivity.
    erewrite (bind_raise (total_speed_loop libm _ (PInt 0)) _ OverflowError w w);
      [reflexivity|].
    destruct before as [|r rest].
    + cbn [app]. rewrite total_speed_loop_start, (speed_of_numeric _ _ w Hd), Hn.
      reflexivity.
    + destruct vs as [|u us]; [discriminate|]. destruct ss as [|s ss]; [discriminate|].
      cbn [map] in Hb, Hbs. injection Hb as Hb Hbr. injection Hbs as Hbs Hbss.
      cbn [app]. rewrite total_speed_loop_start, (speed_of_numeric _ _ w Hb), Hbs.
      cbn [or_overflow option_map].
      apply (total_speed_loop_overflow rest us ss data v after _ w Hbr Hbss Hd Hn).
Qed.

End AverageSpeed.

Lemma calculate_average_speed_is_the_mean_witness :
  calculate_average_speed correctly_rounded (PList numeric_records) quiet
  = (Return (PFloat (mean [5; 13]%float)), quiet).
Proof.
  destruct (calculate_average_speed_is_the_mean correctly_rounded numeric_records
              [(PInt 3, PInt 4, PInt 0); (PInt 3, PFloat 4, PInt 12)] [5; 13]%float quiet)
    as [Hmean _].
  - discriminate.
  - reflexivity.
  - vm_compute. reflexivity.
  - vm_compute. reflexivity.
  - exact Hmean.
Defined.

(** Ints, infinities and NaN are numbers like the others; an int whose
    square has no double overflows as a float does. *)
Example calculate_average_speed_of_numbers :
  map (fun records => fst (calculate_average_speed correctly_rounded (PList records) quiet))
      [[PDict [("dx", PInt 3); ("dy", PInt 4); ("dz", PInt 0)]];
       [PDict [("dx", PFloat infinity); ("dy", PFloat 1); ("dz", PInt 2)]];
       [PDict [("dx", PFloat nan); ("dy", PFloat 1); ("dz", PFloat 2)]];
       [PDict [("dx", PInt (2 ^ 511)); ("dy", PFloat 1); ("dz", PInt 0)]];
       [PDict [("dx", PInt (2 ^ 512)); ("dy", PFloat 1); ("dz", PInt 0)]]]
  = [Return (PFloat 5); Return (PFloat infinity); Return (PFloat nan);
     Return (PFloat 0x1p+511); Raise OverflowError].
Proof. vm_compute. reflexivity. Qed.

(** The claim C7 as it is worded promises the mean for every non-empty
    list of records with numeric velocities: on the record that
    [format_data] makes of [data_dict_fast], [dx ** 2] is out of range, and
    the [OverflowError] of [**] is caught by neither handler. *)
Lemma calculate_average_speed_overflow :
  format_data Datetime.Plain data_dict_fast quiet
  = (Return (PList [record "2024-03-17 12:00:00.000000" 1 2 3
                           0x1.4e718d7d7625ap+664 0 0]), quiet)
  /\ calculate_average_speed correctly_rounded
       (PList [record "2024-03-17 12:00:00.000000" 1 2 3 0x1.4e718d7d7625ap+664 0 0])
       quiet
     = (Raise OverflowError, quiet).
Proof. split; vm_compute; reflexivity. Qed.

(* ================================================================== *)
(** * Rounding in binary64 *)
(* ================================================================== *)

(** The longitude correction adds and subtracts small integers.  What is
    needed of IEEE arithmetic is that a sum or a difference, rounded to the
    nearest double, does not leave an interval with representable ends that
    holds the exact result.  This is proved here from the specification of
    the operations in [SpecFloat] ([binary_normalize], which shifts the
    exact mantissa and rounds it to nearest-even), values being counted in
    units of [2^-1074], the spacing of the smallest doubles. *)

Module Rounding.
Import Binary64.

Lemma digits_bounds p :
  2 ^ (Zpos (digits2_pos p) - 1) <= Zpos p < 2 ^ Zpos (digits2_pos p).
Proof.
  induction p as [p IH|p IH|]; cbn [digits2_pos].
  - rewrite Pos2Z.inj_succ.
    replace (Z.succ (Zpos (digits2_pos p)) - 1) with (Z.succ (Zpos (digits2_pos p) - 1)) by lia.
    rewrite !Z.pow_succ_r by lia. lia.
  - rewrite Pos2Z.inj_succ.
    replace (Z.succ (Zpos (digits2_pos p)) - 1) with (Z.succ (Zpos (digits2_pos p) - 1)) by lia.
    rewrite !Z.pow_succ_r by lia. lia.
  - cbn. lia.
Qed.

(** If [n < 2^k] then [n] has at most [k] digits. *)
Lemma digits_le p k : 0 <= k -> Zpos p < 2 ^ k -> Zpos (digits2_pos p) <= k.
Proof.
  intros Hk Hp. destruct (Z.le_gt_cases (Zpos (digits2_pos p)) k) as [H|H]; [exact H|].
  pose proof (digits_bounds p) as [Hlo _].
  assert (2 ^ k <= 2 ^ (Zpos (digits2_pos p) - 1)) by (apply Z.pow_le_mono_r; lia).
  lia.
Qed.























End Rounding.

(** ** Doubles between two small integers *)










(* ================================================================== *)
(** * The geodetic converter *)
(* ================================================================== *)

(** ** The corrected longitude *)


Example corrected_longitude_samples :
  map corrected_longitude
      [0; 100; 105; 0x1.a400000000001p+6; 0x1.a400000000002p+6; 180; -180]%float
  = [75; 175; 180; 180; -0x1.67fffffffffffp+7; -105; -105]%float.
Proof. vm_compute. reflexivity. Qed.

Section Geodetic.

Variable obstime : pyval -> outcome float.
Variable to_earth_location : float -> pyval -> pyval -> pyval -> outcome earth_location.
Variable geocoder_reverse : float -> float -> outcome (option string).

(** What [cartesian_to_geo] returns when nothing fails. *)
Lemma cartesian_to_geo_success :
  forall epoch ts t x y z ears geoloc w,
    getitem epoch "timestamp" = ret ts ->
    obstime ts = Return t ->
    getitem epoch "x" = ret x ->
    getitem epoch "y" = ret y ->
    getitem epoch "z" = ret z ->
    to_earth_location t x y z = Return ears ->
    geocoder_reverse (lat_deg ears) (corrected_longitude (lon_deg ears)) = Return geoloc ->
    cartesian_to_geo obstime to_earth_location geocoder_reverse epoch w
    = (Return (PList [PDict [("lat", PFloat (lat_deg ears));
                             ("lon", PFloat (corrected_longitude (lon_deg ears)));
                             ("alt", PFloat (height_value ears));
                             ("geoloc", PStr (place_text geoloc))]]), w).
Proof.
  intros epoch ts t x y z ears geoloc w Hts Ht Hx Hy Hz Hloc Hgeo.
  unfold cartesian_to_geo, bind, try_except, lift.
  rewrite Hts. cbn. rewrite Ht. cbn.
  rewrite Hx, Hy, Hz. cbn. rewrite Hloc. cbn. rewrite Hgeo. reflexivity.
Qed.

(** C4, amended.  For an epoch whose timestamp and position are present,
    whose time and frame conversions succeed with the location [ears], and
    for which the geocoder answers (an address or nothing),
    [cartesian_to_geo] returns a list with exactly one dictionary, with the
    keys [lat], [lon] (the corrected longitude), [alt] and [geoloc];
    [geoloc] is the address, or ["Over Ocean or Unknown"] when the geocoder
    found nothing.  Nothing is logged. *)
Theorem cartesian_to_geo_returns_one_mapping :
  forall epoch ts t x y z ears geoloc w,
    getitem epoch "timestamp" = ret ts ->
    obstime ts = Return t ->
    getitem epoch "x" = ret x ->
    getitem epoch "y" = ret y ->
    getitem epoch "z" = ret z ->
    to_earth_location t x y z = Return ears ->
    geocoder_reverse (lat_deg ears) (corrected_longitude (lon_deg ears)) = Return geoloc ->
    exists place,
      cartesian_to_geo obstime to_earth_location geocoder_reverse epoch w
      = (Return (PList [PDict [("lat", PFloat (lat_deg ears));
                               ("lon", PFloat (corrected_longitude (lon_deg ears)));
                               ("alt", PFloat (height_value ears));
                               ("geoloc", PStr place)]]), w)
      /\ match geoloc with
         | Some address => place = address
         | None => place = "Over Ocean or Unknown"
         end.
Proof.
  intros epoch ts t x y z ears geoloc w Hts Ht Hx Hy Hz Hloc Hgeo.
  exists (place_text geoloc). split.
  - apply (cartesian_to_geo_success _ _ _ _ _ _ _ _ _ Hts Ht Hx Hy Hz Hloc Hgeo).
  - destruct geoloc; reflexivity.
Qed.

(** C6.  When the frame change raises anything but a [KeyError] or a
    [TypeError], the bare [except] logs and falls through with [ears]
    unbound, and the next statement, which reads [ears.lon.deg], raises
    [UnboundLocalError] out of the function. *)
Theorem cartesian_to_geo_unbound_after_transform_failure :
  forall epoch ts t x y z e w,
    getitem epoch "timestamp" = ret ts ->
    obstime ts = Return t ->
    getitem epoch "x" = ret x ->
    getitem epoch "y" = ret y ->
    getitem epoch "z" = ret z ->
    to_earth_location t x y z = Raise e ->
    is_KeyError_or_TypeError e = false ->
    cartesian_to_geo obstime to_earth_location geocoder_reverse epoch w
    = (Raise (UnboundLocalError "ears"),
       logged w "Error: Something went wrong with coordinate transformations").
Proof.
  intros epoch ts t x y z e w Hts Ht Hx Hy Hz Hloc He.
  unfold cartesian_to_geo, bind, try_except, lift.
  rewrite Hts. cbn. rewrite Ht. cbn.
  rewrite Hx, Hy, Hz. cbn. rewrite Hloc. cbn. rewrite He. reflexivity.
Qed.

End Geodetic.

(** The claim C4 as it is worded asks for a mapping with a field [place]:
    on the epoch of the test suite, with a geocoder that finds nothing, the
    result is not a dictionary (it is a list), and the dictionary inside it
    has no key [place]. *)
Lemma cartesian_to_geo_is_not_a_mapping_with_place :
  (forall kvs w,
     cartesian_to_geo (fun _ => Return 0%float)
                      (fun _ _ _ _ => Return (mkEarthLocation 10 20 400))
                      (fun _ _ => Return None) test_epoch quiet
     <> (Return (PDict kvs), w))
  /\ cartesian_to_geo (fun _ => Return 0%float)
                      (fun _ _ _ _ => Return (mkEarthLocation 10 20 400))
                      (fun _ _ => Return None) test_epoch quiet
     = (Return (PList [PDict [("lat", PFloat 10); ("lon", PFloat 95); ("alt", PFloat 400);
                              ("geoloc", PStr "Over Ocean or Unknown")]]), quiet).
Proof.
  split; [intros kvs w H; vm_compute in H; discriminate | vm_compute; reflexivity].
Qed.

Lemma cartesian_to_geo_returns_one_mapping_witness :
  exists place,
    cartesian_to_geo (fun _ => Return 0%float)
                     (fun _ _ _ _ => Return (mkEarthLocation 10 20 400))
                     (fun _ _ => Return None) test_epoch quiet
    = (Return (PList [PDict [("lat", PFloat 10);
                             ("lon", PFloat (corrected_longitude 20));
                             ("alt", PFloat 400);
                             ("geoloc", PStr place)]]), quiet)
    /\ place = "Over Ocean or Unknown".
Proof.
  apply (cartesian_to_geo_returns_one_mapping
           (fun _ => Return 0%float)
           (fun _ _ _ _ => Return (mkEarthLocation 10 20 400))
           (fun _ _ => Return None)
           test_epoch (PStr "2024-03-17 12:00:00.000000") 0%float
           (PInt 5000) (PInt 2000) (PInt 3000)
           (mkEarthLocation 10 20 400) None quiet);
    reflexivity.
Defined.

Lemma cartesian_to_geo_unbound_after_transform_failure_witness :
  cartesian_to_geo (fun _ => Return 0%float)
                   (fun _ _ _ _ => Raise (OtherError "UnitsError"))
                   (fun _ _ => Return None) test_epoch quiet
  = (Raise (UnboundLocalError "ears"),
     logged quiet "Error: Something went wrong with coordinate transformations").
Proof.
  apply (cartesian_to_geo_unbound_after_transform_failure
           (fun _ => Return 0%float)
           (fun _ _ _ _ => Raise (OtherError "UnitsError"))
           (fun _ _ => Return None)
           test_epoch (PStr "2024-03-17 12:00:00.000000") 0%float
           (PInt 5000) (PInt 2000) (PInt 3000) (OtherError "UnitsError") quiet);
    reflexivity.
Defined.




(* ================================================================== *)
(** * The fetcher, whatever the server answers *)
(* ================================================================== *)

(** X1.  When the GET returns a response, [fetch_data] ends in one of five
    ways.  A status other than 200 gives [None] and one line in the log.
    A 200 answer whose body parses is returned and nothing is logged.  A
    200 answer on which [xmltodict.parse] raises [ExpatError] gives [None]
    and one line in the log, and so does one on which it raises an
    exception of [requests].  Any other exception of [xmltodict.parse]
    (such as the [ValueError] for a declaration of an entity) leaves
    [fetch_data] uncaught, with nothing logged. *)
Theorem fetch_data_answers_every_response :
  forall (xmltodict_parse : string -> outcome raw) st body lg rest,
    let w := {| log := lg; upstream := HttpResponse st body :: rest |} in
    let w' := {| log := lg; upstream := rest |} in
    let r := repr_response (mkResponse st body) in
    (st <> 200 ->
     fetch_data xmltodict_parse w
     = (Return RNone, logged w' ("Error fetching data:  " ++ r)))
    /\ (forall doc,
          st = 200 -> xmltodict_parse body = Return doc ->
          fetch_data xmltodict_parse w = (Return doc, w'))
    /\ (forall msg,
          st = 200 -> xmltodict_parse body = Raise (ExpatError msg) ->
          fetch_data xmltodict_parse w
          = (Return RNone, logged w' ("Error parsing XML data: " ++ msg ++ " " ++ r)))
    /\ (forall e,
          st = 200 -> xmltodict_parse body = Raise e ->
          is_RequestException e = true ->
          fetch_data xmltodict_parse w
          = (Return RNone, logged w' ("Error fetching data: " ++ str_of_exn e ++ " " ++ r)))
    /\ (forall e,
          st = 200 -> xmltodict_parse body = Raise e ->
          is_RequestException e = false -> is_ExpatError e = false ->
          fetch_data xmltodict_parse w = (Raise e, w')).
Proof.
  intros parse st body lg rest. cbv zeta.
  unfold fetch_data, bind, attempt, requests_get, try_except, lift. simpl.
  repeat split.
  - intros Hst. destruct (Z.eqb_spec st 200) as [->|_]; [contradiction|]. reflexivity.
  - intros doc -> Hdoc. simpl. rewrite Hdoc. reflexivity.
  - intros msg -> Hmsg. simpl. rewrite Hmsg. reflexivity.
  - intros e -> He Hr. simpl. rewrite He, Hr. reflexivity.
  - intros e -> He Hr Hx. simpl. rewrite He, Hr, Hx. reflexivity.
Qed.

Lemma fetch_data_answers_every_response_witness :
  fetch_data (fun _ => Raise ValueError)
    {| log := []; upstream := [HttpResponse 200 "<!DOCTYPE d [<!ENTITY e 'x'>]><d/>"] |}
  = (Raise ValueError, {| log := []; upstream := [] |}).
Proof.
  destruct (fetch_data_answers_every_response (fun _ => Raise ValueError) 200
              "<!DOCTYPE d [<!ENTITY e 'x'>]><d/>" [] []) as (_ & _ & _ & _ & H).
  apply (H ValueError); reflexivity.
Defined.

(** X2.  Whatever the upstream server does, [fetch_data] uses up one
    answer and no more (there is no second GET), and writes at most one
    line to the log. *)
Theorem fetch_data_single_get :
  forall (xmltodict_parse : string -> outcome raw) w,
    upstream (snd (fetch_data xmltodict_parse w)) = tl (upstream w)
    /\ (log (snd (fetch_data xmltodict_parse w)) = log w
        \/ exists line, log (snd (fetch_data xmltodict_parse w)) = (log w ++ [line])%list).
Proof.
  intros parse [lg up].
  unfold fetch_data, bind, attempt, requests_get, try_except, lift. simpl.
  destruct up as [|[e|st body] rest]; simpl.
  - split; [reflexivity|left; reflexivity].
  - destruct (is_RequestException e); simpl; [split; [reflexivity|left; reflexivity]|].
    destruct (is_ExpatError e); simpl; split; try reflexivity; left; reflexivity.
  - destruct (st =? 200); simpl.
    + destruct (parse body) as [doc|e]; simpl; [split; [reflexivity|left; reflexivity]|].
      destruct (is_RequestException e); simpl; [split; [reflexivity|right; eauto]|].
      destruct (is_ExpatError e); simpl; split; try reflexivity; [right; eauto|left; reflexivity].
    + split; [reflexivity|right; eauto].
Qed.

(* ================================================================== *)
(** * The extractors, whatever the document *)
(* ================================================================== *)

(** A chain of subscripts ends in a value, a [KeyError] or a [TypeError],
    and touches nothing. *)
Lemma subscripts_outcomes keys : forall d w,
  (exists v, subscripts d keys w = (Return v, w))
  \/ subscripts d keys w = (Raise KeyError, w)
  \/ subscripts d keys w = (Raise TypeError, w).
Proof.
  induction keys as [|k ks IH]; intros d w; cbn [subscripts].
  - left. eexists. reflexivity.
  - unfold bind. destruct d as [|s|l|kvs]; cbn; auto.
    destruct (assoc k kvs) as [v|]; cbn; [apply IH|auto].
Qed.

Lemma extractor_outcomes keys (empty : raw) d w :
  (exists v, try_except (subscripts d keys) (missing_key empty) w = (Return v, w)
             /\ subscripts d keys w = (Return v, w))
  \/ (try_except (subscripts d keys) (missing_key empty) w
      = (Return empty, logged w "Error: Missing or incorrect key in data dictionary")
      /\ subscripts d keys w = (Raise KeyError, w))
  \/ (try_except (subscripts d keys) (missing_key empty) w = (Raise TypeError, w)
      /\ subscripts d keys w = (Raise TypeError, w)).
Proof.
  unfold try_except.
  destruct (subscripts_outcomes keys d w) as [[v H]|[H|H]]; rewrite H.
  - left. eauto.
  - right. left. split; reflexivity.
  - right. right. split; reflexivity.
Qed.

(** X3.  On every document each of [format_header], [format_comment] and
    [format_metadata] ends in one of three ways: it returns the value at
    its path and logs nothing; it returns its empty value and logs one
    line; or it raises [TypeError] and logs nothing.  No other exception
    leaves them. *)
Theorem extractors_never_raise_but_TypeError :
  forall data_dict w,
    ((exists v, format_header data_dict w = (Return v, w))
     \/ format_header data_dict w
        = (Return (RDict []), logged w "Error: Missing or incorrect key in data dictionary")
     \/ format_header data_dict w = (Raise TypeError, w))
    /\ ((exists v, format_comment data_dict w = (Return v, w))
        \/ format_comment data_dict w
           = (Return (RList []), logged w "Error: Missing or incorrect key in data dictionary")
        \/ format_comment data_dict w = (Raise TypeError, w))
    /\ ((exists v, format_metadata data_dict w = (Return v, w))
        \/ format_metadata data_dict w
           = (Return (RDict []), logged w "Error: Missing or incorrect key in data dictionary")
        \/ format_metadata data_dict w = (Raise TypeError, w)).
Proof.
  intros d w. unfold format_header, format_comment, format_metadata.
  repeat split;
    match goal with
    | |- context [try_except (subscripts d ?keys) (missing_key ?empty) w] =>
        destruct (extractor_outcomes keys empty d w) as [[v [H _]]|[[H _]|[H _]]];
          rewrite H; eauto
    end.
Qed.

(* ================================================================== *)
(** * The normaliser, whatever the document *)
(* ================================================================== *)

(** [format_data] once its path has been followed. *)
Lemma format_data_after_path libc d w o :
  subscripts d state_vector_path w = (o, w) ->
  format_data libc d w
  = match o with
    | Return data_list =>
        (items <- raw_iter data_list ;;
         formatted_data <- format_data_loop libc items [] ;;
         ret (PList formatted_data)) w
    | Raise e =>
        if is_KeyError e
        then (Return (PList []), logged w "Error: Missing or incorrect key in data dictionary")
        else (Raise e, w)
    end.
Proof.
  intros H. unfold format_data. unfold bind at 1. unfold try_except. unfold bind at 1.
  rewrite H. destruct o as [v|e]; [reflexivity|].
  unfold missing_key. destruct (is_KeyError e); reflexivity.
Qed.

(** X4.  On every document [format_data] either returns a list that holds
    the records of the well-formed entries of some list of entries,
    leaving the upstream untouched, or raises [TypeError] with nothing
    logged.  No other exception leaves it, and it returns nothing but a
    list. *)
Theorem format_data_returns_records_or_raises_TypeError :
  forall libc data_dict w,
    (exists entries w',
       format_data libc data_dict w = (Return (PList (normalized_list libc entries)), w')
       /\ upstream w' = upstream w)
    \/ format_data libc data_dict w = (Raise TypeError, w).
Proof.
  intros libc d w.
  assert (Hloop : forall items,
            exists w', (items <- ret items ;;
                        formatted_data <- format_data_loop libc items [] ;;
                        ret (PList formatted_data)) w
                       = (Return (PList (normalized_list libc items)), w')
                       /\ upstream w' = upstream w).
  { intros items. destruct (format_data_loop_spec libc items [] w) as (w' & Hl & Hu).
    exists w'. split; [|exact Hu].
    unfold bind at 1. cbn [ret]. unfold bind. rewrite Hl. reflexivity. }
  destruct (subscripts_outcomes state_vector_path d w) as [[v H]|[H|H]];
    rewrite (format_data_after_path libc d w _ H).
  - destruct v as [|s|l|kvs]; cbn [raw_iter].
    + right. reflexivity.
    + left. destruct (Hloop (map RStr (chars s))) as (w' & Hw). eauto.
    + left. destruct (Hloop l) as (w' & Hw). eauto.
    + left. destruct (Hloop (map (fun kv => RStr (fst kv)) kvs)) as (w' & Hw). eauto.
  - left. exists [], (logged w "Error: Missing or incorrect key in data dictionary").
    split; reflexivity.
  - right. reflexivity.
Qed.

(** ** The log of the loop *)

Lemma logged_lines lg up lines line :
  logged {| log := (lg ++ lines)%list; upstream := up |} line
  = {| log := (lg ++ (lines ++ [line]))%list; upstream := up |}.
Proof. unfold logged. cbn. rewrite app_assoc. reflexivity. Qed.

Lemma format_data_loop_log libc entries : forall acc lg up lines0,
  exists lines,
    format_data_loop libc entries acc {| log := (lg ++ lines0)%list; upstream := up |}
    = (Return (acc ++ normalized_list libc entries)%list,
       {| log := (lg ++ lines0 ++ lines)%list; upstream := up |})
    /\ (List.length lines + List.length (normalized_list libc entries)
        = List.length entries)%nat
    /\ Forall dropped_entry_line lines.
Proof.
  induction entries as [|sv rest IH]; intros acc lg up lines0;
    cbn [format_data_loop normalized_list].
  - exists []. rewrite !app_nil_r. repeat split. constructor.
  - set (w := {| log := (lg ++ lines0)%list; upstream := up |}).
    pose proof (formatted_entry_spec libc sv w) as Hsv.
    unfold bind at 1. unfold try_except. unfold bind at 1.
    destruct (normalized libc sv) as [r|].
    + rewrite Hsv. cbn [ret]. subst w.
      destruct (IH (acc ++ [r])%list lg up lines0) as (lines & Hl & Hn & Hf).
      exists lines. rewrite Hl, <- app_assoc. cbn [List.length app].
      repeat split; [lia|exact Hf].
    + destruct Hsv as (e & -> & Hc). unfold caught_in_loop in Hc.
      destruct (is_KeyError e) eqn:Hk.
      * unfold bind at 1. unfold logging_error at 1. cbn [ret]. subst w.
        rewrite logged_lines.
        destruct (IH acc lg up (lines0 ++ ["Error: Missing or incorrect key in state vector"])%list)
          as (lines & Hl & Hn & Hf).
        exists ("Error: Missing or incorrect key in state vector" :: lines).
        rewrite Hl, <- app_assoc. cbn [List.length app].
        repeat split; [lia|]. constructor; [left; reflexivity|exact Hf].
      * cbn [orb] in Hc. rewrite Hc.
        unfold bind at 1. unfold logging_error at 1. cbn [ret]. subst w.
        rewrite logged_lines.
        destruct (IH acc lg up (lines0 ++ ["Error: Unable to parse data to the correct format"])%list)
          as (lines & Hl & Hn & Hf).
        exists ("Error: Unable to parse data to the correct format" :: lines).
        rewrite Hl, <- app_assoc. cbn [List.length app].
        repeat split; [lia|]. constructor; [right; reflexivity|exact Hf].
Qed.

(** X5.  When the path leads to a list of entries, [format_data] writes
    exactly one line to the log for every entry it drops, and none for an
    entry it keeps: the records and the new lines together are as many as
    the entries, and every new line is one of the two messages of the
    loop. *)
Theorem format_data_logs_every_dropped_entry :
  forall libc data_dict entries w,
    subscripts data_dict state_vector_path w = (Return (RList entries), w) ->
    exists lines,
      format_data libc data_dict w
      = (Return (PList (normalized_list libc entries)),
         {| log := (log w ++ lines)%list; upstream := upstream w |})
      /\ (List.length lines + List.length (normalized_list libc entries)
          = List.length entries)%nat
      /\ Forall dropped_entry_line lines.
Proof.
  intros libc d entries [lg up] Hpath.
  destruct (format_data_loop_log libc entries [] lg up []) as (lines & Hl & Hn & Hf).
  rewrite app_nil_r in Hl. cbn [app] in Hl.
  exists lines. split; [|split; assumption].
  rewrite (format_data_after_path libc d _ _ Hpath). cbn [raw_iter log upstream].
  unfold bind at 1. cbn [ret]. unfold bind. rewrite Hl. reflexivity.
Qed.

Lemma format_data_logs_every_dropped_entry_witness :
  exists lines,
    format_data Datetime.Plain test_data_dict_with_gaps quiet
    = (Return (PList (normalized_list Datetime.Plain state_vectors_with_gaps)),
       {| log := (log quiet ++ lines)%list; upstream := upstream quiet |})
    /\ (List.length lines
        + List.length (normalized_list Datetime.Plain state_vectors_with_gaps)
        = List.length state_vectors_with_gaps)%nat
    /\ Forall dropped_entry_line lines.
Proof.
  apply (format_data_logs_every_dropped_entry Datetime.Plain test_data_dict_with_gaps
           state_vectors_with_gaps quiet).
  reflexivity.
Defined.

(** ** A single state vector *)

Lemma format_data_loop_texts libc keys : forall acc lg up,
  format_data_loop libc (map RStr keys) acc {| log := lg; upstream := up |}
  = (Return acc,
     {| log := (lg ++ repeat "Error: Unable to parse data to the correct format"
                             (List.length keys))%list;
        upstream := up |}).
Proof.
  induction keys as [|k keys IH]; intros acc lg up; cbn [map format_data_loop].
  - cbn. rewrite app_nil_r. reflexivity.
  - unfold bind at 1. unfold try_except. unfold bind at 1.
    unfold formatted_entry at 1. unfold bind at 1. cbn [raw_getitem raise].
    cbn [is_KeyError is_ValueError_or_TypeError].
    unfold bind at 1. unfold logging_error at 1. cbn [ret]. unfold logged. cbn [log upstream].
    rewrite IH. cbn [List.length repeat]. rewrite <- app_assoc. reflexivity.
Qed.

(** X6.  When the value under ['stateVector'] is a dictionary (one state
    vector, not a list of them), the loop of [format_data] runs over its
    keys: each key is a text, subscripting it raises [TypeError], and the
    result is the empty list, with one line in the log for every key. *)
Theorem format_data_single_state_vector :
  forall libc data_dict fields w,
    subscripts data_dict state_vector_path w = (Return (RDict fields), w) ->
    format_data libc data_dict w
    = (Return (PList []),
       {| log := (log w ++ repeat "Error: Unable to parse data to the correct format"
                                  (List.length fields))%list;
          upstream := upstream w |}).
Proof.
  intros libc d fields [lg up] Hpath.
  rewrite (format_data_after_path libc d _ _ Hpath). cbn [raw_iter log upstream].
  unfold bind at 1. cbn [ret]. unfold bind.
  rewrite <- (map_map fst RStr), format_data_loop_texts, length_map. reflexivity.
Qed.

Lemma format_data_single_state_vector_witness :
  format_data Datetime.Plain data_dict_single quiet
  = (Return (PList []),
     {| log := (log quiet ++ repeat "Error: Unable to parse data to the correct format" 7)%list;
        upstream := upstream quiet |}).
Proof.
  apply (format_data_single_state_vector Datetime.Plain data_dict_single
           [("EPOCH", RStr "2024-077T12:00:00.000Z"); ("X", attributed "1");
            ("Y", attributed "2"); ("Z", attributed "3"); ("X_DOT", attributed "4");
            ("Y_DOT", attributed "5"); ("Z_DOT", attributed "6")] quiet).
  reflexivity.
Defined.

(* ================================================================== *)
(** * Reading the timestamps back *)
(* ================================================================== *)

(** ** Digits *)

Lemma digit_value_digit_char d : 0 <= d <= 9 -> Str.digit_value (Str.digit_char d) = d.
Proof.
  intros H.
  assert (d = 0 \/ d = 1 \/ d = 2 \/ d = 3 \/ d = 4 \/ d = 5 \/ d = 6 \/ d = 7 \/ d = 8 \/ d = 9)
    as Hd by lia.
  repeat (destruct Hd as [->|Hd]; [reflexivity|]). subst d. reflexivity.
Qed.

Lemma is_digit_bounds c : Str.is_digit c = true -> 0 <= Str.digit_value c <= 9.
Proof.
  unfold Str.is_digit, Str.digit_value. intros H.
  apply andb_prop in H as [H1 H2].
  apply Nat.leb_le in H1, H2. lia.
Qed.

Lemma int_of_digits_from_app s : forall acc t,
  Str.int_of_digits_from acc (s ++ t)
  = Str.int_of_digits_from (Str.int_of_digits_from acc s) t.
Proof.
  induction s as [|c s IH]; intros acc t; cbn; [reflexivity|apply IH].
Qed.

Lemma length_app s t : String.length (s ++ t) = (String.length s + String.length t)%nat.
Proof. induction s as [|c s IH]; cbn; [reflexivity|]. rewrite IH. reflexivity. Qed.

Lemma length_zero_padded w : forall n, String.length (Str.zero_padded w n) = w.
Proof.
  induction w as [|w IH]; intros n; cbn [Str.zero_padded]; [reflexivity|].
  rewrite length_app, IH. cbn. lia.
Qed.

Lemma all_digits_app s t :
  Str.all_digits (s ++ t) = Str.all_digits s && Str.all_digits t.
Proof.
  induction s as [|c s IH]; cbn; [reflexivity|]. rewrite IH, andb_assoc. reflexivity.
Qed.

Lemma all_digits_zero_padded w : forall n, Str.all_digits (Str.zero_padded w n) = true.
Proof.
  induction w as [|w IH]; intros n; cbn [Str.zero_padded]; [reflexivity|].
  rewrite all_digits_app, IH. cbn. rewrite digit_char_is_digit. reflexivity.
Qed.

Lemma int_of_digits_from_zero_padded w : forall n acc,
  0 <= n ->
  Str.int_of_digits_from acc (Str.zero_padded w n) = acc * 10 ^ Z.of_nat w + n mod 10 ^ Z.of_nat w.
Proof.
  induction w as [|w IH]; intros n acc Hn.
  - cbn. rewrite Z.mod_1_r. lia.
  - cbn [Str.zero_padded]. rewrite int_of_digits_from_app, IH by (apply Z.div_pos; lia).
    cbn [Str.int_of_digits_from].
    rewrite digit_value_digit_char by (pose proof (Z.mod_pos_bound n 10); lia).
    rewrite Nat2Z.inj_succ, Z.pow_succ_r by lia.
    set (p := 10 ^ Z.of_nat w).
    assert (Hp : 0 < p) by (apply Z.pow_pos_nonneg; lia).
    rewrite (Z.rem_mul_r n 10 p) by lia. ring.
Qed.

Lemma int_of_digits_zero_padded w n :
  0 <= n < 10 ^ Z.of_nat w -> Str.int_of_digits (Str.zero_padded w n) = n.
Proof.
  intros H. unfold Str.int_of_digits.
  rewrite int_of_digits_from_zero_padded by lia. rewrite Z.mod_small by lia. lia.
Qed.

(** A run of digits that ends the text, or is followed by something that
    is no digit, is the run [span_digits] finds. *)
Lemma span_digits_app ds rest :
  Str.all_digits ds = true -> no_digit_ahead rest = true ->
  Str.span_digits (ds ++ rest) = (ds, rest).
Proof.
  induction ds as [|c ds IH]; cbn; intros Hds Hrest.
  - destruct rest as [|c rest]; [reflexivity|]. cbn in *.
    apply negb_true_iff in Hrest. rewrite Hrest. reflexivity.
  - apply andb_prop in Hds as [Hc Hds]. rewrite Hc, (IH Hds Hrest). reflexivity.
Qed.

Lemma directive_zero_padded lo hi ok w n rest :
  (lo <= w <= hi)%nat -> 0 <= n < 10 ^ Z.of_nat w -> ok n = true ->
  no_digit_ahead rest = true ->
  Datetime.directive lo hi ok (Str.zero_padded w n ++ rest)
  = Some (Str.zero_padded w n, rest).
Proof.
  intros Hw Hn Hok Hrest. unfold Datetime.directive.
  rewrite (span_digits_app _ _ (all_digits_zero_padded w n) Hrest).
  rewrite length_zero_padded, int_of_digits_zero_padded, Hok by exact Hn.
  destruct (Nat.leb_spec lo w); [|lia]. destruct (Nat.leb_spec w hi); [|lia]. reflexivity.
Qed.

Lemma span_digits_spec s :
  Str.all_digits (fst (Str.span_digits s)) = true
  /\ s = fst (Str.span_digits s) ++ snd (Str.span_digits s).
Proof.
  induction s as [|c s [IH1 IH2]]; cbn; [split; reflexivity|].
  destruct (Str.is_digit c) eqn:Hc; [|split; reflexivity].
  destruct (Str.span_digits s) as [ds tl]. cbn in *. rewrite Hc, IH1. split; [reflexivity|].
  f_equal. exact IH2.
Qed.

Lemma int_of_digits_from_bounds ds : forall acc,
  Str.all_digits ds = true -> 0 <= acc ->
  acc * 10 ^ Z.of_nat (String.length ds) <= Str.int_of_digits_from acc ds
  < (acc + 1) * 10 ^ Z.of_nat (String.length ds).
Proof.
  induction ds as [|c ds IH]; intros acc Hds Hacc.
  - cbn. lia.
  - cbn in Hds. apply andb_prop in Hds as [Hc Hds].
    pose proof (is_digit_bounds c Hc) as Hb.
    cbn [Str.int_of_digits_from String.length].
    specialize (IH (10 * acc + Str.digit_value c) Hds ltac:(lia)).
    rewrite Nat2Z.inj_succ, Z.pow_succ_r by lia.
    set (p := 10 ^ Z.of_nat (String.length ds)) in *.
    assert (Hp : 0 < p) by (apply Z.pow_pos_nonneg; lia).
    nia.
Qed.

Lemma int_of_digits_bounds ds :
  Str.all_digits ds = true ->
  0 <= Str.int_of_digits ds < 10 ^ Z.of_nat (String.length ds).
Proof.
  intros H. pose proof (int_of_digits_from_bounds ds 0 H ltac:(lia)).
  unfold Str.int_of_digits. lia.
Qed.

(** What a directive hands on is a run of digits of the asked length whose
    value passed the test. *)
Lemma directive_spec lo hi ok s ds tl :
  Datetime.directive lo hi ok s = Some (ds, tl) ->
  Str.all_digits ds = true /\ (lo <= String.length ds <= hi)%nat
  /\ ok (Str.int_of_digits ds) = true /\ s = ds ++ tl.
Proof.
  unfold Datetime.directive. pose proof (span_digits_spec s) as [H1 H2].
  destruct (Str.span_digits s) as [ds' tl']. cbn in *.
  destruct (Nat.leb_spec lo (String.length ds')); cbn; [|discriminate].
  destruct (Nat.leb_spec (String.length ds') hi); cbn; [|discriminate].
  destruct (ok (Str.int_of_digits ds')) eqn:Hok; [|discriminate].
  intros [= <- <-]. repeat split; try assumption.
Qed.

(** ** The calendar *)

Lemma days_before_next_year y :
  Datetime.days_before_year (y + 1) = Datetime.days_before_year y + Datetime.days_in_year y.
Proof.
  unfold Datetime.days_before_year, Datetime.days_in_year, Datetime.is_leap.
  replace (y + 1 - 1) with y by lia.
  destruct (Z.eqb_spec (y mod 4) 0) as [H4|H4];
    destruct (Z.eqb_spec (y mod 100) 0) as [H100|H100];
    destruct (Z.eqb_spec (y mod 400) 0) as [H400|H400]; cbn [andb orb negb];
    Z.div_mod_to_equations; lia.
Qed.

(** Counting [n] days from the first of January lands on a day the month
    has, and [n] is the number of days up to it. *)
Lemma month_and_day_spec y n m d :
  1 <= n <= Datetime.days_in_year y ->
  Datetime.month_and_day (Datetime.month_lengths y) 1 n = (m, d) ->
  1 <= m <= 12 /\ 1 <= d <= Datetime.days_in_month y m
  /\ Datetime.days_before_month y m + d = n.
Proof.
  unfold Datetime.days_in_year, Datetime.days_in_month, Datetime.month_lengths,
    Datetime.days_before_month.
  intros Hn. cbn [Datetime.month_and_day].
  destruct (Datetime.is_leap y); cbv iota in Hn;
    repeat match goal with
           | |- context [if ?a <=? ?b then _ else _] => destruct (Z.leb_spec a b)
           end;
    intros [= <- <-];
    repeat match goal with
           | |- context [Z.to_nat ?e] =>
               let v := eval vm_compute in (Z.to_nat e) in change (Z.to_nat e) with v
           end;
    cbn [nth];
    repeat match goal with
           | |- context [if ?b then _ else _] =>
               let v := eval vm_compute in b in change b with v; cbv iota
           end;
    lia.
Qed.

(** Day [j] of the year [y] is the date [j - 1] days after the first of
    January of [y]. *)
Lemma date_of_year_day_spec y j y' m d :
  1 <= j <= 366 ->
  Datetime.date_of_year_day y j = Some (y', m, d) ->
  valid_date y' m d
  /\ Datetime.days_before_year y' + Datetime.days_before_month y' m + d
     = Datetime.days_before_year y + j.
Proof.
  intros Hj. unfold Datetime.date_of_year_day, valid_date.
  destruct (Z.ltb_spec y 1); [discriminate|].
  destruct (Z.ltb_spec 9999 y); [discriminate|]. cbn [orb].
  destruct (Z.leb_spec j (Datetime.days_in_year y)) as [Hle|Hgt].
  - destruct (Datetime.month_and_day _ 1 j) as [m0 d0] eqn:Hmd.
    intros [= <- <- <-].
    destruct (month_and_day_spec y j m0 d0 ltac:(lia) Hmd) as (Hm & Hd & Hs). lia.
  - destruct (Z.ltb_spec 9999 (y + 1)); [discriminate|].
    destruct (Datetime.month_and_day _ 1 _) as [m0 d0] eqn:Hmd.
    intros [= <- <- <-].
    assert (Hdy : 365 <= Datetime.days_in_year y <= 366)
      by (unfold Datetime.days_in_year; destruct (Datetime.is_leap y); lia).
    assert (Hdy' : 365 <= Datetime.days_in_year (y + 1) <= 366)
      by (unfold Datetime.days_in_year; destruct (Datetime.is_leap (y + 1)); lia).
    destruct (month_and_day_spec (y + 1) (j - Datetime.days_in_year y) m0 d0 ltac:(lia) Hmd) as (Hm & Hd & Hs).
    rewrite days_before_next_year. lia.
Qed.

Lemma fraction_value_bounds f :
  Str.all_digits f = true -> (1 <= String.length f <= 6)%nat ->
  0 <= Datetime.fraction_value f <= 999999.
Proof.
  intros Hf Hlen. unfold Datetime.fraction_value.
  pose proof (int_of_digits_bounds f Hf) as Hb.
  assert (Hl : (String.length f = 1 \/ String.length f = 2 \/ String.length f = 3
               \/ String.length f = 4 \/ String.length f = 5 \/ String.length f = 6)%nat) by lia.
  destruct Hl as [Hl|[Hl|[Hl|[Hl|[Hl|Hl]]]]]; rewrite Hl in *; cbn in *; lia.
Qed.

Ltac invert_parse H :=
  repeat match type of H with
         | match ?x with _ => _ end = _ =>
             let E := fresh "E" in destruct x eqn:E; try discriminate H
         | (if ?b then _ else _) = _ =>
             let E := fresh "E" in destruct b eqn:E; try discriminate H
         end.

(** An [EPOCH] that parses is a date and a time of day that exist. *)
Lemma strptime_epoch_valid s t :
  Datetime.strptime_epoch s = Some t -> valid t = true.
Proof.
  intros H. unfold Datetime.strptime_epoch in H. invert_parse H.
  injection H as <-.
  repeat match goal with
         | E : Datetime.directive _ _ _ _ = Some _ |- _ =>
             apply directive_spec in E; destruct E as (? & ? & ? & ?)
         end.
  repeat match goal with
         | E : (_ && _) = true |- _ => apply andb_prop in E; destruct E
         | E : (_ <=? _) = true |- _ => apply Z.leb_le in E
         | E : (_ <? _) = false |- _ => apply Z.ltb_ge in E
         end.
  match goal with
  | E : Datetime.date_of_year_day _ _ = Some _ |- _ =>
      apply date_of_year_day_spec in E; [destruct E as ((? & ? & ?) & _)|lia]
  end.
  repeat match goal with
         | E : Str.all_digits ?ds = true |- _ =>
             lazymatch goal with
             | _ : 0 <= Str.int_of_digits ds < _ |- _ => fail
             | _ => pose proof (int_of_digits_bounds ds E)
             end
         end.
  match goal with
  | |- context [Datetime.fraction_value ?f] =>
      assert (0 <= Datetime.fraction_value f <= 999999)
        by (apply fraction_value_bounds; assumption)
  end.
  unfold valid. cbn [Datetime.year Datetime.month Datetime.day Datetime.hour
                     Datetime.minute Datetime.second Datetime.microsecond].
  repeat (apply andb_true_intro; split); apply Z.leb_le; lia.
Qed.

Lemma parsed_epoch_valid sv t : parsed_epoch sv = Some t -> valid t = true.
Proof.
  unfold parsed_epoch. destruct sv as [| | |kvs]; try discriminate.
  destruct (assoc "EPOCH" kvs) as [[|s| |]|]; try discriminate.
  apply strptime_epoch_valid.
Qed.

(** ** [strptime] after [strftime] *)

Lemma append_empty_r s : s ++ "" = s.
Proof. induction s as [|c s IH]; cbn; [reflexivity|]. rewrite IH. reflexivity. Qed.

Lemma literal_same c rest : Datetime.literal c (String c rest) = Some rest.
Proof.
  unfold Datetime.literal, Str.eqb_nocase. rewrite Ascii.eqb_refl. reflexivity.
Qed.

Lemma digit_is_no_whitespace c : Str.is_digit c = true -> Datetime.is_whitespace c = false.
Proof.
  unfold Str.is_digit, Datetime.is_whitespace. intros H.
  apply andb_prop in H as [H1 H2]. apply Nat.leb_le in H1, H2.
  apply orb_false_iff. split; apply andb_false_iff.
  - right. apply Nat.leb_gt. lia.
  - right. apply Nat.leb_gt. lia.
Qed.

Lemma day_directive_digit c rest :
  Str.is_digit c = true ->
  Datetime.day_directive (String c rest)
  = Datetime.directive 1 2 (fun n => (1 <=? n) && (n <=? 31)) (String c rest).
Proof.
  intros H. unfold Datetime.day_directive.
  destruct c as [[|] [|] [|] [|] [|] [|] [|] [|]]; try reflexivity; discriminate H.
Qed.

Lemma days_in_month_bounds y m :
  1 <= m <= 12 -> 28 <= Datetime.days_in_month y m <= 31.
Proof.
  intros Hm. unfold Datetime.days_in_month, Datetime.month_lengths.
  assert (Hc : m = 1 \/ m = 2 \/ m = 3 \/ m = 4 \/ m = 5 \/ m = 6 \/ m = 7 \/ m = 8
               \/ m = 9 \/ m = 10 \/ m = 11 \/ m = 12) by lia.
  destruct (Datetime.is_leap y);
    repeat (destruct Hc as [Hc|Hc]); subst m; vm_compute; split; discriminate.
Qed.

Ltac valid_bounds Hv :=
  unfold valid in Hv;
  cbn [Datetime.year Datetime.month Datetime.day Datetime.hour Datetime.minute
       Datetime.second Datetime.microsecond] in Hv;
  repeat (let H := fresh "Hv" in apply andb_prop in Hv; destruct Hv as [Hv H]);
  repeat match goal with E : (_ <=? _) = true |- _ => apply Z.leb_le in E end.

(** The text [strftime] writes with a zero-filled year is read back by
    [strptime] as the same date and time. *)
Lemma strptime_strftime_zero_filled t :
  valid t = true ->
  Datetime.strptime_timestamp (Datetime.strftime_canonical Datetime.ZeroFilled t) = Some t.
Proof.
  destruct t as [y m d H Mi S us]. intros Hv. valid_bounds Hv.
  pose proof (days_in_month_bounds y m ltac:(lia)) as Hdim.
  unfold Datetime.strptime_timestamp, Datetime.strftime_canonical, Datetime.year_text.
  cbn [Datetime.year Datetime.month Datetime.day Datetime.hour Datetime.minute
       Datetime.second Datetime.microsecond].
  rewrite (directive_zero_padded 4 4 _ 4 y) by (cbn; first [lia | reflexivity]).
  cbn [append]. rewrite literal_same.
  rewrite (directive_zero_padded 1 2 _ 2 m)
    by first [lia | cbn; lia | reflexivity
              | apply andb_true_intro; split; apply Z.leb_le; lia].
  rewrite literal_same.
  replace (Datetime.day_directive (Str.zero_padded 2 d ++ String " " _))
    with (Datetime.directive 1 2 (fun n => (1 <=? n) && (n <=? 31))
            (Str.zero_padded 2 d ++
             String " " (Str.zero_padded 2 H ++ String ":" (Str.zero_padded 2 Mi ++
               String ":" (Str.zero_padded 2 S ++ String "." (Str.zero_padded 6 us))))))
    by (cbn [Str.zero_padded append]; symmetry; apply day_directive_digit,
          digit_char_is_digit).
  rewrite (directive_zero_padded 1 2 _ 2 d)
    by first [lia | cbn; lia | reflexivity
              | apply andb_true_intro; split; apply Z.leb_le; lia].
  replace (Datetime.whitespace (String " " (Str.zero_padded 2 H ++ _)))
    with (Some (Str.zero_padded 2 H ++ String ":" (Str.zero_padded 2 Mi ++
               String ":" (Str.zero_padded 2 S ++ String "." (Str.zero_padded 6 us)))))
    by (cbn [Datetime.whitespace Str.zero_padded append Datetime.skip_whitespace];
        change (Datetime.is_whitespace " ") with true; cbv iota;
        rewrite (digit_is_no_whitespace _ (digit_char_is_digit _)); reflexivity).
  rewrite (directive_zero_padded 1 2 _ 2 H)
    by first [lia | cbn; lia | reflexivity | apply Z.leb_le; lia].
  rewrite literal_same.
  rewrite (directive_zero_padded 1 2 _ 2 Mi)
    by first [lia | cbn; lia | reflexivity | apply Z.leb_le; lia].
  rewrite literal_same.
  rewrite (directive_zero_padded 1 2 _ 2 S)
    by first [lia | cbn; lia | reflexivity | apply Z.leb_le; lia].
  rewrite literal_same.
  rewrite <- (append_empty_r (Str.zero_padded 6 us)).
  rewrite (directive_zero_padded 1 6 _ 6 us)
    by first [lia | cbn; lia | reflexivity].
  unfold Datetime.fraction_value.
  rewrite length_zero_padded.
  rewrite !int_of_digits_zero_padded by (cbn; lia).
  destruct (Z.ltb_spec y 1); [lia|].
  destruct (Z.ltb_spec (Datetime.days_in_month y m) d); [lia|].
  destruct (Z.ltb_spec 59 S); [lia|].
  cbn [orb]. f_equal. f_equal. cbn. lia.
Qed.

Lemma strftime_plain_from_1000 t :
  1000 <= Datetime.year t ->
  Datetime.strftime_canonical Datetime.Plain t
  = Datetime.strftime_canonical Datetime.ZeroFilled t.
Proof.
  intros Hy. unfold Datetime.strftime_canonical. rewrite (year_text_plain _ Hy). reflexivity.
Qed.

Lemma strptime_strftime libc t :
  valid t = true -> libc = Datetime.ZeroFilled \/ 1000 <= Datetime.year t ->
  Datetime.strptime_timestamp (Datetime.strftime_canonical libc t) = Some t.
Proof.
  intros Hv [->|Hy]; [apply strptime_strftime_zero_filled, Hv|].
  destruct libc; [rewrite strftime_plain_from_1000 by exact Hy|];
    apply strptime_strftime_zero_filled, Hv.
Qed.

(** The plain year of a year below 1000 has fewer than four digits, and
    [%Y] does not read it. *)
Lemma strptime_strftime_plain_below_1000 t :
  0 <= Datetime.year t < 1000 ->
  Datetime.strptime_timestamp (Datetime.strftime_canonical Datetime.Plain t) = None.
Proof.
  destruct t as [y m d H Mi S us]. cbn [Datetime.year]. intros Hy.
  unfold Datetime.strptime_timestamp, Datetime.strftime_canonical, Datetime.year_text.
  cbn [Datetime.year Datetime.decimal_from].
  assert (H3 : y / 10 / 10 / 10 = 0)
    by (rewrite !Z.div_div by lia; apply Z.div_small; lia).
  set (rest := "-" ++ _).
  assert (Hrest : no_digit_ahead rest = true) by reflexivity.
  clearbody rest.
  destruct (y / 10 =? 0);
    [|destruct (y / 10 / 10 =? 0); [|rewrite H3; cbn [Z.eqb]]];
    match goal with
    | |- context [Datetime.directive 4 4 _ (?ds ++ rest)] =>
        unfold Datetime.directive;
        rewrite (span_digits_app ds rest)
          by (first [exact Hrest | cbn; rewrite ?digit_char_is_digit; reflexivity]);
        reflexivity
    end.
Qed.

(** ** The records of [format_data] *)

Lemma normalized_list_epochs libc entries r :
  In r (normalized_list libc entries) ->
  exists sv t x y z dx dy dz,
    In sv entries /\ parsed_epoch sv = Some t
    /\ r = record (Datetime.strftime_canonical libc t) x y z dx dy dz.
Proof.
  induction entries as [|sv rest IH]; cbn [normalized_list]; [intros []|].
  destruct (normalized libc sv) as [r0|] eqn:Hn.
  - intros [<-|Hin].
    + unfold normalized in Hn.
      destruct (parsed_epoch sv) as [t|] eqn:Ht; [|discriminate].
      destruct (parsed_field sv "X") as [x|]; [|discriminate].
      destruct (parsed_field sv "Y") as [y|]; [|discriminate].
      destruct (parsed_field sv "Z") as [z|]; [|discriminate].
      destruct (parsed_field sv "X_DOT") as [dx|]; [|discriminate].
      destruct (parsed_field sv "Y_DOT") as [dy|]; [|discriminate].
      destruct (parsed_field sv "Z_DOT") as [dz|]; [|discriminate].
      injection Hn as <-. exists sv, t, x, y, z, dx, dy, dz.
      split; [left; reflexivity|]. split; [exact Ht|reflexivity].
    + destruct (IH Hin) as (sv' & t & x & y & z & dx & dy & dz & Hsv & H).
      exists sv', t, x, y, z, dx, dy, dz. split; [right; exact Hsv|exact H].
  - intros Hin. destruct (IH Hin) as (sv' & t & x & y & z & dx & dy & dz & Hsv & H).
    exists sv', t, x, y, z, dx, dy, dz. split; [right; exact Hsv|exact H].
Qed.

Lemma normalized_in_list libc entries sv r :
  In sv entries -> normalized libc sv = Some r -> In r (normalized_list libc entries).
Proof.
  induction entries as [|sv0 rest IH]; [intros []|]. cbn [normalized_list].
  intros [->|Hin] Hn.
  - rewrite Hn. left. reflexivity.
  - destruct (normalized libc sv0); [right|]; apply IH; assumption.
Qed.

(** X7.  Every record [format_data] returns carries as its timestamp the
    text [strftime] writes for a date and time of day [t] that exist.
    [strptime] with the format of [find_closest_epoch] and
    [cartesian_to_geo] reads that text back as [t] when the year is at
    least 1000 or the C library zero-fills [%Y]; it refuses it when the C
    library writes the plain year and the year is below 1000. *)
Theorem format_data_timestamps_read_back :
  forall libc data_dict w formatted_data w' r,
    format_data libc data_dict w = (Return (PList formatted_data), w') ->
    In r formatted_data ->
    exists t,
      timestamp_of r = PStr (Datetime.strftime_canonical libc t)
      /\ valid t = true
      /\ (libc = Datetime.ZeroFilled \/ 1000 <= Datetime.year t -> epoch_time r = Some t)
      /\ (libc = Datetime.Plain -> Datetime.year t < 1000 -> epoch_time r = None).
Proof.
  intros libc d w fd w' r Hformat Hin.
  destruct (format_data_returns_records _ _ _ _ _ Hformat) as (entries & [= ->]).
  destruct (normalized_list_epochs libc entries r Hin)
    as (sv & t & x & y & z & dx & dy & dz & _ & Ht & ->).
  pose proof (parsed_epoch_valid sv t Ht) as Hvalid.
  exists t. split; [reflexivity|]. split; [exact Hvalid|]. split.
  - intros Hyear. cbn. apply (strptime_strftime libc t Hvalid Hyear).
  - intros -> Hy. cbn. apply strptime_strftime_plain_below_1000.
    valid_bounds Hvalid. lia.
Qed.

Lemma format_data_timestamps_read_back_witness :
  exists t,
    timestamp_of (record "1000-01-02 00:00:00.000000" (-7) 8 (-9) 10 (-11) 12)
    = PStr (Datetime.strftime_canonical Datetime.Plain t)
    /\ valid t = true
    /\ (Datetime.Plain = Datetime.ZeroFilled \/ 1000 <= Datetime.year t ->
        epoch_time (record "1000-01-02 00:00:00.000000" (-7) 8 (-9) 10 (-11) 12) = Some t)
    /\ (Datetime.Plain = Datetime.Plain -> Datetime.year t < 1000 ->
        epoch_time (record "1000-01-02 00:00:00.000000" (-7) 8 (-9) 10 (-11) 12) = None).
Proof.
  apply (format_data_timestamps_read_back Datetime.Plain test_data_dict quiet
           test_formatted_data quiet).
  - vm_compute. reflexivity.
  - cbn. tauto.
Defined.

(* ================================================================== *)
(** * The range of the data *)
(* ================================================================== *)

Lemma getitem_unsubscriptable key r w :
  unsubscriptable_at key r = true ->
  exists e, getitem r key w = (Raise e, w) /\ is_KeyError_or_TypeError e = true.
Proof.
  unfold unsubscriptable_at, getitem.
  destruct r as [| | | | |kvs]; try (intros _; eexists; split; reflexivity).
  destruct (assoc key kvs); [discriminate|]. intros _. eexists; split; reflexivity.
Qed.

Lemma getitem_timestamp r w :
  unsubscriptable_at "timestamp" r = false ->
  getitem r "timestamp" w = (Return (timestamp_of r), w).
Proof.
  unfold unsubscriptable_at, getitem, timestamp_of.
  destruct r as [| | | | |kvs]; try discriminate.
  destruct (assoc "timestamp" kvs); [reflexivity|discriminate].
Qed.

Lemma nth_error_last {A} (l : list A) : forall x d,
  nth_error (x :: l) (List.length l) = Some (last (x :: l) d).
Proof.
  induction l as [|y l IH]; intros x d; [reflexivity|].
  cbn [List.length nth_error]. rewrite (IH y d). reflexivity.
Qed.

Lemma py_index_first first rest w :
  py_index (PList (first :: rest)) 0 w = (Return first, w).
Proof. reflexivity. Qed.

Lemma py_index_last first rest w :
  py_index (PList (first :: rest)) (-1) w = (Return (last (first :: rest) first), w).
Proof.
  unfold py_index. change (-1 <? 0) with true. cbv iota.
  assert (Hlen : -1 + Z.of_nat (List.length (first :: rest)) = Z.of_nat (List.length rest))
    by (cbn [List.length]; lia).
  rewrite Hlen. destruct (Z.ltb_spec (Z.of_nat (List.length rest)) 0); [lia|].
  rewrite Nat2Z.id, (nth_error_last rest first first). reflexivity.
Qed.

(** X8.  On a list of dictionaries that all have a timestamp,
    [calculate_data_range] returns the timestamps of the first and of the
    last element (the same one twice for a list of one) and logs nothing;
    on the empty list the [IndexError] is caught, one line is logged and
    [None] is returned. *)
Theorem calculate_data_range_first_and_last :
  forall items w,
    Forall (fun r => unsubscriptable_at "timestamp" r = false) items ->
    calculate_data_range (PList items) w
    = match items with
      | [] => (Return None, logged w "Error: Empty formatted_data list")
      | first :: _ =>
          (Return (Some (timestamp_of first, timestamp_of (last items first))), w)
      end.
Proof.
  intros items w Hall. destruct items as [|first rest]; [reflexivity|].
  assert (Hlast : unsubscriptable_at "timestamp" (last (first :: rest) first) = false).
  { rewrite Forall_forall in Hall. apply Hall.
    destruct (exists_last (l := first :: rest) ltac:(discriminate)) as (l' & a & Heq).
    rewrite Heq, last_last. apply in_or_app. right. left. reflexivity. }
  inversion Hall as [|? ? Hfirst _]; subst.
  unfold calculate_data_range, try_except.
  rewrite (bind_return _ _ _ _ _ (py_index_first first rest w)).
  rewrite (bind_return _ _ _ _ _ (getitem_timestamp first w Hfirst)).
  rewrite (bind_return _ _ _ _ _ (py_index_last first rest w)).
  rewrite (bind_return _ _ _ _ _ (getitem_timestamp _ w Hlast)). reflexivity.
Qed.

Lemma calculate_data_range_first_and_last_witness :
  calculate_data_range (PList test_formatted_data) quiet
  = (Return (Some (PStr "1000-01-01 00:00:00.000000", PStr "1000-01-04 00:00:00.000000")),
     quiet).
Proof.
  apply (calculate_data_range_first_and_last test_formatted_data quiet).
  repeat constructor.
Defined.

(* ================================================================== *)
(** * The closest epoch *)
(* ================================================================== *)

(** ** [min] *)

Section Min.

Variable key : pyval -> M Z.
Variable dist : pyval -> Z.

(** With keys that are all computed, the loop ends on the first item of
    the least key. *)
Lemma min_loop_first_minimum items :
  (forall r w, In r items -> key r w = (Return (dist r), w)) ->
  forall best w,
    exists before r after,
      best :: items = (before ++ r :: after)%list
      /\ min_loop key items best (dist best) w = (Return r, w)
      /\ (forall c, In c before -> dist r < dist c)
      /\ (forall c, In c after -> dist r <= dist c).
Proof.
  induction items as [|item rest IH]; intros Hkey best w.
  - exists [], best, []. repeat split; intros c [].
  - cbn [min_loop]. rewrite (bind_return _ _ _ _ _ (Hkey item w (or_introl eq_refl))).
    assert (Hrest : forall r w, In r rest -> key r w = (Return (dist r), w))
      by (intros r w' Hr; apply Hkey; right; exact Hr).
    destruct (Z.ltb_spec (dist item) (dist best)) as [Hlt|Hge].
    + destruct (IH Hrest item w) as (b & r & a & Heq & Hrun & Hb & Ha).
      exists (best :: b), r, a. rewrite Hrun, Heq. repeat split; [|exact Ha].
      intros c [<-|Hc]; [|apply Hb, Hc].
      assert (Hin : In item (b ++ r :: a)%list) by (rewrite <- Heq; left; reflexivity).
      apply in_app_or in Hin as [Hin|[->|Hin]];
        [specialize (Hb _ Hin)| |specialize (Ha _ Hin)]; lia.
    + destruct (IH Hrest best w) as (b & r & a & Heq & Hrun & Hb & Ha).
      destruct b as [|c0 b'].
      * cbn in Heq. injection Heq as <- <-.
        exists [], best, (item :: rest). rewrite Hrun. repeat split.
        -- intros c [].
        -- intros c [<-|Hc]; [lia|apply Ha, Hc].
      * cbn in Heq. injection Heq as <- ->.
        exists (best :: item :: b'), r, a. rewrite Hrun. repeat split; [|exact Ha].
        intros c [<-|[<-|Hc]].
        -- apply Hb. left. reflexivity.
        -- specialize (Hb best (or_introl eq_refl)). lia.
        -- apply Hb. right. exact Hc.
Qed.

(** When every key is computed or fails with [ValueError] or [TypeError],
    and one fails, the loop ends in one of the two. *)
Lemma min_loop_raises items (fails : pyval -> bool) :
  (forall r w, In r items ->
     if fails r then exists e, key r w = (Raise e, w) /\ is_ValueError_or_TypeError e = true
     else key r w = (Return (dist r), w)) ->
  existsb fails items = true ->
  forall best bestval w,
    exists e, min_loop key items best bestval w = (Raise e, w)
              /\ is_ValueError_or_TypeError e = true.
Proof.
  induction items as [|item rest IH]; intros Hkey Hex best bestval w; [discriminate|].
  cbn [min_loop]. pose proof (Hkey item w (or_introl eq_refl)) as Hitem.
  assert (Hrest : forall r w, In r rest ->
            if fails r then exists e, key r w = (Raise e, w)
                                      /\ is_ValueError_or_TypeError e = true
            else key r w = (Return (dist r), w))
    by (intros r w' Hr; apply Hkey; right; exact Hr).
  cbn [existsb] in Hex.
  destruct (fails item).
  - destruct Hitem as (e & He & Hc). rewrite (bind_raise _ _ _ _ _ He). eauto.
  - rewrite (bind_return _ _ _ _ _ Hitem). cbn [orb] in Hex.
    destruct (dist item <? bestval); apply (IH Hrest Hex).
Qed.

End Min.

(** ** [find_closest_epoch] *)

Lemma closeness_spec current_time r w :
  unsubscriptable_at "timestamp" r = false ->
  if is_some (epoch_time r)
  then closeness current_time r w = (Return (distance_or_zero current_time r), w)
  else exists e, closeness current_time r w = (Raise e, w)
                 /\ is_ValueError_or_TypeError e = true.
Proof.
  unfold closeness, distance_or_zero, epoch_distance, epoch_time, unsubscriptable_at.
  destruct r as [| | | | |kvs]; try discriminate.
  unfold bind, getitem.
  destruct (assoc "timestamp" kvs) as [v|]; [|discriminate]. intros _. cbn.
  destruct v as [| | |ts| |]; cbn; try (eexists; split; reflexivity).
  destruct (Datetime.strptime_timestamp ts); cbn; [reflexivity|].
  eexists; split; reflexivity.
Qed.

Lemma epoch_time_subscriptable r :
  epoch_time r <> None -> unsubscriptable_at "timestamp" r = false.
Proof.
  unfold epoch_time, unsubscriptable_at. destruct r as [| | | | |kvs]; try congruence.
  destruct (assoc "timestamp" kvs); [reflexivity|congruence].
Qed.

Lemma find_closest_epoch_unfold libc utcnow formatted_data w :
  find_closest_epoch libc utcnow formatted_data w
  = try_except
      (current_time <- strptime_canonical (PStr (Datetime.strftime_canonical libc utcnow)) ;;
       py_min (closeness current_time) formatted_data)
      (fun e =>
         if is_ValueError_or_TypeError e then
           Some (logging_error "Error: Unable to calculate closest epoch" ;;; ret PNone)
         else None) w.
Proof. reflexivity. Qed.

(** [min] over dictionaries whose timestamps can all be read returns the
    first of those at the least distance. *)
Lemma py_min_closest current_time formatted_data w :
  formatted_data <> [] ->
  Forall (fun r => epoch_time r <> None) formatted_data ->
  exists before closest_epoch after d,
    formatted_data = (before ++ closest_epoch :: after)%list
    /\ py_min (closeness current_time) (PList formatted_data) w = (Return closest_epoch, w)
    /\ epoch_distance current_time closest_epoch = Some d
    /\ (forall r, In r before ->
          exists d', epoch_distance current_time r = Some d' /\ d < d')
    /\ (forall r, In r after ->
          exists d', epoch_distance current_time r = Some d' /\ d <= d').
Proof.
  intros Hne Hall. set (ct := current_time).
  destruct formatted_data as [|first rest]; [contradiction|].
  assert (Hkey : forall r w, In r (first :: rest) ->
            closeness ct r w = (Return (distance_or_zero ct r), w)).
  { intros r w' Hr. rewrite Forall_forall in Hall. specialize (Hall r Hr).
    pose proof (closeness_spec ct r w' (epoch_time_subscriptable r Hall)) as Hc.
    destruct (epoch_time r); [exact Hc|contradiction]. }
  assert (Hdist : forall r, In r (first :: rest) ->
            epoch_distance ct r = Some (distance_or_zero ct r)).
  { intros r Hr. rewrite Forall_forall in Hall. specialize (Hall r Hr).
    unfold distance_or_zero, epoch_distance.
    destruct (epoch_time r); [reflexivity|contradiction]. }
  destruct (min_loop_first_minimum (closeness ct) (distance_or_zero ct) rest
              (fun r w' Hr => Hkey r w' (or_intror Hr)) first w)
    as (before & r & after & Heq & Hrun & Hb & Ha).
  assert (Hin : In r (first :: rest)) by (rewrite Heq; apply in_elt).
  exists before, r, after, (distance_or_zero ct r).
  split; [exact Heq|]. split; [|split; [apply Hdist, Hin|split]].
  - unfold py_min. unfold bind at 1. cbn [py_iter ret].
    rewrite (bind_return _ _ _ _ _ (Hkey first w (or_introl eq_refl))).
    exact Hrun.
  - intros c Hc. exists (distance_or_zero ct c). split; [|apply Hb, Hc].
    apply Hdist. rewrite Heq. apply in_or_app. left. exact Hc.
  - intros c Hc. exists (distance_or_zero ct c). split; [|apply Ha, Hc].
    apply Hdist. rewrite Heq. apply in_or_app. right. right. exact Hc.
Qed.

(** A clock that reads an existing date is read back from its own text. *)
Lemma find_closest_epoch_with_clock libc utcnow formatted_data w :
  valid utcnow = true ->
  libc = Datetime.ZeroFilled \/ 1000 <= Datetime.year utcnow ->
  find_closest_epoch libc utcnow formatted_data w
  = try_except
      (py_min (closeness utcnow) formatted_data)
      (fun e =>
         if is_ValueError_or_TypeError e then
           Some (logging_error "Error: Unable to calculate closest epoch" ;;; ret PNone)
         else None) w.
Proof.
  intros Hvalid Hyear. rewrite find_closest_epoch_unfold. unfold try_except.
  unfold bind at 1. unfold strptime_canonical at 1.
  rewrite (strptime_strftime libc utcnow Hvalid Hyear). reflexivity.
Qed.

(** X9.  When the clock reads an existing date (of a year from 1000 on,
    or with a C library that zero-fills [%Y]) and every element of a
    non-empty list has a timestamp that [strptime] reads,
    [find_closest_epoch] returns an element of the list and logs nothing:
    the element whose instant is nearest to the clock's, and among several
    equally near the first one (every element before it is strictly
    farther, every element after it at least as far). *)
Theorem find_closest_epoch_first_minimum :
  forall libc utcnow formatted_data w,
    valid utcnow = true ->
    libc = Datetime.ZeroFilled \/ 1000 <= Datetime.year utcnow ->
    formatted_data <> [] ->
    Forall (fun r => epoch_time r <> None) formatted_data ->
    exists before closest_epoch after d,
      formatted_data = (before ++ closest_epoch :: after)%list
      /\ find_closest_epoch libc utcnow (PList formatted_data) w = (Return closest_epoch, w)
      /\ epoch_distance utcnow closest_epoch = Some d
      /\ (forall r, In r before ->
            exists d', epoch_distance utcnow r = Some d' /\ d < d')
      /\ (forall r, In r after ->
            exists d', epoch_distance utcnow r = Some d' /\ d <= d').
Proof.
  intros libc utcnow fd w Hvalid Hyear Hne Hall.
  destruct (py_min_closest utcnow fd w Hne Hall) as (before & r & after & d & Heq & Hrun & H).
  exists before, r, after, d. split; [exact Heq|]. split; [|exact H].
  rewrite (find_closest_epoch_with_clock libc utcnow _ w Hvalid Hyear).
  unfold try_except. rewrite Hrun. reflexivity.
Qed.

Lemma find_closest_epoch_first_minimum_witness :
  exists before closest_epoch after d,
    test_formatted_data = (before ++ closest_epoch :: after)%list
    /\ find_closest_epoch Datetime.Plain (Datetime.mkDatetime 2024 3 17 12 0 0 0)
         (PList test_formatted_data) quiet = (Return closest_epoch, quiet)
    /\ epoch_distance (Datetime.mkDatetime 2024 3 17 12 0 0 0) closest_epoch = Some d
    /\ (forall r, In r before ->
          exists d', epoch_distance (Datetime.mkDatetime 2024 3 17 12 0 0 0) r = Some d'
                     /\ d < d')
    /\ (forall r, In r after ->
          exists d', epoch_distance (Datetime.mkDatetime 2024 3 17 12 0 0 0) r = Some d'
                     /\ d <= d').
Proof.
  apply (find_closest_epoch_first_minimum Datetime.Plain
           (Datetime.mkDatetime 2024 3 17 12 0 0 0) test_formatted_data quiet).
  - reflexivity.
  - right. cbn. lia.
  - discriminate.
  - repeat constructor; intros H; vm_compute in H; discriminate H.
Defined.

Example test_find_closest_epoch :
  find_closest_epoch Datetime.Plain (Datetime.mkDatetime 2024 3 17 12 0 0 0)
    (PList test_formatted_data) quiet
  = (Return (record "1000-01-04 00:00:00.000000" (-19) 20 (-21) 22 (-23) 24), quiet).
Proof. vm_compute. reflexivity. Qed.

(** X10.  On the empty list [find_closest_epoch] returns [None] and logs
    one line, whatever the clock reads: the [ValueError] of [min] on an
    empty sequence is caught. *)
Theorem find_closest_epoch_empty :
  forall libc utcnow w,
    find_closest_epoch libc utcnow (PList []) w
    = (Return PNone, logged w "Error: Unable to calculate closest epoch").
Proof.
  intros libc utcnow w. rewrite find_closest_epoch_unfold.
  unfold try_except, bind, strptime_canonical.
  destruct (Datetime.strptime_timestamp (Datetime.strftime_canonical libc utcnow));
    reflexivity.
Qed.

Lemma closest_of_unreadable libc utcnow formatted_data w :
  Forall (fun r => unsubscriptable_at "timestamp" r = false) formatted_data ->
  Exists (fun r => epoch_time r = None) formatted_data ->
  try_except
    (current_time <- strptime_canonical (PStr (Datetime.strftime_canonical libc utcnow)) ;;
     py_min (closeness current_time) (PList formatted_data))
    (fun e =>
       if is_ValueError_or_TypeError e then
         Some (logging_error "Error: Unable to calculate closest epoch" ;;; ret PNone)
       else None) w
  = (Return PNone, logged w "Error: Unable to calculate closest epoch").
Proof.
  intros Hall Hex. set (fd := formatted_data) in *.
  assert (Hraise : forall current_time, exists e,
            py_min (closeness current_time) (PList fd) w = (Raise e, w)
            /\ is_ValueError_or_TypeError e = true).
  { intros ct. unfold py_min. unfold bind at 1. cbn [py_iter ret].
    destruct fd as [|first rest]; [inversion Hex|].
    rewrite Forall_forall in Hall.
    pose proof (closeness_spec ct first w (Hall first (or_introl eq_refl))) as Hfirst.
    destruct (epoch_time first) eqn:Hf; cbn [is_some] in Hfirst.
    - rewrite (bind_return _ _ _ _ _ Hfirst).
      apply (min_loop_raises (closeness ct) (distance_or_zero ct) rest
               (fun r => negb (is_some (epoch_time r)))).
      + intros r w' Hr.
        pose proof (closeness_spec ct r w' (Hall r (or_intror Hr))) as Hc.
        destruct (epoch_time r); exact Hc.
      + inversion Hex as [? ? H0|? ? H0]; subst; [congruence|].
        apply existsb_exists. apply Exists_exists in H0 as (r & Hr & Hn).
        exists r. split; [exact Hr|]. rewrite Hn. reflexivity.
    - destruct Hfirst as (e & He & Hc). rewrite (bind_raise _ _ _ _ _ He). eauto. }
  unfold try_except. unfold bind at 1. unfold strptime_canonical at 1.
  destruct (Datetime.strptime_timestamp (Datetime.strftime_canonical libc utcnow)) as [ct|];
    cbn [ret raise].
  - destruct (Hraise ct) as (e & -> & Hc). rewrite Hc. reflexivity.
  - reflexivity.
Qed.

(** X11.  On a list of dictionaries that all have a ['timestamp'], a
    single timestamp that [strptime] does not read (a text in another
    format, or no text at all) makes [find_closest_epoch] return [None] and
    log one line, however many of the others can be read. *)
Theorem find_closest_epoch_unreadable_timestamp :
  forall libc utcnow formatted_data w,
    Forall (fun r => unsubscriptable_at "timestamp" r = false) formatted_data ->
    Exists (fun r => epoch_time r = None) formatted_data ->
    find_closest_epoch libc utcnow (PList formatted_data) w
    = (Return PNone, logged w "Error: Unable to calculate closest epoch").
Proof.
  intros libc utcnow fd w Hall Hex. rewrite find_closest_epoch_unfold.
  apply closest_of_unreadable; assumption.
Qed.

Lemma find_closest_epoch_unreadable_timestamp_witness :
  find_closest_epoch Datetime.Plain noon
    (PList [record "1000-01-01 00:00:00.000000" 1 2 3 4 5 6;
            record "999-01-01 00:00:00.000000" 1 2 3 4 5 6]%float) quiet
  = (Return PNone, logged quiet "Error: Unable to calculate closest epoch").
Proof.
  apply (find_closest_epoch_unreadable_timestamp Datetime.Plain noon).
  - repeat constructor.
  - apply Exists_cons_tl, Exists_cons_hd. reflexivity.
Defined.

(** X12.  With a C library that writes the plain year, one well-formed
    state vector dated before the year 1000 is enough for
    [find_closest_epoch] to return [None] on the list [format_data]
    produced, which is not empty: the timestamp [format_data] wrote for it
    is not read back. *)
Theorem find_closest_epoch_glibc_year_below_1000 :
  forall utcnow data_dict entries w sv t,
    subscripts data_dict state_vector_path w = (Return (RList entries), w) ->
    In sv entries -> well_formed sv = true ->
    parsed_epoch sv = Some t -> Datetime.year t < 1000 ->
    exists formatted_data w1,
      format_data Datetime.Plain data_dict w = (Return (PList formatted_data), w1)
      /\ formatted_data <> []
      /\ find_closest_epoch Datetime.Plain utcnow (PList formatted_data) w1
         = (Return PNone, logged w1 "Error: Unable to calculate closest epoch").
Proof.
  intros utcnow d entries w sv t Hpath Hsv Hwf Ht Hy.
  destruct (format_data_loop_spec Datetime.Plain entries [] w) as (w1 & Hloop & _).
  exists (normalized_list Datetime.Plain entries), w1.
  assert (Hformat : format_data Datetime.Plain d w
                    = (Return (PList (normalized_list Datetime.Plain entries)), w1)).
  { rewrite (format_data_after_path _ d w _ Hpath). cbn [raw_iter].
    unfold bind at 1. cbn [ret]. unfold bind. rewrite Hloop. reflexivity. }
  rewrite <- (normalized_some_iff Datetime.Plain) in Hwf.
  destruct (normalized Datetime.Plain sv) as [r|] eqn:Hn; [|discriminate].
  pose proof (normalized_in_list _ _ _ _ Hsv Hn) as Hin.
  split; [exact Hformat|]. split; [intros Hnil; rewrite Hnil in Hin; exact Hin|].
  rewrite find_closest_epoch_unfold.
  assert (Hall : Forall (fun r => unsubscriptable_at "timestamp" r = false)
                   (normalized_list Datetime.Plain entries)).
  { pose proof (normalized_list_records Datetime.Plain entries) as Hrec.
    rewrite Forall_forall in *. intros r' Hr'.
    destruct (Hrec r' Hr') as (ts & x & y & z & dx & dy & dz & ->). reflexivity. }
  assert (Hbad : epoch_time r = None).
  { unfold normalized in Hn. rewrite Ht in Hn.
    destruct (parsed_field sv "X") as [x|]; [|discriminate].
    destruct (parsed_field sv "Y") as [y|]; [|discriminate].
    destruct (parsed_field sv "Z") as [z|]; [|discriminate].
    destruct (parsed_field sv "X_DOT") as [dx|]; [|discriminate].
    destruct (parsed_field sv "Y_DOT") as [dy|]; [|discriminate].
    destruct (parsed_field sv "Z_DOT") as [dz|]; [|discriminate].
    injection Hn as <-. cbn. apply strptime_strftime_plain_below_1000.
    pose proof (parsed_epoch_valid sv t Ht) as Hvalid. valid_bounds Hvalid. lia. }
  apply (closest_of_unreadable Datetime.Plain utcnow _ w1 Hall).
  apply Exists_exists. exists r. split; assumption.
Qed.

Lemma find_closest_epoch_glibc_year_below_1000_witness :
  exists formatted_data w1,
    format_data Datetime.Plain data_dict_year_999 quiet = (Return (PList formatted_data), w1)
    /\ formatted_data <> []
    /\ find_closest_epoch Datetime.Plain noon (PList formatted_data) w1
       = (Return PNone, logged w1 "Error: Unable to calculate closest epoch").
Proof.
  apply (find_closest_epoch_glibc_year_below_1000 noon data_dict_year_999
           [raw_state_vector "0999-001T00:00:00.000Z" "1" "-2" "3" "4" "-5" "6"] quiet
           (raw_state_vector "0999-001T00:00:00.000Z" "1" "-2" "3" "4" "-5" "6")
           (Datetime.mkDatetime 999 1 1 0 0 0 0)).
  - reflexivity.
  - left. reflexivity.
  - vm_compute. reflexivity.
  - vm_compute. reflexivity.
  - cbn. lia.
Defined.

(* ================================================================== *)
(** * The instantaneous speed *)
(* ================================================================== *)

Lemma instantaneous_speed_spec libm data v w :
  velocity data = Some v ->
  velocity_in_range libm v = true ->
  calculate_instantaneous_speed libm data w = (Return (PFloat (speed libm v)), w).
Proof.
  intros Hv Hr. unfold calculate_instantaneous_speed, try_except.
  rewrite (speed_of_spec libm data v w Hv Hr). reflexivity.
Qed.

Lemma instantaneous_speed_unsubscriptable libm data w :
  unsubscriptable_at "dx" data = true ->
  calculate_instantaneous_speed libm data w
  = (Return PNone, logged w "Error: Missing or incorrect keys in closest_epoch").
Proof.
  intros H. unfold calculate_instantaneous_speed, try_except.
  destruct (getitem_unsubscriptable "dx" data w H) as (e & He & Hc).
  unfold speed_of. rewrite (bind_raise _ _ _ _ _ He), Hc. reflexivity.
Qed.

Lemma speed_of_unsubscriptable libm data w :
  unsubscriptable_at "dx" data = true ->
  exists e, speed_of libm data w = (Raise e, w) /\ is_KeyError_or_TypeError e = true.
Proof.
  intros H. destruct (getitem_unsubscriptable "dx" data w H) as (e & He & Hc).
  exists e. split; [|exact Hc]. unfold speed_of. apply (bind_raise _ _ _ _ _ He).
Qed.

(** X13.  For a dictionary whose [dx], [dy], [dz] are finite floats with
    finite squares, [calculate_instantaneous_speed] returns
    [sqrt(dx² + dy² + dz²)] and logs nothing. *)
Theorem calculate_instantaneous_speed_in_range :
  forall libm closest_epoch v w,
    velocity closest_epoch = Some v ->
    velocity_in_range libm v = true ->
    calculate_instantaneous_speed libm closest_epoch w
    = (Return (PFloat (speed libm v)), w).
Proof. intros libm data v w. apply instantaneous_speed_spec. Qed.

Lemma calculate_instantaneous_speed_in_range_witness :
  calculate_instantaneous_speed correctly_rounded
    (record "1000-01-04 00:00:00.000000" (-19) 20 (-21) 22 (-23) 24) quiet
  = (Return (PFloat (speed correctly_rounded (22, -23, 24)%float)), quiet).
Proof.
  apply (calculate_instantaneous_speed_in_range correctly_rounded).
  - reflexivity.
  - vm_compute. reflexivity.
Defined.

Example test_calculate_instantaneous_speed :
  calculate_instantaneous_speed correctly_rounded
    (record "1000-01-04 00:00:00.000000" (-19) 20 (-21) 22 (-23) 24) quiet
  = (Return (PFloat 0x1.3ee5ea11783e6p+5), quiet).
Proof. vm_compute. reflexivity. Qed.

(** X14.  For anything that is no dictionary ([None], which
    [find_closest_epoch] returns when it gives up, among them) and for a
    dictionary without ['dx'], [calculate_instantaneous_speed] returns
    [None] and logs one line. *)
Theorem calculate_instantaneous_speed_without_velocity :
  forall libm closest_epoch w,
    unsubscriptable_at "dx" closest_epoch = true ->
    calculate_instantaneous_speed libm closest_epoch w
    = (Return PNone, logged w "Error: Missing or incorrect keys in closest_epoch").
Proof. intros libm data w. apply instantaneous_speed_unsubscriptable. Qed.

Lemma calculate_instantaneous_speed_without_velocity_witness :
  calculate_instantaneous_speed correctly_rounded PNone quiet
  = (Return PNone, logged quiet "Error: Missing or incorrect keys in closest_epoch").
Proof.
  apply (calculate_instantaneous_speed_without_velocity correctly_rounded PNone quiet).
  reflexivity.
Defined.

(** X15.  A finite [dx] whose square is out of the range of the floats
    makes [calculate_instantaneous_speed] raise [OverflowError], which it
    does not catch; nothing is logged. *)
Theorem calculate_instantaneous_speed_overflow :
  forall libm closest_epoch dx dy dz w,
    velocity closest_epoch = Some (dx, dy, dz) ->
    is_finite dx = true ->
    is_infinity (PyFloat.power2 libm dx) = true ->
    calculate_instantaneous_speed libm closest_epoch w = (Raise OverflowError, w).
Proof.
  intros libm data dx dy dz w Hv Hfin Hinf.
  unfold velocity in Hv. destruct data as [| | | | |kvs]; try discriminate.
  destruct (assoc "dx" kvs) as [[| |dx'| | |]|] eqn:Hdx; try discriminate.
  destruct (assoc "dy" kvs) as [[| |dy'| | |]|] eqn:Hdy; try discriminate.
  destruct (assoc "dz" kvs) as [[| |dz'| | |]|] eqn:Hdz; try discriminate.
  injection Hv as -> -> ->.
  unfold calculate_instantaneous_speed, try_except, speed_of.
  rewrite (bind_return _ _ _ _ _ (getitem_present _ _ _ w Hdx)).
  unfold bind at 1. unfold py_square, PyFloat.square. unfold bind at 1.
  rewrite Hfin, Hinf. reflexivity.
Qed.

Lemma calculate_instantaneous_speed_overflow_witness :
  calculate_instantaneous_speed correctly_rounded
    (record "2024-03-17 12:00:00.000000" 1 2 3 0x1.4e718d7d7625ap+664 0 0) quiet
  = (Raise OverflowError, quiet).
Proof.
  apply (calculate_instantaneous_speed_overflow correctly_rounded _
           0x1.4e718d7d7625ap+664%float 0%float 0%float quiet).
  - reflexivity.
  - vm_compute. reflexivity.
  - vm_compute. reflexivity.
Defined.

(* ================================================================== *)
(** * The average speed of a list with a record that has no velocity *)
(* ================================================================== *)

Lemma py_add_total total_speed s w :
  is_total total_speed ->
  exists a, py_add total_speed (PFloat s) w = (Return (PFloat a), w).
Proof.
  intros [->|[a ->]]; eexists; reflexivity.
Qed.

Lemma total_speed_loop_prefix libm good : forall velocities total_speed rest w,
  map velocity good = map Some velocities ->
  forallb (velocity_in_range libm) velocities = true ->
  is_total total_speed ->
  exists total_speed',
    is_total total_speed'
    /\ total_speed_loop libm (good ++ rest)%list total_speed w
       = total_speed_loop libm rest total_speed' w.
Proof.
  induction good as [|data good IH]; intros [|v vs] total rest w Hv Hr Ht; try discriminate.
  - exists total. split; [exact Ht|reflexivity].
  - cbn in Hv, Hr. injection Hv as Hv Hvs. apply andb_prop in Hr as [Hr Hrs].
    cbn [app total_speed_loop].
    rewrite (bind_return _ _ _ _ _ (speed_of_spec libm data v w Hv Hr)).
    destruct (py_add_total total (speed libm v) w Ht) as (a & Ha).
    rewrite (bind_return _ _ _ _ _ Ha).
    apply (IH vs (PFloat a) rest w Hvs Hrs). right. eauto.
Qed.

(** X16.  One element that is no dictionary, or a dictionary without
    ['dx'], voids the whole average: when the elements before it have
    velocities in range, [calculate_average_speed] returns [None] and logs
    one line, whatever follows the element. *)
Theorem calculate_average_speed_record_without_velocity :
  forall libm good velocities bad rest w,
    map velocity good = map Some velocities ->
    forallb (velocity_in_range libm) velocities = true ->
    unsubscriptable_at "dx" bad = true ->
    calculate_average_speed libm (PList (good ++ bad :: rest)%list) w
    = (Return PNone, logged w "Error: Missing or incorrect keys in closest_epoch").
Proof.
  intros libm good vs bad rest w Hv Hr Hbad.
  destruct (total_speed_loop_prefix libm good vs (PInt 0) (bad :: rest) w Hv Hr
              (or_introl eq_refl)) as (total & _ & Hloop).
  destruct (speed_of_unsubscriptable libm bad w Hbad) as (e & He & Hc).
  unfold calculate_average_speed, try_except.
  unfold bind at 1. cbn [py_iter ret].
  erewrite (bind_raise (total_speed_loop libm _ _) _ e w w).
  - rewrite Hc. reflexivity.
  - rewrite Hloop. cbn [total_speed_loop]. apply (bind_raise _ _ _ _ _ He).
Qed.

Lemma calculate_average_speed_record_without_velocity_witness :
  calculate_average_speed correctly_rounded
    (PList (test_formatted_data ++ PDict [("timestamp", PStr "1000-01-05 00:00:00.000000")]
                                :: [])%list) quiet
  = (Return PNone, logged quiet "Error: Missing or incorrect keys in closest_epoch").
Proof.
  apply (calculate_average_speed_record_without_velocity correctly_rounded
           test_formatted_data test_velocities).
  - reflexivity.
  - vm_compute. reflexivity.
  - reflexivity.
Defined.

(* ================================================================== *)
(** * The geodetic converter without its keys *)
(* ================================================================== *)

Lemma geo_unsubscriptable
  (obstime : pyval -> outcome float)
  (to_earth_location : float -> pyval -> pyval -> pyval -> outcome earth_location)
  (geocoder_reverse : float -> float -> outcome (option string)) epoch w :
  unsubscriptable_at "timestamp" epoch = true ->
  cartesian_to_geo obstime to_earth_location geocoder_reverse epoch w
  = (Return PNone, logged w "Error: Missing or incorrect timestamp key in epoch").
Proof.
  intros H.
  destruct (getitem_unsubscriptable "timestamp" epoch w H) as (e & He & Hc).
  unfold cartesian_to_geo. unfold bind at 1. unfold try_except.
  rewrite (bind_raise _ _ _ _ _ He), Hc. reflexivity.
Qed.

(** X17.  For anything that is no dictionary ([None] among them) and for
    a dictionary without ['timestamp'], [cartesian_to_geo] returns [None]
    and logs one line, whatever the libraries would answer: none of them
    is asked. *)
Theorem cartesian_to_geo_without_timestamp :
  forall (obstime : pyval -> outcome float)
         (to_earth_location : float -> pyval -> pyval -> pyval -> outcome earth_location)
         (geocoder_reverse : float -> float -> outcome (option string))
         epoch w,
    unsubscriptable_at "timestamp" epoch = true ->
    cartesian_to_geo obstime to_earth_location geocoder_reverse epoch w
    = (Return PNone, logged w "Error: Missing or incorrect timestamp key in epoch").
Proof. intros obstime to_el rev epoch w. apply geo_unsubscriptable. Qed.

Lemma cartesian_to_geo_without_timestamp_witness :
  cartesian_to_geo (fun _ => Return 0%float)
                   (fun _ _ _ _ => Return (mkEarthLocation 10 20 400))
                   (fun _ _ => Return None) PNone quiet
  = (Return PNone, logged quiet "Error: Missing or incorrect timestamp key in epoch").
Proof.
  apply (cartesian_to_geo_without_timestamp
           (fun _ => Return 0%float)
           (fun _ _ _ _ => Return (mkEarthLocation 10 20 400))
           (fun _ _ => Return None) PNone quiet).
  reflexivity.
Defined.

(** X18.  For a dictionary whose timestamp converts but which lacks one
    of ['x'], ['y'], ['z'], [cartesian_to_geo] returns [None] and logs one
    line about the positional keys; the frame change and the geocoder are
    not asked. *)
Theorem cartesian_to_geo_without_position :
  forall (obstime : pyval -> outcome float)
         (to_earth_location : float -> pyval -> pyval -> pyval -> outcome earth_location)
         (geocoder_reverse : float -> float -> outcome (option string))
         epoch ts t w,
    getitem epoch "timestamp" = ret ts ->
    obstime ts = Return t ->
    unsubscriptable_at "x" epoch || unsubscriptable_at "y" epoch
      || unsubscriptable_at "z" epoch = true ->
    cartesian_to_geo obstime to_earth_location geocoder_reverse epoch w
    = (Return PNone, logged w "Error: Missing or incorrect positional keys in epoch").
Proof.
  intros obstime to_el rev epoch ts t w Hts Ht Hpos.
  unfold cartesian_to_geo, bind, try_except, lift.
  rewrite Hts. cbn. rewrite Ht. cbn.
  destruct epoch as [| | | | |kvs];
    try (apply (f_equal (fun f => fst (f quiet))) in Hts; discriminate Hts).
  unfold unsubscriptable_at in Hpos. cbn [getitem].
  destruct (assoc "x" kvs); cbn; [|reflexivity].
  destruct (assoc "y" kvs); cbn; [|reflexivity].
  destruct (assoc "z" kvs); cbn; [discriminate Hpos|reflexivity].
Qed.

Lemma cartesian_to_geo_without_position_witness :
  cartesian_to_geo (fun _ => Return 0%float)
                   (fun _ _ _ _ => Return (mkEarthLocation 10 20 400))
                   (fun _ _ => Return None)
                   (PDict [("timestamp", PStr "2024-03-17 12:00:00.000000");
                           ("x", PInt 5000); ("y", PInt 2000)]) quiet
  = (Return PNone, logged quiet "Error: Missing or incorrect positional keys in epoch").
Proof.
  apply (cartesian_to_geo_without_position
           (fun _ => Return 0%float)
           (fun _ _ _ _ => Return (mkEarthLocation 10 20 400))
           (fun _ _ => Return None)
           (PDict [("timestamp", PStr "2024-03-17 12:00:00.000000");
                   ("x", PInt 5000); ("y", PInt 2000)])
           (PStr "2024-03-17 12:00:00.000000") 0%float quiet);
    reflexivity.
Defined.

(* ================================================================== *)
(** * The pages of [/epochs] *)
(* ================================================================== *)

Lemma slice_window {A} (l : list A) (start count : Z) :
  0 <= start -> 0 <= count ->
  slice l start (Some (start + count)) = firstn (Z.to_nat count) (skipn (Z.to_nat start) l).
Proof.
  intros Hs Hc. unfold slice, slice_index.
  destruct (Z.ltb_spec start 0); [lia|].
  destruct (Z.ltb_spec (start + count) 0); [lia|].
  set (len := Z.of_nat (List.length l)).
  destruct (Z.le_gt_cases len start) as [Hout|Hin].
  - rewrite !(skipn_all2 l) by (subst len; lia). rewrite !firstn_nil. reflexivity.
  - rewrite (Z.min_l start len) by lia.
    destruct (Z.le_gt_cases (start + count) len) as [Hfit|Hover].
    + rewrite Z.min_l by lia. f_equal. lia.
    + rewrite Z.min_r by lia.
      rewrite !firstn_all2; [reflexivity| |]; rewrite length_skipn; subst len; lia.
Qed.

Lemma slice_tail {A} (l : list A) (k : Z) :
  0 < k -> slice l (- k) None = skipn (List.length l - Z.to_nat k) l.
Proof.
  intros Hk. unfold slice, slice_index.
  destruct (Z.ltb_spec (- k) 0); [|lia].
  set (len := Z.of_nat (List.length l)).
  replace (Z.to_nat (Z.max 0 (- k + len))) with (List.length l - Z.to_nat k)%nat
    by (subst len; lia).
  apply firstn_all2. rewrite length_skipn. subst len. lia.
Qed.

Lemma slice_negative_offset_with_limit {A} (l : list A) (k limit : Z) :
  0 < k <= limit -> limit <= Z.of_nat (List.length l) ->
  slice l (- k) (Some (- k + limit)) = [].
Proof.
  intros Hk Hl. unfold slice, slice_index.
  destruct (Z.ltb_spec (- k) 0); [|lia].
  destruct (Z.ltb_spec (- k + limit) 0); [lia|].
  set (len := Z.of_nat (List.length l)) in *.
  replace (Z.to_nat (Z.min (- k + limit) len - Z.max 0 (- k + len))) with 0%nat by lia.
  reflexivity.
Qed.

Section Pages.

Variable libc : Datetime.year_style.
Variable xmltodict_parse : string -> outcome raw.

(** X19.  For a non-negative [limit] and [offset], [/epochs] answers with
    the [limit] records that follow the first [offset] ones, or as many as
    there are: never more than [limit], and none (not an error) when
    [offset] is at or beyond the end of the list. *)
Theorem get_epochs_window :
  forall w doc w1 formatted_data w2 limit offset,
    fetch_data xmltodict_parse w = (Return doc, w1) ->
    format_data libc doc w1 = (Return (PList formatted_data), w2) ->
    0 <= limit -> 0 <= offset ->
    exists page,
      get_epochs libc xmltodict_parse (mkQuery (Some limit) (Some offset)) w
      = (Return (Body (PList page)), w2)
      /\ page = firstn (Z.to_nat limit) (skipn (Z.to_nat offset) formatted_data)
      /\ List.length page
         = Nat.min (Z.to_nat limit) (List.length formatted_data - Z.to_nat offset)
      /\ (Z.of_nat (List.length formatted_data) <= offset -> page = []).
Proof.
  intros w doc w1 fd w2 limit offset Hfetch Hformat Hl Ho.
  exists (firstn (Z.to_nat limit) (skipn (Z.to_nat offset) fd)).
  split; [|split; [reflexivity|split]].
  - rewrite (get_epochs_page libc xmltodict_parse w doc w1 fd w2 _ Hfetch Hformat).
    cbn [arg_limit arg_offset]. rewrite (slice_window fd offset limit Ho Hl). reflexivity.
  - rewrite length_firstn, length_skipn. reflexivity.
  - intros Hout. rewrite skipn_all2 by lia. apply firstn_nil.
Qed.

(** X20.  A negative [offset] counts from the end.  Without [limit],
    [/epochs?offset=-k] answers with the last [k] records (all of them when
    there are fewer).  With a [limit] between [k] and the length of the
    list the end of the slice, [offset + limit], is no longer negative and
    counts from the start: the answer is the empty list. *)
Theorem get_epochs_negative_offset :
  forall w doc w1 formatted_data w2 k,
    fetch_data xmltodict_parse w = (Return doc, w1) ->
    format_data libc doc w1 = (Return (PList formatted_data), w2) ->
    0 < k ->
    get_epochs libc xmltodict_parse (mkQuery None (Some (- k))) w
    = (Return (Body (PList (skipn (List.length formatted_data - Z.to_nat k)
                                  formatted_data))), w2)
    /\ (forall limit,
          k <= limit -> limit <= Z.of_nat (List.length formatted_data) ->
          get_epochs libc xmltodict_parse (mkQuery (Some limit) (Some (- k))) w
          = (Return (Body (PList [])), w2)).
Proof.
  intros w doc w1 fd w2 k Hfetch Hformat Hk.
  pose proof (fun args => get_epochs_page libc xmltodict_parse w doc w1 fd w2 args
                            Hfetch Hformat) as Hpage.
  split.
  - rewrite Hpage. cbn [arg_limit arg_offset]. rewrite (slice_tail fd k Hk). reflexivity.
  - intros limit Hlim Hlen. rewrite Hpage. cbn [arg_limit arg_offset].
    rewrite (slice_negative_offset_with_limit fd k limit) by lia. reflexivity.
Qed.

End Pages.

Lemma get_epochs_window_witness :
  exists page,
    get_epochs Datetime.Plain fixture_parse (mkQuery (Some 2) (Some 3)) fixture_upstream
    = (Return (Body (PList page)), quiet)
    /\ page = firstn (Z.to_nat 2) (skipn (Z.to_nat 3) test_formatted_data)
    /\ List.length page
       = Nat.min (Z.to_nat 2) (List.length test_formatted_data - Z.to_nat 3)
    /\ (Z.of_nat (List.length test_formatted_data) <= 3 -> page = []).
Proof.
  apply (get_epochs_window Datetime.Plain fixture_parse fixture_upstream
           test_data_dict quiet test_formatted_data quiet 2 3).
  - reflexivity.
  - vm_compute. reflexivity.
  - lia.
  - lia.
Defined.

Lemma get_epochs_negative_offset_witness :
  get_epochs Datetime.Plain fixture_parse (mkQuery None (Some (- 1))) fixture_upstream
  = (Return (Body (PList (skipn (List.length test_formatted_data - Z.to_nat 1)
                                test_formatted_data))), quiet)
  /\ (forall limit,
        1 <= limit -> limit <= Z.of_nat (List.length test_formatted_data) ->
        get_epochs Datetime.Plain fixture_parse (mkQuery (Some limit) (Some (- 1)))
          fixture_upstream
        = (Return (Body (PList [])), quiet)).
Proof.
  apply (get_epochs_negative_offset Datetime.Plain fixture_parse fixture_upstream
           test_data_dict quiet test_formatted_data quiet 1).
  - reflexivity.
  - vm_compute. reflexivity.
  - lia.
Defined.

(* ================================================================== *)
(** * The speed and the location of an epoch *)
(* ================================================================== *)

Lemma get_epoch_speed_loop_spec libm items epoch w :
  Forall is_record items ->
  get_epoch_speed_loop libm items epoch w
  = match find (has_timestamp epoch) items with
    | Some data =>
        (speed <- calculate_instantaneous_speed libm data ;;
         ret (Body (PDict [("speed", speed)]))) w
    | None => (Return not_found, w)
    end.
Proof.
  induction 1 as [|r rest Hr _ IH]; [reflexivity|].
  destruct Hr as (ts & x & y & z & dx & dy & dz & ->).
  cbn [get_epoch_speed_loop find has_timestamp record assoc String.eqb Ascii.eqb
       Bool.eqb py_eq_str].
  unfold bind at 1. cbn [getitem record assoc String.eqb Ascii.eqb Bool.eqb ret py_eq_str].
  destruct (String.eqb ts epoch); [reflexivity|exact IH].
Qed.

Lemma get_epoch_location_loop_spec obstime to_el rev items epoch w :
  Forall is_record items ->
  get_epoch_location_loop obstime to_el rev items epoch w
  = match find (has_timestamp epoch) items with
    | Some data =>
        (geo <- cartesian_to_geo obstime to_el rev data ;; ret (Body geo)) w
    | None => (Return not_found, w)
    end.
Proof.
  induction 1 as [|r rest Hr _ IH]; [reflexivity|].
  destruct Hr as (ts & x & y & z & dx & dy & dz & ->).
  cbn [get_epoch_location_loop find has_timestamp record assoc String.eqb Ascii.eqb
       Bool.eqb py_eq_str].
  unfold bind at 1. cbn [getitem record assoc String.eqb Ascii.eqb Bool.eqb ret py_eq_str].
  destruct (String.eqb ts epoch); [reflexivity|exact IH].
Qed.

Lemma find_in_records libc entries epoch data :
  find (has_timestamp epoch) (normalized_list libc entries) = Some data ->
  exists x y z dx dy dz, data = record epoch x y z dx dy dz.
Proof.
  intros H. apply find_some in H as [Hin Hts].
  pose proof (normalized_list_records libc entries) as Hrec.
  rewrite Forall_forall in Hrec.
  destruct (Hrec _ Hin) as (ts & x & y & z & dx & dy & dz & ->).
  cbn in Hts. apply String.eqb_eq in Hts. subst ts. eauto 7.
Qed.

Section EpochRoutes.

Variable libc : Datetime.year_style.
Variable libm : PyFloat.math_library.
Variable xmltodict_parse : string -> outcome raw.
Variable obstime : pyval -> outcome float.
Variable to_earth_location : float -> pyval -> pyval -> pyval -> outcome earth_location.
Variable geocoder_reverse : float -> float -> outcome (option string).

(** X21.  [/epochs/<ts>/speed] decodes the path as [/epochs/<ts>] does.
    When no record has the decoded timestamp it answers 404 with
    [{'error': 'Epoch not found'}]; otherwise it answers with
    [{'speed': s}], [s] being [sqrt(dx² + dy² + dz²)] of the first record
    with that timestamp (for a velocity in range).  A record that is found
    is a record with the seven keys and the timestamp asked for. *)
Theorem get_epoch_speed_of_first_match :
  forall path w doc w1 formatted_data w2,
    fetch_data xmltodict_parse w = (Return doc, w1) ->
    format_data libc doc w1 = (Return (PList formatted_data), w2) ->
    let epoch := Str.replace "_" ":" (Str.replace "__" " " path) in
    (find (has_timestamp epoch) formatted_data = None ->
       get_epoch_speed libc libm xmltodict_parse path w
       = (Return (BodyStatus (PDict [("error", PStr "Epoch not found")]) 404), w2))
    /\ (forall x y z dx dy dz,
          find (has_timestamp epoch) formatted_data = Some (record epoch x y z dx dy dz) ->
          velocity_in_range libm (dx, dy, dz) = true ->
          get_epoch_speed libc libm xmltodict_parse path w
          = (Return (Body (PDict [("speed", PFloat (speed libm (dx, dy, dz)))])), w2))
    /\ (forall data, find (has_timestamp epoch) formatted_data = Some data ->
          exists x y z dx dy dz, data = record epoch x y z dx dy dz).
Proof.
  intros path w doc w1 fd w2 Hfetch Hformat epoch.
  destruct (format_data_returns_records _ _ _ _ _ Hformat) as (entries & [= ->]).
  pose proof (normalized_list_records libc entries) as Hrec.
  assert (Hrun : get_epoch_speed libc libm xmltodict_parse path w
                 = get_epoch_speed_loop libm (normalized_list libc entries) epoch w2).
  { unfold get_epoch_speed.
    rewrite (bind_return _ _ _ _ _ Hfetch), (bind_return _ _ _ _ _ Hformat). reflexivity. }
  rewrite Hrun, (get_epoch_speed_loop_spec _ _ _ _ Hrec).
  split; [|split].
  - intros ->. reflexivity.
  - intros x y z dx dy dz -> Hr.
    rewrite (bind_return _ _ _ _ _
               (instantaneous_speed_spec libm (record epoch x y z dx dy dz) (dx, dy, dz) w2
                  eq_refl Hr)).
    reflexivity.
  - intros data. apply find_in_records.
Qed.

(** X22.  [/epochs/<ts>/location] answers 404 with
    [{'error': 'Epoch not found'}] when no record has the decoded
    timestamp; otherwise, when the libraries answer, it answers with what
    [cartesian_to_geo] makes of the position of the first record with that
    timestamp: a list of one dictionary with [lat], [lon], [alt],
    [geoloc]. *)
Theorem get_epoch_location_of_first_match :
  forall path w doc w1 formatted_data w2,
    fetch_data xmltodict_parse w = (Return doc, w1) ->
    format_data libc doc w1 = (Return (PList formatted_data), w2) ->
    let epoch := Str.replace "_" ":" (Str.replace "__" " " path) in
    (find (has_timestamp epoch) formatted_data = None ->
       get_epoch_location libc xmltodict_parse obstime to_earth_location geocoder_reverse
         path w
       = (Return (BodyStatus (PDict [("error", PStr "Epoch not found")]) 404), w2))
    /\ (forall x y z dx dy dz t ears geoloc,
          find (has_timestamp epoch) formatted_data = Some (record epoch x y z dx dy dz) ->
          obstime (PStr epoch) = Return t ->
          to_earth_location t (PFloat x) (PFloat y) (PFloat z) = Return ears ->
          geocoder_reverse (lat_deg ears) (corrected_longitude (lon_deg ears))
          = Return geoloc ->
          get_epoch_location libc xmltodict_parse obstime to_earth_location geocoder_reverse
            path w
          = (Return (Body (PList [PDict [("lat", PFloat (lat_deg ears));
                                         ("lon", PFloat (corrected_longitude (lon_deg ears)));
                                         ("alt", PFloat (height_value ears));
                                         ("geoloc", PStr (place_text geoloc))]])), w2)).
Proof.
  intros path w doc w1 fd w2 Hfetch Hformat epoch.
  destruct (format_data_returns_records _ _ _ _ _ Hformat) as (entries & [= ->]).
  pose proof (normalized_list_records libc entries) as Hrec.
  assert (Hrun : get_epoch_location libc xmltodict_parse obstime to_earth_location
                   geocoder_reverse path w
                 = get_epoch_location_loop obstime to_earth_location geocoder_reverse
                     (normalized_list libc entries) epoch w2).
  { unfold get_epoch_location.
    rewrite (bind_return _ _ _ _ _ Hfetch), (bind_return _ _ _ _ _ Hformat). reflexivity. }
  rewrite Hrun, (get_epoch_location_loop_spec _ _ _ _ _ _ Hrec).
  split.
  - intros ->. reflexivity.
  - intros x y z dx dy dz t ears geoloc -> Ht Hloc Hgeo.
    rewrite (bind_return _ _ _ _ _
               (cartesian_to_geo_success obstime to_earth_location geocoder_reverse
                  (record epoch x y z dx dy dz) (PStr epoch) t (PFloat x) (PFloat y)
                  (PFloat z) ears geoloc w2 eq_refl Ht eq_refl eq_refl eq_refl Hloc Hgeo)).
    reflexivity.
Qed.

End EpochRoutes.

Lemma get_epoch_speed_of_first_match_witness :
  get_epoch_speed Datetime.Plain correctly_rounded fixture_parse
    "1000-01-04__00_00_00.000000" fixture_upstream
  = (Return (Body (PDict [("speed", PFloat (speed correctly_rounded (22, -23, 24)%float))])),
     quiet).
Proof.
  destruct (get_epoch_speed_of_first_match Datetime.Plain correctly_rounded fixture_parse
              "1000-01-04__00_00_00.000000" fixture_upstream test_data_dict quiet
              test_formatted_data quiet eq_refl eq_refl) as (_ & Hfound & _).
  apply (Hfound (-19)%float 20%float (-21)%float 22%float (-23)%float 24%float).
  - vm_compute. reflexivity.
  - vm_compute. reflexivity.
Defined.

Lemma get_epoch_location_of_first_match_witness :
  get_epoch_location Datetime.Plain fixture_parse (fun _ => Return 0%float)
    (fun _ _ _ _ => Return (mkEarthLocation 10 20 400)) (fun _ _ => Return None)
    "1000-01-04__00_00_00.000000" fixture_upstream
  = (Return (Body (PList [PDict [("lat", PFloat 10);
                                 ("lon", PFloat (corrected_longitude 20));
                                 ("alt", PFloat 400);
                                 ("geoloc", PStr (place_text None))]])), quiet).
Proof.
  destruct (get_epoch_location_of_first_match Datetime.Plain fixture_parse
              (fun _ => Return 0%float)
              (fun _ _ _ _ => Return (mkEarthLocation 10 20 400)) (fun _ _ => Return None)
              "1000-01-04__00_00_00.000000" fixture_upstream test_data_dict quiet
              test_formatted_data quiet eq_refl eq_refl) as (_ & Hfound).
  apply (Hfound (-19)%float 20%float (-21)%float 22%float (-23)%float 24%float
           0%float (mkEarthLocation 10 20 400) None).
  - vm_compute. reflexivity.
  - reflexivity.
  - reflexivity.
  - reflexivity.
Defined.

(* ================================================================== *)
(** * [/now], and every route when the upstream fails *)
(* ================================================================== *)

Section Now.

Variable libc : Datetime.year_style.
Variable libm : PyFloat.math_library.
Variable utcnow : Datetime.datetime.
Variable xmltodict_parse : string -> outcome raw.
Variable obstime : pyval -> outcome float.
Variable to_earth_location : float -> pyval -> pyval -> pyval -> outcome earth_location.
Variable geocoder_reverse : float -> float -> outcome (option string).

(** X23.  When the feed yields no record, [/now] does not fail: it answers
    with [{'closest_epoch': None, 'speed': None, 'geo': None}], and each of
    the three functions behind it has logged its line.  Neither the clock
    nor the libraries matter. *)
Theorem get_now_without_epochs :
  forall w doc w1 w2,
    fetch_data xmltodict_parse w = (Return doc, w1) ->
    format_data libc doc w1 = (Return (PList []), w2) ->
    get_now libc libm utcnow xmltodict_parse obstime to_earth_location geocoder_reverse w
    = (Return (Body (PDict [("closest_epoch", PNone); ("speed", PNone); ("geo", PNone)])),
       logged (logged (logged w2 "Error: Unable to calculate closest epoch")
                      "Error: Missing or incorrect keys in closest_epoch")
              "Error: Missing or incorrect timestamp key in epoch").
Proof.
  intros w doc w1 w2 Hfetch Hformat. unfold get_now.
  rewrite (bind_return _ _ _ _ _ Hfetch), (bind_return _ _ _ _ _ Hformat).
  assert (Hclosest : find_closest_epoch libc utcnow (PList []) w2
                     = (Return PNone, logged w2 "Error: Unable to calculate closest epoch")).
  { rewrite find_closest_epoch_unfold. unfold try_except, bind, strptime_canonical.
    destruct (Datetime.strptime_timestamp (Datetime.strftime_canonical libc utcnow));
      reflexivity. }
  rewrite (bind_return _ _ _ _ _ Hclosest).
  rewrite (bind_return _ _ _ _ _
             (instantaneous_speed_unsubscriptable libm PNone _ eq_refl)).
  rewrite (bind_return _ _ _ _ _
             (geo_unsubscriptable obstime to_earth_location geocoder_reverse PNone _ eq_refl)).
  reflexivity.
Qed.

(** X24.  When the clock reads an existing date and every record of a
    non-empty feed has a timestamp that is read back, the
    ['closest_epoch'] of [/now] is a record of the feed that no other
    record beats in nearness to the clock, ['speed'] is the speed of that
    same record and ['geo'] is [cartesian_to_geo] of that same record
    (for a velocity in range and libraries that answer); nothing is
    logged. *)
Theorem get_now_closest_epoch :
  forall w doc w1 formatted_data w2,
    fetch_data xmltodict_parse w = (Return doc, w1) ->
    format_data libc doc w1 = (Return (PList formatted_data), w2) ->
    valid utcnow = true ->
    libc = Datetime.ZeroFilled \/ 1000 <= Datetime.year utcnow ->
    formatted_data <> [] ->
    Forall (fun r => epoch_time r <> None) formatted_data ->
    exists ts x y z dx dy dz d,
      let closest_epoch := record ts x y z dx dy dz in
      In closest_epoch formatted_data
      /\ epoch_distance utcnow closest_epoch = Some d
      /\ (forall r, In r formatted_data ->
            exists d', epoch_distance utcnow r = Some d' /\ d <= d')
      /\ (forall t ears geoloc,
            velocity_in_range libm (dx, dy, dz) = true ->
            obstime (PStr ts) = Return t ->
            to_earth_location t (PFloat x) (PFloat y) (PFloat z) = Return ears ->
            geocoder_reverse (lat_deg ears) (corrected_longitude (lon_deg ears))
            = Return geoloc ->
            get_now libc libm utcnow xmltodict_parse obstime to_earth_location
              geocoder_reverse w
            = (Return (Body (PDict
                 [("closest_epoch", closest_epoch);
                  ("speed", PFloat (speed libm (dx, dy, dz)));
                  ("geo", PList [PDict [("lat", PFloat (lat_deg ears));
                                        ("lon", PFloat (corrected_longitude (lon_deg ears)));
                                        ("alt", PFloat (height_value ears));
                                        ("geoloc", PStr (place_text geoloc))]])])), w2)).
Proof.
  intros w doc w1 fd w2 Hfetch Hformat Hvalid Hyear Hne Hall.
  destruct (py_min_closest utcnow fd w2 Hne Hall)
    as (before & r & after & d & Heq & Hrun & Hd & Hb & Ha).
  assert (Hin : In r fd) by (rewrite Heq; apply in_elt).
  destruct (format_data_returns_records _ _ _ _ _ Hformat) as (entries & [= Hfd]).
  pose proof (normalized_list_records libc entries) as Hrec.
  rewrite <- Hfd, Forall_forall in Hrec.
  destruct (Hrec r Hin) as (ts & x & y & z & dx & dy & dz & ->).
  exists ts, x, y, z, dx, dy, dz, d. cbv zeta.
  split; [exact Hin|]. split; [exact Hd|]. split.
  - intros c Hc. rewrite Heq in Hc. apply in_app_or in Hc as [Hc|[<-|Hc]].
    + destruct (Hb c Hc) as (d' & Hd' & Hlt). exists d'. split; [exact Hd'|lia].
    + exists d. split; [exact Hd|lia].
    + apply Ha, Hc.
  - intros t ears geoloc Hr Ht Hloc Hgeo. unfold get_now.
    rewrite (bind_return _ _ _ _ _ Hfetch), (bind_return _ _ _ _ _ Hformat).
    erewrite (bind_return (find_closest_epoch libc utcnow (PList fd)) _ _ w2 w2).
    2:{ rewrite (find_closest_epoch_with_clock libc utcnow _ w2 Hvalid Hyear).
        unfold try_except. rewrite Hrun. reflexivity. }
    rewrite (bind_return _ _ _ _ _
               (instantaneous_speed_spec libm (record ts x y z dx dy dz) (dx, dy, dz) w2
                  eq_refl Hr)).
    rewrite (bind_return _ _ _ _ _
               (cartesian_to_geo_success obstime to_earth_location geocoder_reverse
                  (record ts x y z dx dy dz) (PStr ts) t (PFloat x) (PFloat y)
                  (PFloat z) ears geoloc w2 eq_refl Ht eq_refl eq_refl eq_refl Hloc Hgeo)).
    reflexivity.
Qed.

(** X25.  When the upstream answers with a status other than 200, or with
    a body that is not well-formed XML, [fetch_data] logs one line and
    returns [None], and every route then raises [TypeError] out of its
    extractor ([None] cannot be subscripted): none of them answers with an
    empty body. *)
Theorem routes_raise_when_upstream_fails :
  forall st body lg rest args path,
    st <> 200 \/ (exists msg, xmltodict_parse body = Raise (ExpatError msg)) ->
    exists line,
      let w := {| log := lg; upstream := HttpResponse st body :: rest |} in
      let w' := {| log := (lg ++ [line])%list; upstream := rest |} in
      fetch_data xmltodict_parse w = (Return RNone, w')
      /\ get_header xmltodict_parse w = (Raise TypeError, w')
      /\ get_comment xmltodict_parse w = (Raise TypeError, w')
      /\ get_metadata xmltodict_parse w = (Raise TypeError, w')
      /\ get_epochs libc xmltodict_parse args w = (Raise TypeError, w')
      /\ get_epoch libc xmltodict_parse path w = (Raise TypeError, w')
      /\ get_epoch_speed libc libm xmltodict_parse path w = (Raise TypeError, w')
      /\ get_epoch_location libc xmltodict_parse obstime to_earth_location geocoder_reverse
           path w = (Raise TypeError, w')
      /\ get_now libc libm utcnow xmltodict_parse obstime to_earth_location geocoder_reverse w
         = (Raise TypeError, w').
Proof.
  intros st body lg rest args path Hfail.
  assert (Hfetch : exists line,
            fetch_data xmltodict_parse {| log := lg; upstream := HttpResponse st body :: rest |}
            = (Return RNone, {| log := (lg ++ [line])%list; upstream := rest |})).
  { destruct (Z.eq_dec st 200) as [->|Hst].
    - destruct Hfail as [Hst|[msg Hmsg]]; [contradiction|].
      eexists. rewrite (fetch_data_malformed_xml _ _ _ _ _ Hmsg). reflexivity.
    - eexists. rewrite (fetch_data_bad_status _ _ _ _ _ Hst). reflexivity. }
  destruct Hfetch as (line & Hfetch). exists line. cbv zeta.
  split; [exact Hfetch|].
  unfold get_header, get_comment, get_metadata, get_epochs, get_epoch, get_epoch_speed,
    get_epoch_location, get_now.
  rewrite !(bind_return _ _ _ _ _ Hfetch).
  repeat split; reflexivity.
Qed.

End Now.

Lemma get_now_without_epochs_witness :
  get_now Datetime.Plain correctly_rounded noon (fun _ => Return (RDict []))
    (fun _ => Return 0%float) (fun _ _ _ _ => Return (mkEarthLocation 10 20 400))
    (fun _ _ => Return None) fixture_upstream
  = (Return (Body (PDict [("closest_epoch", PNone); ("speed", PNone); ("geo", PNone)])),
     logged (logged (logged (logged quiet "Error: Missing or incorrect key in data dictionary")
                            "Error: Unable to calculate closest epoch")
                    "Error: Missing or incorrect keys in closest_epoch")
            "Error: Missing or incorrect timestamp key in epoch").
Proof.
  apply (get_now_without_epochs Datetime.Plain correctly_rounded noon
           (fun _ => Return (RDict []))
           (fun _ => Return 0%float) (fun _ _ _ _ => Return (mkEarthLocation 10 20 400))
           (fun _ _ => Return None) fixture_upstream (RDict []) quiet);
    reflexivity.
Defined.

Lemma get_now_closest_epoch_witness :
  exists ts x y z dx dy dz d,
    let closest_epoch := record ts x y z dx dy dz in
    In closest_epoch test_formatted_data
    /\ epoch_distance noon closest_epoch = Some d
    /\ (forall r, In r test_formatted_data ->
          exists d', epoch_distance noon r = Some d' /\ d <= d')
    /\ (forall t ears geoloc,
          velocity_in_range correctly_rounded (dx, dy, dz) = true ->
          (fun _ : pyval => Return 0%float) (PStr ts) = Return t ->
          (fun _ _ _ _ => Return (mkEarthLocation 10 20 400)) t (PFloat x) (PFloat y)
            (PFloat z) = Return ears ->
          (fun _ _ : float => @Return (option string) None)
            (lat_deg ears) (corrected_longitude (lon_deg ears)) = Return geoloc ->
          get_now Datetime.Plain correctly_rounded noon fixture_parse
            (fun _ => Return 0%float) (fun _ _ _ _ => Return (mkEarthLocation 10 20 400))
            (fun _ _ => Return None) fixture_upstream
          = (Return (Body (PDict
               [("closest_epoch", closest_epoch);
                ("speed", PFloat (speed correctly_rounded (dx, dy, dz)));
                ("geo", PList [PDict [("lat", PFloat (lat_deg ears));
                                      ("lon", PFloat (corrected_longitude (lon_deg ears)));
                                      ("alt", PFloat (height_value ears));
                                      ("geoloc", PStr (place_text geoloc))]])])), quiet)).
Proof.
  apply (get_now_closest_epoch Datetime.Plain correctly_rounded noon fixture_parse
           (fun _ => Return 0%float) (fun _ _ _ _ => Return (mkEarthLocation 10 20 400))
           (fun _ _ => Return None) fixture_upstream test_data_dict quiet
           test_formatted_data quiet).
  - reflexivity.
  - vm_compute. reflexivity.
  - reflexivity.
  - right. cbn. lia.
  - discriminate.
  - repeat constructor; intros H; vm_compute in H; discriminate H.
Defined.

Example test_get_now :
  get_now Datetime.Plain correctly_rounded noon fixture_parse
    (fun _ => Return 0%float) (fun _ _ _ _ => Return (mkEarthLocation 10 20 400))
    (fun _ _ => Return None) fixture_upstream
  = (Return (Body (PDict
       [("closest_epoch", record "1000-01-04 00:00:00.000000" (-19) 20 (-21) 22 (-23) 24);
        ("speed", PFloat 0x1.3ee5ea11783e6p+5);
        ("geo", PList [PDict [("lat", PFloat 10); ("lon", PFloat 95); ("alt", PFloat 400);
                              ("geoloc", PStr "Over Ocean or Unknown")]])])), quiet).
Proof. vm_compute. reflexivity. Qed.

Lemma routes_raise_when_upstream_fails_witness :
  exists line,
    get_header fixture_parse {| log := []; upstream := [HttpResponse 503 ""] |}
    = (Raise TypeError, {| log := ([] ++ [line])%list; upstream := [] |}).
Proof.
  destruct (routes_raise_when_upstream_fails Datetime.Plain correctly_rounded noon
              fixture_parse (fun _ => Return 0%float)
              (fun _ _ _ _ => Return (mkEarthLocation 10 20 400)) (fun _ _ => Return None)
              503 "" [] [] (mkQuery None None) "x"
              (or_introl (ltac:(discriminate) : 503 <> 200)))
    as (line & _ & H & _).
  exists line. exact H.
Defined.

(* ================================================================== *)
(** * The plain timestamp as a path *)
(* ================================================================== *)

Lemma replace_double_underscore_plain s :
  round_trips s = true -> Str.replace "__" " " s = s.
Proof.
  induction s as [|a rest IH]; [reflexivity|].
  cbn [round_trips]. intros H.
  apply andb_prop in H as [H Hrest]. apply andb_prop in H as [Hu _].
  apply negb_true_iff, Ascii.eqb_neq in Hu.
  rewrite (replace_double_underscore_cons a rest Hu), (IH Hrest). reflexivity.
Qed.

Lemma subst_underscore_plain s :
  round_trips s = true -> subst_char "_" ":" s = s.
Proof.
  induction s as [|a rest IH]; [reflexivity|].
  cbn [round_trips]. intros H.
  apply andb_prop in H as [H Hrest]. apply andb_prop in H as [Hu _].
  apply negb_true_iff, Ascii.eqb_neq in Hu.
  cbn [subst_char]. destruct (Ascii.eqb_spec "_" a) as [<-|_]; [contradiction|].
  rewrite (IH Hrest). reflexivity.
Qed.

Lemma decode_epoch_plain s : round_trips s = true -> decode_epoch s = s.
Proof.
  intros H. unfold decode_epoch.
  rewrite (replace_double_underscore_plain s H), (replace_single "_" ":").
  apply subst_underscore_plain, H.
Qed.

(** X26.  The timestamp of a record has no underscore, so the decoding of
    the three epoch routes leaves it as it is: [/epochs/<ts>],
    [/epochs/<ts>/speed] and [/epochs/<ts>/location] answer the same to the
    timestamp itself as to its encoding with ["__"] and ["_"]. *)
Theorem epoch_routes_accept_plain_timestamp :
  forall libc libm xmltodict_parse obstime to_earth_location geocoder_reverse
         data_dict w formatted_data w' data,
    format_data libc data_dict w = (Return (PList formatted_data), w') ->
    In data formatted_data ->
    exists ts,
      getitem data "timestamp" = ret (PStr ts)
      /\ decode_epoch ts = ts
      /\ get_epoch libc xmltodict_parse ts
         = get_epoch libc xmltodict_parse (encode_epoch ts)
      /\ get_epoch_speed libc libm xmltodict_parse ts
         = get_epoch_speed libc libm xmltodict_parse (encode_epoch ts)
      /\ get_epoch_location libc xmltodict_parse obstime to_earth_location geocoder_reverse ts
         = get_epoch_location libc xmltodict_parse obstime to_earth_location geocoder_reverse
             (encode_epoch ts).
Proof.
  intros libc libm parse obstime to_el rev d w fd w' data Hformat Hin.
  destruct (format_data_returns_records _ _ _ _ _ Hformat) as (entries & [= ->]).
  destruct (normalized_list_timestamps _ _ _ Hin) as (t & x & y & z & dx & dy & dz & ->).
  pose proof (strftime_round_trips libc t) as Hrt.
  exists (Datetime.strftime_canonical libc t).
  pose proof (decode_epoch_plain _ Hrt) as Hplain.
  pose proof (round_trip _ Hrt) as Hcoded.
  split; [reflexivity|]. split; [exact Hplain|].
  unfold get_epoch, get_epoch_speed, get_epoch_location.
  rewrite Hplain, Hcoded. repeat split; reflexivity.
Qed.

Lemma epoch_routes_accept_plain_timestamp_witness :
  exists ts,
    getitem (record "1000-01-03 00:00:00.000000" 13 (-14) 15 16 (-17) 18) "timestamp"
    = ret (PStr ts)
    /\ decode_epoch ts = ts
    /\ get_epoch Datetime.Plain fixture_parse ts
       = get_epoch Datetime.Plain fixture_parse (encode_epoch ts)
    /\ get_epoch_speed Datetime.Plain correctly_rounded fixture_parse ts
       = get_epoch_speed Datetime.Plain correctly_rounded fixture_parse (encode_epoch ts)
    /\ get_epoch_location Datetime.Plain fixture_parse (fun _ => Return 0%float)
         (fun _ _ _ _ => Return (mkEarthLocation 10 20 400)) (fun _ _ => Return None) ts
       = get_epoch_location Datetime.Plain fixture_parse (fun _ => Return 0%float)
           (fun _ _ _ _ => Return (mkEarthLocation 10 20 400)) (fun _ _ => Return None)
           (encode_epoch ts).
Proof.
  apply (epoch_routes_accept_plain_timestamp Datetime.Plain correctly_rounded fixture_parse
           (fun _ => Return 0%float) (fun _ _ _ _ => Return (mkEarthLocation 10 20 400))
           (fun _ _ => Return None) test_data_dict quiet test_formatted_data quiet
           (record "1000-01-03 00:00:00.000000" 13 (-14) 15 16 (-17) 18)).
  - vm_compute. reflexivity.
  - cbn. tauto.
Defined.

(* ================================================================== *)
(** * Day 366 *)
(* ================================================================== *)

(** X27.  An [EPOCH] of day 366 is read in every year from 1 to 9999: as
    the 31st of December in a leap year, and as the first of January of
    the next year in a common year (the entry is kept, with that date);
    only for the common year 9999 is it refused. *)
Theorem strptime_epoch_day_366 :
  forall y H Mi S us,
    1 <= y <= 9999 -> 0 <= H <= 23 -> 0 <= Mi <= 59 -> 0 <= S <= 59 -> 0 <= us <= 999999 ->
    Datetime.strptime_epoch
      (Str.zero_padded 4 y ++ "-366T" ++ Str.zero_padded 2 H ++ ":" ++ Str.zero_padded 2 Mi
       ++ ":" ++ Str.zero_padded 2 S ++ "." ++ Str.zero_padded 6 us ++ "Z")
    = if Datetime.is_leap y then Some (Datetime.mkDatetime y 12 31 H Mi S us)
      else if y <? 9999 then Some (Datetime.mkDatetime (y + 1) 1 1 H Mi S us)
      else None.
Proof.
  intros y H Mi S us Hy HH HMi HS Hus.
  unfold Datetime.strptime_epoch.
  rewrite (directive_zero_padded 4 4 _ 4 y) by (cbn; first [lia | reflexivity]).
  cbn [append]. rewrite literal_same.
  change (String "3" (String "6" (String "6" (String "T" ?r))))
    with ("366" ++ String "T" r).
  unfold Datetime.directive at 1.
  rewrite (span_digits_app "366") by reflexivity.
  cbn [String.length Nat.leb andb].
  change (Str.int_of_digits "366") with 366.
  change ((1 <=? 366) && (366 <=? 366)) with true. cbv iota.
  rewrite literal_same.
  rewrite (directive_zero_padded 1 2 _ 2 H)
    by first [lia | cbn; lia | reflexivity | apply Z.leb_le; lia].
  rewrite literal_same.
  rewrite (directive_zero_padded 1 2 _ 2 Mi)
    by first [lia | cbn; lia | reflexivity | apply Z.leb_le; lia].
  rewrite literal_same.
  rewrite (directive_zero_padded 1 2 _ 2 S)
    by first [lia | cbn; lia | reflexivity | apply Z.leb_le; lia].
  rewrite literal_same.
  rewrite (directive_zero_padded 1 6 _ 6 us) by first [lia | cbn; lia | reflexivity].
  rewrite literal_same.
  unfold Datetime.fraction_value. rewrite length_zero_padded.
  rewrite !int_of_digits_zero_padded by (cbn; lia).
  replace (us * 10 ^ Z.of_nat (6 - 6)) with us by (cbn; lia).
  destruct (Z.ltb_spec 59 S); [lia|].
  unfold Datetime.date_of_year_day, Datetime.days_in_year, Datetime.month_lengths.
  destruct (Z.ltb_spec y 1); [lia|]. destruct (Z.ltb_spec 9999 y); [lia|]. cbn [orb].
  destruct (Datetime.is_leap y).
  - reflexivity.
  - change (366 <=? 365) with false. cbv iota.
    destruct (Z.ltb_spec 9999 (y + 1)); destruct (Z.ltb_spec y 9999); try lia; reflexivity.
Qed.

Lemma strptime_epoch_day_366_witness :
  Datetime.strptime_epoch
    (Str.zero_padded 4 2023 ++ "-366T" ++ Str.zero_padded 2 12 ++ ":" ++ Str.zero_padded 2 0
     ++ ":" ++ Str.zero_padded 2 0 ++ "." ++ Str.zero_padded 6 0 ++ "Z")
  = if Datetime.is_leap 2023 then Some (Datetime.mkDatetime 2023 12 31 12 0 0 0)
    else if 2023 <? 9999 then Some (Datetime.mkDatetime (2023 + 1) 1 1 12 0 0 0)
    else None.
Proof.
  apply (strptime_epoch_day_366 2023 12 0 0 0); lia.
Defined.

(* ================================================================== *)
(** * Every route when the upstream cannot be reached *)
(* ================================================================== *)

(** X28.  When the GET raises any exception of [requests] (a refused
    connection, a timeout), [fetch_data] raises [UnboundLocalError] out of
    its handler, and so does every route; nothing is logged. *)
Theorem routes_raise_when_upstream_unreachable :
  forall libc libm utcnow xmltodict_parse obstime to_earth_location geocoder_reverse
         e lg rest args path,
    is_RequestException e = true ->
    let w := {| log := lg; upstream := TransportFailure e :: rest |} in
    let w' := {| log := lg; upstream := rest |} in
    fetch_data xmltodict_parse w = (Raise (UnboundLocalError "response"), w')
    /\ get_header xmltodict_parse w = (Raise (UnboundLocalError "response"), w')
    /\ get_comment xmltodict_parse w = (Raise (UnboundLocalError "response"), w')
    /\ get_metadata xmltodict_parse w = (Raise (UnboundLocalError "response"), w')
    /\ get_epochs libc xmltodict_parse args w = (Raise (UnboundLocalError "response"), w')
    /\ get_epoch libc xmltodict_parse path w = (Raise (UnboundLocalError "response"), w')
    /\ get_epoch_speed libc libm xmltodict_parse path w
       = (Raise (UnboundLocalError "response"), w')
    /\ get_epoch_location libc xmltodict_parse obstime to_earth_location geocoder_reverse
         path w = (Raise (UnboundLocalError "response"), w')
    /\ get_now libc libm utcnow xmltodict_parse obstime to_earth_location geocoder_reverse w
       = (Raise (UnboundLocalError "response"), w').
Proof.
  intros libc libm utcnow parse obstime to_el rev e lg rest args path He. cbv zeta.
  assert (Hfetch : fetch_data parse {| log := lg; upstream := TransportFailure e :: rest |}
            = (Raise (UnboundLocalError "response"), {| log := lg; upstream := rest |})).
  { unfold fetch_data, bind, attempt, requests_get. simpl. rewrite He. reflexivity. }
  split; [exact Hfetch|].
  unfold get_header, get_comment, get_metadata, get_epochs, get_epoch, get_epoch_speed,
    get_epoch_location, get_now.
  repeat split; apply (bind_raise _ _ _ _ _ Hfetch).
Qed.

Lemma routes_raise_when_upstream_unreachable_witness :
  get_now Datetime.Plain correctly_rounded noon fixture_parse (fun _ => Return 0%float)
    (fun _ _ _ _ => Return (mkEarthLocation 10 20 400)) (fun _ _ => Return None)
    {| log := []; upstream := [TransportFailure (Timeout "timed out")] |}
  = (Raise (UnboundLocalError "response"), {| log := []; upstream := [] |}).
Proof.
  apply (routes_raise_when_upstream_unreachable Datetime.Plain correctly_rounded noon
           fixture_parse (fun _ => Return 0%float)
           (fun _ _ _ _ => Return (mkEarthLocation 10 20 400)) (fun _ _ => Return None)
           (Timeout "timed out") [] [] (mkQuery None None) "x" eq_refl).
Defined.
